(** * Lending-pool interaction scripts: a shallow embedding

    The repository is a set of operator scripts (TypeScript, run under
    hardhat) that talk to a deployed lending pool: [supply], [borrow],
    [repay], [withdraw], and the diagnostics [check-pool-config],
    [check-balance] and [list-pool-reserves] (of the last one only the
    lines that decode the reserve status, which it shares with
    [check-pool-config]).

    Modelling choices.
    - [process.env] is a finite map from names to strings ([gmap]).
    - An ethers [BigNumber] is a [Z]; its operations that throw do so here
      as well ([Res]).
    - Every script is a computation in the [Script] monad: it appends
      events (external calls and console lines) to a trace, may throw, may
      [return] early, and may [try]/[catch].
    - The chain is an arbitrary deterministic oracle: a function from the
      history of events and the present call to a response; the accounts
      of [ethers.getSigners()] are an input of the run.
    - The awaits of the Hardhat environment itself, [ethers.getSigners()]
      and [ethers.getContractAt(artifact, address)], reject when the node
      cannot be reached or the artifact is missing.  A [Node] says, from
      the history, which of them reject and with which message; a [World]
      is a node on which they all resolve.  [new ethers.Contract(...)]
      builds an object without a request and does not fail.
    - The trace records every external call, and the console lines that
      carry a decision: error reports and hints, health-factor renderings,
      balance rows and the message printed before each early return.
      Other console output (banners, the echo of the configuration,
      formatted amounts) cannot change control flow and is left out, except
      that [formatUnits] is kept where it can throw.  Pictographs that
      decorate the messages are dropped from the string literals, and
      the infinity sign is written [oo]. *)

From Stdlib Require Import ZArith Bool Ascii String List Lia.
From stdpp Require Import base gmap strings.
Import ListNotations.

Open Scope Z_scope.
Open Scope list_scope.

(** ** Results of operations that may throw *)

Inductive Res (A : Type) : Type :=
| Ok (a : A)
| Err (msg : string).
Arguments Ok {A} a.
Arguments Err {A} msg.

Definition Res_bind {A B} (m : Res A) (f : A -> Res B) : Res B :=
  match m with
  | Ok a => f a
  | Err msg => Err msg
  end.

Declare Scope res_scope.
Delimit Scope res_scope with res.
Notation "'let*' x ':=' m 'in' k" := (Res_bind m (fun x => k))
  (at level 10, x name, m at level 100, k at level 200) : res_scope.

(** ** JavaScript helpers *)

Module JS.

(** [s1.startsWith(s2)] on byte strings. *)
Fixpoint startsWith (needle hay : string) : bool :=
  match needle, hay with
  | EmptyString, _ => true
  | String _ _, EmptyString => false
  | String a n', String b h' => Ascii.eqb a b && startsWith n' h'
  end.

(** [hay.includes(needle)]: does [needle] occur somewhere in [hay]. *)
Fixpoint includes (needle hay : string) : bool :=
  startsWith needle hay ||
  match hay with
  | EmptyString => false
  | String _ h' => includes needle h'
  end.

(** Truthiness of an environment value: [undefined] and the empty string
    are falsy, every other string is truthy. *)
Definition truthy (v : option string) : bool :=
  match v with
  | Some s => negb (String.eqb s "")
  | None => false
  end.

(** [a || b] on two possibly undefined strings. *)
Definition or (a b : option string) : option string :=
  if truthy a then a else b.

(** [a || 'literal']. *)
Definition orDefault (a : option string) (d : string) : string :=
  match a with
  | Some s => if String.eqb s "" then d else s
  | None => d
  end.

(** White space skipped by [parseInt] (the ASCII part of it). *)
Definition isSpace (c : ascii) : bool :=
  let n := nat_of_ascii c in
  ((9 <=? n) && (n <=? 13))%nat || (n =? 32)%nat.

Fixpoint trimStart (s : string) : string :=
  match s with
  | String c s' => if isSpace c then trimStart s' else s
  | EmptyString => s
  end.

(** Value of a digit in the given radix, if it is one. *)
Definition digitValue (radix : Z) (c : ascii) : option Z :=
  let n := Z.of_nat (nat_of_ascii c) in
  let v := if (48 <=? n) && (n <=? 57) then Some (n - 48)
           else if (97 <=? n) && (n <=? 122) then Some (n - 87)
           else if (65 <=? n) && (n <=? 90) then Some (n - 55)
           else None in
  match v with
  | Some d => if d <? radix then Some d else None
  | None => None
  end.

(** Longest prefix of digits, accumulated left to right; [None] when the
    string does not start with a digit. *)
Fixpoint digitsPrefix (radix : Z) (acc : option Z) (s : string) : option Z :=
  match s with
  | EmptyString => acc
  | String c s' =>
      match digitValue radix c with
      | Some d =>
          digitsPrefix radix (Some (match acc with
                                    | Some a => a * radix + d
                                    | None => d
                                    end)) s'
      | None => acc
      end
  end.

(** [parseInt(s)] with no radix argument; [None] is [NaN].  The result is
    an exact integer (the loss of precision of a double beyond 2^53 is not
    modelled). *)
Definition parseInt (s : string) : option Z :=
  let s1 := trimStart s in
  let '(neg, s2) :=
    match s1 with
    | String "-" r => (true, r)
    | String "+" r => (false, r)
    | _ => (false, s1)
    end in
  let '(radix, s3) :=
    match s2 with
    | String "0" (String "x" r) => (16, r)
    | String "0" (String "X" r) => (16, r)
    | _ => (10, s2)
    end in
  match digitsPrefix radix None s3 with
  | Some v => Some (if neg then - v else v)
  | None => None
  end.

End JS.

(** ** The ethers library: big numbers and unit conversion *)

Module Ethers.

Definition MaxUint256 : Z := 2 ^ 256 - 1.

Definition AddressZero : string := "0x0000000000000000000000000000000000000000".

(** [x.shr(n)]: refuses negative operands. *)
Definition shr (x n : Z) : Res Z :=
  if (x <? 0) || (n <? 0) then Err "negative-width" else Ok (Z.shiftr x n).

(** [x.and(y)]: refuses negative operands. *)
Definition and (x y : Z) : Res Z :=
  if (x <? 0) || (y <? 0) then Err "unbound-bitwise-result"
  else Ok (Z.land x y).

(** [getMultiplier(decimals)]: the decimals must be an integer in 0..256.
    [None] stands for [NaN]. *)
Definition getMultiplier (decimals : option Z) : Res Z :=
  match decimals with
  | Some d => if (0 <=? d) && (d <=? 256) then Ok (10 ^ d)
              else Err "invalid decimal size"
  | None => Err "invalid decimal size"
  end.

Definition isDigit (c : ascii) : bool :=
  let n := nat_of_ascii c in ((48 <=? n) && (n <=? 57))%nat.

Definition isDot (c : ascii) : bool := Ascii.eqb c ".".

(** The test [/^[0-9.]+$/] on the part after an optional sign. *)
Fixpoint allDigitsOrDots (s : string) : bool :=
  match s with
  | EmptyString => true
  | String c s' => (isDigit c || isDot c) && allDigitsOrDots s'
  end.

(** [value.split(".")]. *)
Fixpoint splitDots (s : string) : list string :=
  match s with
  | EmptyString => [""]
  | String c s' =>
      if isDot c then "" :: splitDots s'
      else match splitDots s' with
           | h :: t => String c h :: t
           | [] => [String c ""]
           end
  end.

(** Value of a string of decimal digits ([BigNumber.from]). *)
Fixpoint digitsValue (acc : Z) (s : string) : Z :=
  match s with
  | EmptyString => acc
  | String c s' => digitsValue (acc * 10 + (Z.of_nat (nat_of_ascii c) - 48)) s'
  end.

(** Remove trailing zeros of the fractional part. *)
Fixpoint trimTrailingZeros (s : string) : string :=
  match s with
  | EmptyString => ""
  | String c s' =>
      match trimTrailingZeros s' with
      | EmptyString => if Ascii.eqb c "0" then "" else String c ""
      | r => String c r
      end
  end.

(** [parseUnits(value, decimals)], that is [parseFixed]: a decimal string
    scaled by [10^decimals].  Padding the fraction with zeros on the
    right up to [decimals] digits is written as a multiplication. *)
Definition parseUnits (value : string) (decimals : option Z) : Res Z :=
  (let* multiplier := getMultiplier decimals in
   let '(negative, body) :=
     match value with
     | String "-" r => (true, r)
     | _ => (false, value)
     end in
   if negb (allDigitsOrDots body) || String.eqb body ""
   then Err "invalid decimal value"
   else if String.eqb body "." then Err "missing value"
   else
     match splitDots body with
     | [] => Err "invalid decimal value"
     | _ :: _ :: _ :: _ => Err "too many decimal points"
     | whole :: rest =>
         let fraction :=
           trimTrailingZeros (match rest with f :: _ => f | [] => "" end) in
         let places := Z.of_nat (String.length fraction) in
         if 10 ^ places >? multiplier
         then Err "fractional component exceeds decimals"
         else
           let wei := digitsValue 0 whole * multiplier
                      + digitsValue 0 fraction * (multiplier / 10 ^ places) in
           Ok (if negative then - wei else wei)
     end)%res.

(** [formatUnits(value, decimals)] throws exactly when the decimals are
    not acceptable; the rendered text itself is not modelled. *)
Definition formatUnits (value : Z) (decimals : option Z) : Res unit :=
  (let* _ := getMultiplier decimals in Ok tt)%res.

End Ethers.

(** ** The packed reserve configuration word *)

Record ReserveStatus : Type := mkReserveStatus {
  isActive : bool;
  isFrozen : bool
}.

(** [configData.shr(bit).and(1).eq(1)] *)
Definition flagAt (configData : Z) (bit : Z) : Res bool :=
  (let* shifted := Ethers.shr configData bit in
   let* masked := Ethers.and shifted 1 in
   Ok (masked =? 1))%res.

(** The two lines shared by [check-pool-config.ts] and
    [list-pool-reserves.ts]:
    [isActive = configData.shr(56).and(1).eq(1)],
    [isFrozen = configData.shr(57).and(1).eq(1)]. *)
Definition decodeStatus (configData : Z) : Res ReserveStatus :=
  (let* active := flagAt configData 56 in
   let* frozen := flagAt configData 57 in
   Ok (mkReserveStatus active frozen))%res.


(** ** Events, responses and the script monad *)

Definition address := string.

(** What the data provider reports for a user and a reserve. *)
Record UserReserveData : Type := mkUserReserveData {
  currentATokenBalance : Z;
  currentStableDebt : Z;
  currentVariableDebt : Z
}.

(** What the pool reports for a user. *)
Record AccountData : Type := mkAccountData {
  totalCollateralETH : Z;
  totalDebtETH : Z;
  availableBorrowsETH : Z;
  currentLiquidationThreshold : Z;
  ltv : Z;
  healthFactor : Z
}.

(** What the pool reports for a reserve (the fields the scripts use to
    decide something). *)
Record ReserveData : Type := mkReserveData {
  configuration_data : Z;
  aTokenAddress : address
}.

(** An entry of [getAllReservesTokens()], and of the local [reserves]
    array of [check-balance.ts]. *)
Record ReserveToken : Type := mkReserveToken {
  symbol : string;
  tokenAddress : address
}.

(** External calls.  The first five are transactions (submitted by the
    given sender and awaited with [tx.wait()]); the others are reads, or
    commands of a local test node. *)
Inductive Call : Type :=
| Approve (token sender spender : address) (amount : Z)
| Deposit (pool sender asset : address) (amount : Z)
          (onBehalfOf : address) (referralCode : Z)
| Withdraw (pool sender asset : address) (amount : Z) (to : address)
| Borrow (pool sender asset : address) (amount : Z)
         (rateMode : option Z) (referralCode : Z) (onBehalfOf : address)
| Repay (pool sender asset : address) (amount : Z)
        (rateMode : option Z) (onBehalfOf : address)
| BalanceOf (token user : address)
| TokenSymbol (token : address)
| TokenDecimals (token : address)
| Paused (pool : address)
| GetReserveData (pool asset : address)
| GetReservesList (pool : address)
| GetUserAccountData (pool user : address)
| GetUserReserveData (provider asset user : address)
| GetAllReservesTokens (provider : address)
| EvmIncreaseTime (seconds : option Z)
| EvmMine.

Definition isTransaction (c : Call) : bool :=
  match c with
  | Approve _ _ _ _ | Deposit _ _ _ _ _ _ | Withdraw _ _ _ _ _
  | Borrow _ _ _ _ _ _ _ | Repay _ _ _ _ _ _ => true
  | _ => false
  end.

(** Answers of the outside world.  [RFail] is a rejected promise (a
    revert, a network failure) carrying [error.message]. *)
Inductive Response : Type :=
| RDone
| RInt (z : Z)
| RBool (b : bool)
| RString (s : string)
| RAddresses (l : list address)
| RTokens (l : list ReserveToken)
| RReserve (r : ReserveData)
| RAccount (a : AccountData)
| RUserReserve (u : UserReserveData)
| RFail (msg : string).

(** Classification of a failure message; the hints the scripts print. *)
Inductive ErrorKind : Type :=
| InvalidCollateralReserve   (* borrow, code 1 *)
| InvalidAmount              (* borrow, code 3 *)
| InsufficientCollateral     (* borrow, code 11 *)
| PoolPaused                 (* borrow, code 64 *)
| NoMatchingDebt             (* repay, code 5 *)
| AmountExceedsDebt          (* repay, code 14 *)
| NoVariableDebt             (* repay, code 15 *)
| NotEnoughATokens           (* withdraw, code 32 *)
| BelowLiquidationThreshold  (* withdraw, code 35 *)
| InsufficientLiquidity      (* withdraw, code 33 *)
| Unrecognized.

(** How a health factor is shown. *)
Inductive HealthDisplay : Type :=
| HealthInfinite             (* 'Health Factor: oo (No debt)' *)
| HealthValue (hf : Z).      (* 'Health Factor:', formatUnits(hf, 18) *)

(** One row of [check-balance.ts]. *)
Record TokenBalance : Type := mkTokenBalance {
  wallet : Z;
  deposited : Z;
  total : Z
}.

(** Console lines kept in the trace. *)
Inductive Line : Type :=
| Text (s : string)                    (* a fixed message *)
| Failed (what : string)               (* 'Borrow failed!' and the like *)
| ErrorMessage (msg : string)          (* 'Error:', error.message *)
| Warning (what msg : string)          (* 'Could not ...:', e.message *)
| Hint (k : ErrorKind)                 (* 'Error code NN: ...' *)
| Health (d : HealthDisplay)
| BalanceRow (index : nat) (sym : string) (tb : TokenBalance)
| ReserveError (index : nat) (sym : string) (msg : string)
| StatusLine (st : ReserveStatus)     (* 'Is Active:', 'Is Frozen:' *)
| UncaughtError (msg : string).        (* console.error in main().catch *)

Inductive Event : Type :=
| ECall (c : Call)
| ELog (l : Line).

Definition Trace := list Event.

(** The outside world: the configured accounts and the oracle. *)
Record World : Type := mkWorld {
  signers : list address;
  chain : Trace -> Call -> Response
}.

(** The awaits of the Hardhat environment. *)
Inductive Await : Type :=
| Signers                                          (* ethers.getSigners() *)
| ContractAt (artifact : string) (target : address).
                                    (* ethers.getContractAt(artifact, target) *)

(** Where a script runs.  On [Working w] every await of the environment
    resolves.  On [Faulty w rejects] the await [a], made after the
    history [t], rejects with [msg] when [rejects t a = Some msg].
    A world is read as the node [Working w]: a statement about a run on
    [w : World] is about a run in which the environment delivers the
    accounts and the contract objects; a statement about a run on
    [n : Node] covers the rejections as well. *)
Inductive Node : Type :=
| Working (w : World)
| Faulty (w : World) (rejects : Trace -> Await -> option string).

Coercion Working : World >-> Node.

Definition worldOf (n : Node) : World :=
  match n with
  | Working w | Faulty w _ => w
  end.

Definition rejection (n : Node) (t : Trace) (a : Await) : option string :=
  match n with
  | Working _ => None
  | Faulty _ rejects => rejects t a
  end.

(** Result of running a piece of an [async] function: a value, a thrown
    error, or a [return] that leaves [main]. *)
Inductive Outcome (A : Type) : Type :=
| Value (a : A) (t : Trace)
| Thrown (msg : string) (t : Trace)
| Returned (t : Trace).
Arguments Value {A} a t.
Arguments Thrown {A} msg t.
Arguments Returned {A} t.

Definition traceOf {A} (o : Outcome A) : Trace :=
  match o with
  | Value _ t | Thrown _ t | Returned t => t
  end.

Definition Script (A : Type) : Type := Node -> Trace -> Outcome A.

Module Script.

Definition ret {A} (a : A) : Script A := fun _ t => Value a t.

Definition bind {A B} (m : Script A) (f : A -> Script B) : Script B :=
  fun w t =>
    match m w t with
    | Value a t' => f a w t'
    | Thrown msg t' => Thrown msg t'
    | Returned t' => Returned t'
    end.

(** [throw new Error(msg)] *)
Definition throw {A} (msg : string) : Script A := fun _ t => Thrown msg t.

(** [return;] inside [main] *)
Definition returnNow {A} : Script A := fun _ t => Returned t.

(** [try { body } catch (e) { handler(e.message) }]: only a thrown error
    is caught, a [return] inside the body leaves the function. *)
Definition tryCatch {A} (body : Script A) (handler : string -> Script A)
  : Script A :=
  fun w t =>
    match body w t with
    | Thrown msg t' => handler msg w t'
    | o => o
    end.

Definition log (l : Line) : Script unit :=
  fun _ t => Value tt (t ++ [ELog l]).

(** [await] of an external call: the oracle answers from the history. *)
Definition call (c : Call) : Script Response :=
  fun n t =>
    match n with
    | Working w | Faulty w _ => Value (chain w t c) (t ++ [ECall c])
    end.

(** [await ethers.getSigners()] *)
Definition getSigners : Script (list address) :=
  fun n t =>
    match n with
    | Working w => Value (signers w) t
    | Faulty w rejects =>
        match rejects t Signers with
        | Some msg => Thrown msg t
        | None => Value (signers w) t
        end
    end.

(** [await ethers.getContractAt(artifact, target)]: the contract object
    is its address, so that nothing is returned. *)
Definition getContractAt (artifact : string) (target : address) : Script unit :=
  fun n t =>
    match n with
    | Working _ => Value tt t
    | Faulty _ rejects =>
        match rejects t (ContractAt artifact target) with
        | Some msg => Thrown msg t
        | None => Value tt t
        end
    end.

Definition lift {A} (r : Res A) : Script A :=
  match r with
  | Ok a => ret a
  | Err msg => throw msg
  end.

(** Typed views of a response.  ethers decodes the returned data against
    the declared return type, so a response of the wrong shape makes the
    call itself throw. *)
Definition expectDone (r : Response) : Script unit :=
  match r with
  | RDone => ret tt
  | RFail msg => throw msg
  | _ => throw "call revert exception"
  end.

Definition expectInt (r : Response) : Script Z :=
  match r with
  | RInt z => ret z
  | RFail msg => throw msg
  | _ => throw "call revert exception"
  end.

Definition expectBool (r : Response) : Script bool :=
  match r with
  | RBool b => ret b
  | RFail msg => throw msg
  | _ => throw "call revert exception"
  end.

Definition expectString (r : Response) : Script string :=
  match r with
  | RString s => ret s
  | RFail msg => throw msg
  | _ => throw "call revert exception"
  end.

Definition expectAddresses (r : Response) : Script (list address) :=
  match r with
  | RAddresses l => ret l
  | RFail msg => throw msg
  | _ => throw "call revert exception"
  end.

Definition expectTokens (r : Response) : Script (list ReserveToken) :=
  match r with
  | RTokens l => ret l
  | RFail msg => throw msg
  | _ => throw "call revert exception"
  end.

Definition expectReserve (r : Response) : Script ReserveData :=
  match r with
  | RReserve d => ret d
  | RFail msg => throw msg
  | _ => throw "call revert exception"
  end.

Definition expectAccount (r : Response) : Script AccountData :=
  match r with
  | RAccount d => ret d
  | RFail msg => throw msg
  | _ => throw "call revert exception"
  end.

Definition expectUserReserve (r : Response) : Script UserReserveData :=
  match r with
  | RUserReserve d => ret d
  | RFail msg => throw msg
  | _ => throw "call revert exception"
  end.

End Script.

Declare Scope script_scope.
Delimit Scope script_scope with script.
Notation "'let*' x ':=' m 'in' k" := (Script.bind m (fun x => k))
  (at level 10, x name, m at level 100, k at level 200) : script_scope.
Notation "m ';;' k" := (Script.bind m (fun _ => k))
  (at level 100, k at level 200, right associativity) : script_scope.

(** The process wrapper shared by the scripts:
    [main().then(() => process.exit(0))
           .catch((error) => { console.error(..., error.message); process.exit(1); })] *)
Record Run : Type := mkRun {
  output : Trace;
  exitStatus : Z
}.

Definition runProcess (main : Script unit) (n : Node) : Run :=
  match main n [] with
  | Value _ t => mkRun t 0
  | Returned t => mkRun t 0
  | Thrown msg t => mkRun (t ++ [ELog (UncaughtError msg)]) 1
  end.

(** ** Configuration: network profile and addresses *)

(** [isLocalNetwork()], the same function in every script. *)
Definition isLocalNetwork (env : gmap string string) : bool :=
  let network := JS.orDefault (env !! "NETWORK") "hardhat" in
  String.eqb network "hardhat" || String.eqb network "localhost".

Definition networkPrefix (isLocal : bool) : string :=
  if isLocal then "LOCAL_" else "SEPOLIA_".

(** [isLocal ? (process.env.LOCAL_X || process.env.X)
            : (process.env.SEPOLIA_X || process.env.X)];
    the source spells out each variable name, here the prefix is
    prepended to the generic name. *)
Definition resolveAddress (env : gmap string string) (isLocal : bool)
    (name : string) : option string :=
  if isLocal
  then JS.or (env !! ("LOCAL_" +:+ name)) (env !! name)
  else JS.or (env !! ("SEPOLIA_" +:+ name)) (env !! name).

Record Config : Type := mkConfig {
  network : string;
  lendingPoolAddress : address;
  dataProviderAddress : address;
  token_name : string;
  token_address : address;
  token_decimals : option Z;
  amount : string;               (* supplyAmount, borrowAmount, ... *)
  interestRateMode : option Z;   (* 1 = stable, 2 = variable *)
  timeDelay : option Z
}.

Definition missingVariableMessage (isLocal : bool) (name : string) : string :=
  "Missing required environment variable: " +:+ networkPrefix isLocal +:+ name
  +:+ " (or fallback " +:+ name +:+ ")".

(** [for (const field of required) if (!field.value) throw ...] *)
Fixpoint checkRequired (isLocal : bool)
    (required : list (string * option string)) : Res unit :=
  match required with
  | [] => Ok tt
  | (name, value) :: rest =>
      if negb (JS.truthy value)
      then Err (missingVariableMessage isLocal name)
      else checkRequired isLocal rest
  end.

(** [value!] after validation. *)
Definition assertPresent (v : option string) : string :=
  match v with
  | Some s => s
  | None => ""
  end.

(** The first two lines of [loadConfig()]:
    [network = process.env.NETWORK || 'localhost'],
    [isLocal = network === 'hardhat' || network === 'localhost']. *)
Definition configNetwork (env : gmap string string) : string :=
  JS.orDefault (env !! "NETWORK") "localhost".

Definition configIsLocal (env : gmap string string) : bool :=
  let network := configNetwork env in
  String.eqb network "hardhat" || String.eqb network "localhost".

(** [loadConfig()].  The four operation scripts carry the same function
    up to the name and the default of the amount variable
    ([TOKEN_SUPPLY_AMOUNT || '100'], [TOKEN_BORROW_AMOUNT || '100'],
    [TOKEN_REPAY_AMOUNT || '0'], [TOKEN_WITHDRAW_AMOUNT || '0']); the
    interest-rate mode is read by borrow and repay only and is unused by
    the other two. *)
Definition loadConfig (env : gmap string string)
    (amountVariable amountDefault : string) : Res Config :=
  let network := configNetwork env in
  let isLocal := configIsLocal env in
  let tokenAddress := resolveAddress env isLocal "TOKEN_ADDRESS" in
  let lendingPoolAddress := resolveAddress env isLocal "LENDING_POOL_ADDRESS" in
  let dataProviderAddress := resolveAddress env isLocal "DATA_PROVIDER_ADDRESS" in
  (let* _ := checkRequired isLocal
               [("LENDING_POOL_ADDRESS", lendingPoolAddress);
                ("TOKEN_ADDRESS", tokenAddress)] in
   Ok {| network := network;
         lendingPoolAddress := assertPresent lendingPoolAddress;
         dataProviderAddress :=
           JS.orDefault dataProviderAddress "";
         token_name := JS.orDefault (env !! "TOKEN_NAME") "TOKEN";
         token_address := assertPresent tokenAddress;
         token_decimals :=
           JS.parseInt (JS.orDefault (env !! "TOKEN_DECIMALS") "18");
         amount := JS.orDefault (env !! amountVariable) amountDefault;
         interestRateMode :=
           JS.parseInt (JS.orDefault (env !! "INTEREST_RATE_MODE") "2");
         timeDelay :=
           JS.parseInt (JS.orDefault (env !! "TIME_DELAY") "86400") |})%res.

(** [if (config.dataProviderAddress)] *)
Definition hasDataProvider (config : Config) : bool :=
  negb (String.eqb (dataProviderAddress config) "").

(** ** Pieces shared by the operation scripts *)

(** Account selection: the second signer on a local network, the first
    one otherwise. *)
Definition pickUser (isLocal : bool) (accounts : list address) : Res address :=
  if isLocal
  then match accounts with
       | _deployer :: localUser :: _ => Ok localUser
       | _ => Err "Local network needs at least 2 accounts (deployer + user)"
       end
  else match accounts with
       | first :: _ => Ok first
       | [] => Err "No accounts configured! Check your .env file and hardhat.config.ts"
       end.

Definition selectUser (isLocal : bool) : Script address :=
  (let* accounts := Script.getSigners in
   Script.lift (pickUser isLocal accounts))%script.

Definition balanceOf (token user : address) : Script Z :=
  (let* r := Script.call (BalanceOf token user) in Script.expectInt r)%script.

Definition getReserveData (pool asset : address) : Script ReserveData :=
  (let* r := Script.call (GetReserveData pool asset) in
   Script.expectReserve r)%script.

Definition getUserAccountData (pool user : address) : Script AccountData :=
  (let* r := Script.call (GetUserAccountData pool user) in
   Script.expectAccount r)%script.

Definition getUserReserveData (provider asset user : address)
  : Script UserReserveData :=
  (let* r := Script.call (GetUserReserveData provider asset user) in
   Script.expectUserReserve r)%script.

(** The artifact of the token contracts, as the scripts name it. *)
Definition IERC20 : string :=
  "contracts/dependencies/openzeppelin/contracts/IERC20.sol:IERC20".

(** "Connect to contracts": the pool and the token, in this order. *)
Definition connect (config : Config) : Script unit :=
  (Script.getContractAt "ILendingPool" (lendingPoolAddress config) ;;
   Script.getContractAt IERC20 (token_address config))%script.

(** Submit a transaction and wait for it: [await (await f(...)).wait()]. *)
Definition sendTransaction (c : Call) : Script unit :=
  (let* r := Script.call c in Script.expectDone r)%script.

(** [await ethers.provider.send(...)]: only a failure matters. *)
Definition providerSend (c : Call) : Script unit :=
  (let* r := Script.call c in
   match r with
   | RFail msg => Script.throw msg
   | _ => Script.ret tt
   end)%script.

(** [if (isLocal) { evm_increaseTime; evm_mine }] *)
Definition fastForward (isLocal : bool) (config : Config) : Script unit :=
  (if isLocal
   then providerSend (EvmIncreaseTime (timeDelay config)) ;;
        providerSend EvmMine
   else Script.ret tt)%script.

(** [ethers.utils.parseUnits(s, 18)] for the literals of the scripts. *)
Definition units18 (s : string) : Z :=
  match Ethers.parseUnits s (Some 18) with
  | Ok z => z
  | Err _ => 0
  end.

(** [ethers.utils.parseUnits('1000000', 18)] *)
Definition infiniteThreshold : Z := Eval vm_compute in units18 "1000000".
(** [ethers.utils.parseUnits('1.5', 18)] *)
Definition lowHealth : Z := Eval vm_compute in units18 "1.5".
(** [ethers.utils.parseUnits('2', 18)] *)
Definition healthyHealth : Z := Eval vm_compute in units18 "2".

(** [if (hf.gt(parseUnits('1000000', 18))) '... oo (No debt)' else formatUnits(hf, 18)] *)
Definition displayHealth (hf : Z) : HealthDisplay :=
  if hf >? infiniteThreshold then HealthInfinite else HealthValue hf.

(** The full-amount convention of repay and withdraw:
    [if (amount === '0' || amount === '') MaxUint256 else parseUnits(amount, decimals)] *)
Definition resolveFullAmount (requested : string) (decimals : option Z) : Res Z :=
  if String.eqb requested "0" || String.eqb requested ""
  then Ok Ethers.MaxUint256
  else Ethers.parseUnits requested decimals.

(** ** Failure hints: the [if / else if] chains of the three [catch] blocks *)

Definition borrowHint (message : string) : option ErrorKind :=
  if JS.includes "1" message then Some InvalidCollateralReserve
  else if JS.includes "3" message then Some InvalidAmount
  else if JS.includes "11" message then Some InsufficientCollateral
  else if JS.includes "64" message then Some PoolPaused
  else None.

Definition repayHint (message : string) : option ErrorKind :=
  if JS.includes "5" message then Some NoMatchingDebt
  else if JS.includes "14" message then Some AmountExceedsDebt
  else if JS.includes "15" message then Some NoVariableDebt
  else None.

Definition withdrawHint (message : string) : option ErrorKind :=
  if JS.includes "32" message then Some NotEnoughATokens
  else if JS.includes "35" message then Some BelowLiquidationThreshold
  else if JS.includes "33" message then Some InsufficientLiquidity
  else None.

(** The body of a [catch (error)] block of an operation:
    the banner, ['Error:', error.message], the hint if any, [return]. *)
Definition reportFailure (banner : string)
    (hint : string -> option ErrorKind) (message : string) : Script unit :=
  (Script.log (Failed banner) ;;
   Script.log (ErrorMessage message) ;;
   match hint message with
   | Some k => Script.log (Hint k)
   | None => Script.ret tt
   end ;;
   Script.returnNow)%script.

(** The same classification read off a table: the first entry whose code
    occurs in the message decides, no entry means [Unrecognized]. *)
Fixpoint classify (table : list (string * ErrorKind)) (message : string)
  : ErrorKind :=
  match table with
  | [] => Unrecognized
  | (code, kind) :: rest =>
      if JS.includes code message then kind else classify rest message
  end.

Definition borrowErrors : list (string * ErrorKind) :=
  [("1", InvalidCollateralReserve); ("3", InvalidAmount);
   ("11", InsufficientCollateral); ("64", PoolPaused)].

Definition repayErrors : list (string * ErrorKind) :=
  [("5", NoMatchingDebt); ("14", AmountExceedsDebt); ("15", NoVariableDebt)].

Definition withdrawErrors : list (string * ErrorKind) :=
  [("32", NotEnoughATokens); ("35", BelowLiquidationThreshold);
   ("33", InsufficientLiquidity)].

(** ** [supply-to-pool-configurable.ts] *)

(** The final summary shared (up to the account-health part) by the
    operation scripts, when no data provider is configured:
    only the wallet balance is read. *)
Definition walletOnlySummary (config : Config) (user1 : address) : Script unit :=
  (Script.log (Text "No Data Provider address configured - skipping detailed summary") ;;
   let* _finalBalance := balanceOf (token_address config) user1 in
   Script.ret tt)%script.

(** [catch (e) { 'Could not fetch detailed reserve data'; 'Error:', e.message }] *)
Definition summaryFailed (message : string) : Script unit :=
  (Script.log (Text "Could not fetch detailed reserve data") ;;
   Script.log (ErrorMessage message))%script.

Definition supplyMain (env : gmap string string) : Script unit :=
  (let* config := Script.lift (loadConfig env "TOKEN_SUPPLY_AMOUNT" "100") in
   let isLocal := isLocalNetwork env in
   let* user1 := selectUser isLocal in
   connect config ;;
   (* Checking Initial Balance *)
   let* userBalance := balanceOf (token_address config) user1 in
   let* _ := Script.lift (Ethers.formatUnits userBalance (token_decimals config)) in
   (* PHASE 1: User supplies tokens *)
   let* supplyAmountWei :=
     Script.lift (Ethers.parseUnits (amount config) (token_decimals config)) in
   (if userBalance >=? supplyAmountWei
    then
      sendTransaction (Approve (token_address config) user1
                         (lendingPoolAddress config) supplyAmountWei) ;;
      Script.log (Text "Approved") ;;
      sendTransaction (Deposit (lendingPoolAddress config) user1
                         (token_address config) supplyAmountWei user1 0) ;;
      Script.log (Text "Deposited")
    else
      Script.log (Text ("Insufficient " +:+ token_name config +:+ " balance"))) ;;
   (* Simulate time passing *)
   fastForward isLocal config ;;
   (* Final summary *)
   (if hasDataProvider config
    then
      Script.tryCatch
        (Script.getContractAt "AaveProtocolDataProvider"
           (dataProviderAddress config) ;;
         let* _userReserve :=
           getUserReserveData (dataProviderAddress config)
             (token_address config) user1 in
         let* _finalBalance := balanceOf (token_address config) user1 in
         Script.ret tt)
        summaryFailed
    else walletOnlySummary config user1) ;;
   Script.log (Text "All supply operations completed!"))%script.

(** ** [borrow-from-pool-configurable.ts] *)

Definition borrowMain (env : gmap string string) : Script unit :=
  (let* config := Script.lift (loadConfig env "TOKEN_BORROW_AMOUNT" "100") in
   let isLocal := isLocalNetwork env in
   let* user1 := selectUser isLocal in
   connect config ;;
   (* Initial State *)
   let* initialBalance := balanceOf (token_address config) user1 in
   let* _ := Script.lift (Ethers.formatUnits initialBalance (token_decimals config)) in
   (* Account Health *)
   (if hasDataProvider config
    then
      Script.tryCatch
        (let* accountData := getUserAccountData (lendingPoolAddress config) user1 in
         Script.log (Health (HealthValue (healthFactor accountData))) ;;
         if totalCollateralETH accountData =? 0
         then Script.log (Text "WARNING: No collateral supplied!") ;;
              Script.returnNow
         else if availableBorrowsETH accountData =? 0
         then Script.log (Text "WARNING: No borrowing capacity available!") ;;
              Script.returnNow
         else Script.ret tt)
        (fun message => Script.log (Warning "Could not fetch account data:" message))
    else Script.ret tt) ;;
   (* BORROW *)
   let* borrowAmountWei :=
     Script.lift (Ethers.parseUnits (amount config) (token_decimals config)) in
   Script.tryCatch
     (sendTransaction (Borrow (lendingPoolAddress config) user1
                         (token_address config) borrowAmountWei
                         (interestRateMode config) 0 user1) ;;
      Script.log (Text "Borrowed successfully!") ;;
      let* _newBalance := balanceOf (token_address config) user1 in
      Script.ret tt)
     (reportFailure "Borrow failed!" borrowHint) ;;
   (* Simulate time passing *)
   fastForward isLocal config ;;
   (* Final summary *)
   (if hasDataProvider config
    then
      Script.tryCatch
        (Script.getContractAt "AaveProtocolDataProvider"
           (dataProviderAddress config) ;;
         let* _userReserve :=
           getUserReserveData (dataProviderAddress config)
             (token_address config) user1 in
         let* _finalBalance := balanceOf (token_address config) user1 in
         let* accountData := getUserAccountData (lendingPoolAddress config) user1 in
         Script.log (Health (HealthValue (healthFactor accountData))) ;;
         if healthFactor accountData <? lowHealth
         then Script.log (Text "WARNING: Health factor is low! Risk of liquidation.")
         else Script.ret tt)
        summaryFailed
    else walletOnlySummary config user1) ;;
   Script.log (Text "Borrow operation completed!"))%script.

(** ** The repay script *)

(** [config.interestRateMode === 1 ? currentStableDebt : currentVariableDebt] *)
Definition targetDebt (mode : option Z) (userReserve : UserReserveData) : Z :=
  match mode with
  | Some 1 => currentStableDebt userReserve
  | _ => currentVariableDebt userReserve
  end.

(** [config.interestRateMode === 1 ? 'stable' : 'variable'] *)
Definition rateModeName (mode : option Z) : string :=
  match mode with
  | Some 1 => "stable"
  | _ => "variable"
  end.

(** "Get current debt": the two early returns of the repay script. *)
Definition checkDebt (config : Config) (user1 : address) : Script unit :=
  (if hasDataProvider config
   then
     Script.tryCatch
       (Script.getContractAt "AaveProtocolDataProvider"
          (dataProviderAddress config) ;;
        let* userReserve :=
          getUserReserveData (dataProviderAddress config)
            (token_address config) user1 in
        let totalDebt :=
          currentStableDebt userReserve + currentVariableDebt userReserve in
        if totalDebt =? 0
        then Script.log (Text "No debt to repay!") ;;
             Script.returnNow
        else if targetDebt (interestRateMode config) userReserve =? 0
        then Script.log (Text ("No " +:+ rateModeName (interestRateMode config)
                               +:+ " debt to repay!")) ;;
             Script.returnNow
        else Script.ret tt)
       (fun message => Script.log (Warning "Could not fetch debt data:" message))
   else Script.ret tt)%script.

(** "Show improvement": what the repay summary says about the health
    factor after the operation.  The percentage lines, computed in
    floating point, are not modelled. *)
Definition repayImprovement (before after : AccountData) : Script unit :=
  (if totalDebtETH after =? 0
   then Script.log (Text "All debt repaid! Health Factor: oo (Infinite)")
   else if healthFactor after <? lowHealth
   then Script.log (Text "WARNING: Health factor still low! Consider repaying more or adding collateral.")
   else if healthFactor after >=? healthyHealth
   then Script.log (Text "Healthy position! Low liquidation risk.")
   else Script.log (Text "Moderate health - Monitor your position."))%script.

Definition repayMain (env : gmap string string) : Script unit :=
  (let* config := Script.lift (loadConfig env "TOKEN_REPAY_AMOUNT" "0") in
   let isLocal := isLocalNetwork env in
   let* user1 := selectUser isLocal in
   connect config ;;
   (* Initial State *)
   let* initialBalance := balanceOf (token_address config) user1 in
   let* _ := Script.lift (Ethers.formatUnits initialBalance (token_decimals config)) in
   (* Get current debt *)
   checkDebt config user1 ;;
   (* Account Health (Before Repayment) *)
   let* accountDataBefore := getUserAccountData (lendingPoolAddress config) user1 in
   Script.log (Health (displayHealth (healthFactor accountDataBefore))) ;;
   (* REPAY *)
   let* repayAmountWei :=
     Script.lift (resolveFullAmount (amount config) (token_decimals config)) in
   Script.tryCatch
     (sendTransaction (Approve (token_address config) user1
                         (lendingPoolAddress config)
                         (if repayAmountWei =? Ethers.MaxUint256
                          then Ethers.MaxUint256 else repayAmountWei)) ;;
      Script.log (Text "Approved") ;;
      sendTransaction (Repay (lendingPoolAddress config) user1
                         (token_address config) repayAmountWei
                         (interestRateMode config) user1) ;;
      Script.log (Text "Repayment successful!") ;;
      let* _newBalance := balanceOf (token_address config) user1 in
      Script.ret tt)
     (reportFailure "Repayment failed!" repayHint) ;;
   (* Simulate time passing *)
   fastForward isLocal config ;;
   (* Final summary *)
   (if hasDataProvider config
    then
      Script.tryCatch
        (Script.getContractAt "AaveProtocolDataProvider"
           (dataProviderAddress config) ;;
         let* _userReserve :=
           getUserReserveData (dataProviderAddress config)
             (token_address config) user1 in
         let* _finalBalance := balanceOf (token_address config) user1 in
         let* accountDataAfter := getUserAccountData (lendingPoolAddress config) user1 in
         Script.log (Health (displayHealth (healthFactor accountDataAfter))) ;;
         repayImprovement accountDataBefore accountDataAfter)
        summaryFailed
    else walletOnlySummary config user1) ;;
   Script.log (Text "Repayment operation completed!"))%script.

(** ** The withdraw script *)

(** The early return of the withdraw script on an empty deposit. *)
Definition checkDeposit (config : Config) (user1 : address) : Script unit :=
  (let* reserveData :=
     getReserveData (lendingPoolAddress config) (token_address config) in
   Script.getContractAt IERC20 (aTokenAddress reserveData) ;;
   let* aTokenBalance := balanceOf (aTokenAddress reserveData) user1 in
   if aTokenBalance =? 0
   then Script.log (Text "No tokens deposited to withdraw!") ;;
        Script.returnNow
   else Script.ret tt)%script.

(** "Health Factor Change" of the withdraw summary; the percentage lines
    are not modelled. *)
Definition withdrawHealthChange (before after : AccountData) : Script unit :=
  (if totalDebtETH before >? 0
   then
     (if totalDebtETH after =? 0
      then Script.log (Text "Debt fully repaid - Health Factor: oo")
      else Script.ret tt) ;;
     if (healthFactor after <? lowHealth) && (healthFactor after >? 0)
     then Script.log (Text "WARNING: Low health factor! Risk of liquidation.")
     else if (totalDebtETH after >? 0) && (healthFactor after >=? healthyHealth)
     then Script.log (Text "Healthy position maintained after withdrawal.")
     else Script.ret tt
   else Script.log (Text "No debt - Safe to withdraw anytime!"))%script.

Definition withdrawMain (env : gmap string string) : Script unit :=
  (let* config := Script.lift (loadConfig env "TOKEN_WITHDRAW_AMOUNT" "0") in
   let isLocal := isLocalNetwork env in
   let* user1 := selectUser isLocal in
   connect config ;;
   (* Initial State *)
   let* initialBalance := balanceOf (token_address config) user1 in
   let* _ := Script.lift (Ethers.formatUnits initialBalance (token_decimals config)) in
   checkDeposit config user1 ;;
   (* Current position *)
   (if hasDataProvider config
    then
      Script.tryCatch
        (Script.getContractAt "AaveProtocolDataProvider"
           (dataProviderAddress config) ;;
         let* userReserve :=
           getUserReserveData (dataProviderAddress config)
             (token_address config) user1 in
         if currentStableDebt userReserve + currentVariableDebt userReserve >? 0
         then Script.log (Text "WARNING: You have outstanding debt!")
         else Script.ret tt)
        (fun message => Script.log (Warning "Could not fetch position data:" message))
    else Script.ret tt) ;;
   (* Account Health (Before Withdrawal) *)
   let* accountDataBefore := getUserAccountData (lendingPoolAddress config) user1 in
   Script.log (Health (displayHealth (healthFactor accountDataBefore))) ;;
   (* WITHDRAW *)
   let* withdrawAmountWei :=
     Script.lift (resolveFullAmount (amount config) (token_decimals config)) in
   Script.tryCatch
     (sendTransaction (Withdraw (lendingPoolAddress config) user1
                         (token_address config) withdrawAmountWei user1) ;;
      Script.log (Text "Withdrawal successful!") ;;
      let* _newBalance := balanceOf (token_address config) user1 in
      Script.ret tt)
     (reportFailure "Withdrawal failed!" withdrawHint) ;;
   (* Simulate time passing *)
   fastForward isLocal config ;;
   (* Final summary *)
   (if hasDataProvider config
    then
      Script.tryCatch
        (Script.getContractAt "AaveProtocolDataProvider"
           (dataProviderAddress config) ;;
         let* _userReserve :=
           getUserReserveData (dataProviderAddress config)
             (token_address config) user1 in
         let* _finalBalance := balanceOf (token_address config) user1 in
         let* accountDataAfter := getUserAccountData (lendingPoolAddress config) user1 in
         Script.log (Health (displayHealth (healthFactor accountDataAfter))) ;;
         withdrawHealthChange accountDataBefore accountDataAfter)
        summaryFailed
    else walletOnlySummary config user1) ;;
   Script.log (Text "Withdrawal operation completed!"))%script.

(** ** [check-pool-config.ts] *)

(** The verdict on a reserve, after its status has been decoded. *)
Definition reserveVerdict (tokenName : string) (reserveData : ReserveData)
    (status : ReserveStatus) (isPoolPaused : bool) : Script unit :=
  (if String.eqb (aTokenAddress reserveData) Ethers.AddressZero
   then Script.log (Text ("ERROR: " +:+ tokenName
                          +:+ " is NOT initialized in this pool!"))
   else if negb (isActive status)
   then Script.log (Text "ERROR: Reserve is not active!")
   else if isFrozen status
   then Script.log (Text "ERROR: Reserve is frozen!")
   else
     Script.log (Text "Reserve is configured correctly") ;;
     if isPoolPaused
     then Script.log (Text "BUT the pool is PAUSED - all deposits will fail with error 64!")
     else Script.log (Text ("Pool is active - you should be able to deposit "
                            +:+ tokenName +:+ "!")))%script.

(** [let isPoolPaused = false; try { isPoolPaused = await pool.paused(); ... } catch { ... }] *)
Definition readPaused (pool : address) (onFailure : Line) : Script bool :=
  (Script.tryCatch
     (let* r := Script.call (Paused pool) in
      let* isPoolPaused := Script.expectBool r in
      (if isPoolPaused
       then Script.log (Text "WARNING: The entire pool is PAUSED!")
       else Script.ret tt) ;;
      Script.ret isPoolPaused)
     (fun _ => Script.log onFailure ;; Script.ret false))%script.

Definition checkPoolConfigMain (env : gmap string string) : Script unit :=
  (let isLocal := isLocalNetwork env in
   let lendingPoolAddress := resolveAddress env isLocal "LENDING_POOL_ADDRESS" in
   let tokenAddress := resolveAddress env isLocal "TOKEN_ADDRESS" in
   if negb (JS.truthy lendingPoolAddress) || negb (JS.truthy tokenAddress)
   then
     Script.log (Text "Missing required environment variables!") ;;
     Script.log (Text "Need: LENDING_POOL_ADDRESS and TOKEN_ADDRESS") ;;
     Script.log (Text "Or: LOCAL_*/SEPOLIA_* prefixed versions based on NETWORK setting") ;;
     Script.returnNow
   else
     let tokenName := JS.orDefault (env !! "TOKEN_NAME") "TOKEN" in
     let pool := assertPresent lendingPoolAddress in
     let asset := assertPresent tokenAddress in
     Script.getContractAt "ILendingPool" pool ;;
     let* isPoolPaused :=
       readPaused pool (Text "Could not check pool pause status") in
     Script.tryCatch
       (let* reserveData := getReserveData pool asset in
        (* Decode configuration - Use correct bit positions *)
        let* status := Script.lift (decodeStatus (configuration_data reserveData)) in
        Script.log (StatusLine status) ;;
        reserveVerdict tokenName reserveData status isPoolPaused)
       (fun message => Script.log (Warning "ERROR reading reserve data:" message)))%script.

(** ** [check-balance.ts] *)

(** The return types of the ABI written out in the script:
    [balanceOf ... returns (uint256)], [decimals() ... returns (uint8)]. *)
Definition expectUint (bits : Z) (r : Response) : Script Z :=
  (let* z := Script.expectInt r in
   if (0 <=? z) && (z <? 2 ^ bits)
   then Script.ret z
   else Script.throw "call revert exception")%script.

Definition erc20BalanceOf (token user : address) : Script Z :=
  (let* r := Script.call (BalanceOf token user) in expectUint 256 r)%script.

Definition erc20Symbol (token : address) : Script string :=
  (let* r := Script.call (TokenSymbol token) in Script.expectString r)%script.

Definition erc20Decimals (token : address) : Script Z :=
  (let* r := Script.call (TokenDecimals token) in expectUint 8 r)%script.

(** "Get token metadata": [symbol] and [decimals] are local variables
    assigned one after the other inside a single [try]; a failure keeps
    what was assigned before it. *)
Definition readMetadata (reserve : ReserveToken) : Script (string * Z) :=
  (Script.tryCatch
     (let* sym :=
        if String.eqb (symbol reserve) "???"
        then erc20Symbol (tokenAddress reserve)
        else Script.ret (symbol reserve) in
      Script.tryCatch
        (let* decimals := erc20Decimals (tokenAddress reserve) in
         Script.ret (sym, decimals))
        (fun _ => Script.ret (sym, 18)))
     (fun _ => Script.ret (symbol reserve, 18)))%script.

(** "Get aToken balance (deposited amount)":
    [let aTokenBalance = BigNumber.from(0); try { ... } catch { }] *)
Definition readDeposited (pool user : address) (reserve : ReserveToken)
  : Script Z :=
  (Script.tryCatch
     (let* reserveData := getReserveData pool (tokenAddress reserve) in
      if negb (String.eqb (aTokenAddress reserveData) Ethers.AddressZero)
      then erc20BalanceOf (aTokenAddress reserveData) user
      else Script.ret 0)
     (fun _ => Script.ret 0))%script.

(** The three balances of one reserve: [walletBalance], [aTokenBalance]
    and [totalBalance = walletBalance.add(aTokenBalance)]. *)
Definition readBalances (pool user : address) (reserve : ReserveToken)
  : Script TokenBalance :=
  (let* walletBalance := erc20BalanceOf (tokenAddress reserve) user in
   let* aTokenBalance := readDeposited pool user reserve in
   let totalBalance := walletBalance + aTokenBalance in
   Script.ret (mkTokenBalance walletBalance aTokenBalance totalBalance))%script.

(** One turn of the loop over the reserves; the result is the new value
    of [hasAnyBalance]. *)
Definition checkReserve (pool user : address) (i : nat)
    (reserve : ReserveToken) (hasAnyBalance : bool) : Script bool :=
  (Script.tryCatch
     (let* metadata := readMetadata reserve in
      let '(sym, _decimals) := metadata in
      let* balances := readBalances pool user reserve in
      (* Only show if user has any balance *)
      if total balances >? 0
      then Script.log (BalanceRow (i + 1) sym balances) ;;
           Script.ret true
      else Script.ret hasAnyBalance)
     (fun message =>
        Script.log (ReserveError (i + 1)
                      (if String.eqb (symbol reserve) "" then "Unknown"
                       else symbol reserve)
                      message) ;;
        Script.ret hasAnyBalance))%script.

Fixpoint checkReserves (pool user : address) (i : nat)
    (reserves : list ReserveToken) (hasAnyBalance : bool) : Script bool :=
  match reserves with
  | [] => Script.ret hasAnyBalance
  | reserve :: rest =>
      (let* hasAny := checkReserve pool user i reserve hasAnyBalance in
       checkReserves pool user (S i) rest hasAny)%script
  end.

(** The account whose balances are shown. *)
Definition pickCheckedUser (isLocal : bool) (accounts : list address)
  : Script address :=
  if isLocal
  then match accounts with
       | _deployer :: localUser :: _ => Script.ret localUser
       | [first] => Script.ret first
       | [] => Script.throw "Cannot read properties of undefined (reading 'address')"
       end
  else match accounts with
       | first :: _ => Script.ret first
       | [] => (Script.log (Text "No accounts configured!") ;;
                Script.returnNow)%script
       end.

(** The list of reserves: from the data provider when it is configured
    and answers, otherwise from the pool, with the placeholder symbol. *)
Definition listReserves (pool : address) (dataProviderAddress : option string)
  : Script (list ReserveToken) :=
  (let* reserves :=
     if JS.truthy dataProviderAddress
     then Script.tryCatch
            (Script.getContractAt "AaveProtocolDataProvider"
               (assertPresent dataProviderAddress) ;;
             let* r := Script.call (GetAllReservesTokens
                                      (assertPresent dataProviderAddress)) in
             Script.expectTokens r)
            (fun message =>
               Script.log (Warning "Could not get reserves from Data Provider:" message) ;;
               Script.ret [])
     else Script.ret [] in
   (* Method 2: Fallback to pool's getReservesList *)
   match reserves with
   | [] =>
       Script.tryCatch
         (let* r := Script.call (GetReservesList pool) in
          let* reservesList := Script.expectAddresses r in
          Script.ret (map (mkReserveToken "???") reservesList))
         (fun message =>
            Script.log (Warning "Could not get reserves list:" message) ;;
            Script.returnNow)
   | _ => Script.ret reserves
   end)%script.

Definition checkBalanceMain (env : gmap string string) : Script unit :=
  (let isLocal := isLocalNetwork env in
   let lendingPoolAddress := resolveAddress env isLocal "LENDING_POOL_ADDRESS" in
   let dataProviderAddress := resolveAddress env isLocal "DATA_PROVIDER_ADDRESS" in
   if negb (JS.truthy lendingPoolAddress)
   then Script.log (Text "Missing LENDING_POOL_ADDRESS in .env") ;;
        Script.returnNow
   else
     let pool := assertPresent lendingPoolAddress in
     let* accounts := Script.getSigners in
     let* user := pickCheckedUser isLocal accounts in
     Script.getContractAt "ILendingPool" pool ;;
     let* reserves := listReserves pool dataProviderAddress in
     match reserves with
     | [] => Script.log (Text "No reserves found in this pool!") ;;
             Script.returnNow
     | _ =>
         let* hasAnyBalance := checkReserves pool user 0 reserves false in
         if negb hasAnyBalance
         then Script.log (Text "No token balances found for this address")
         else Script.log (Text "Balance check complete!")
     end)%script.

(** * Vocabulary of the properties *)

(** What is printed for a kind: nothing for [Unrecognized]. *)
Definition hintOf (k : ErrorKind) : option ErrorKind :=
  match k with
  | Unrecognized => None
  | _ => Some k
  end.

(** The deposited amount as the specification words it: the balance of
    the yield-bearing token, taken as 0 when the reserve cannot be read,
    when its yield-token address is the zero address, or when the balance
    cannot be read. *)
Definition depositedAnswer (w : World) (t : Trace) (pool user : address)
    (reserve : ReserveToken) : Z :=
  match chain w t (GetReserveData pool (tokenAddress reserve)) with
  | RReserve rd =>
      if String.eqb (aTokenAddress rd) Ethers.AddressZero then 0
      else
        match chain w (t ++ [ECall (GetReserveData pool (tokenAddress reserve))])
                (BalanceOf (aTokenAddress rd) user) with
        | RInt z => if (0 <=? z) && (z <? 2 ^ 256) then z else 0
        | _ => 0
        end
  | _ => 0
  end.

(** ** Specifications of scripts *)

(** [triple w P m Q R]: started in world [w] on a trace satisfying [P],
    the script [m] ends on a trace satisfying [Q]; when it ends by an
    early [return], [R] is accepted as well. *)
Definition triple {A} (w : Node) (P : Trace -> Prop) (m : Script A)
    (Q R : Trace -> Prop) : Prop :=
  forall t, P t ->
    match m w t with
    | Value _ t' => Q t'
    | Thrown _ t' => Q t'
    | Returned t' => Q t' \/ R t'
    end.

(** An invariant of the trace. *)
Definition safe {A} (w : Node) (I R : Trace -> Prop) (m : Script A) : Prop :=
  triple w I m I R.

(** An invariant that survives every new event satisfying [good]. *)
Definition stable (I : Trace -> Prop) (good : Event -> Prop) : Prop :=
  forall t e, I t -> good e -> I (t ++ [e]).

(** ** Predicates on traces *)

(** The reads by which a script could learn the status of a reserve or
    of the pool. *)
Definition isStatusRead (e : Event) : bool :=
  match e with
  | ECall (GetReserveData _ _) | ECall (Paused _) => true
  | _ => false
  end.

Definition noStatusRead (t : Trace) : Prop :=
  forallb (fun e => negb (isStatusRead e)) t = true.

(** A row is exact when its total is the sum of the two balances. *)
Definition rowExact (e : Event) : Prop :=
  match e with
  | ELog (BalanceRow _ _ tb) => total tb = wallet tb + deposited tb
  | _ => True
  end.

Definition rowsExact (t : Trace) : Prop := Forall rowExact t.

(** Calls that change the state of the chain: the transactions, and the
    clock commands of a local node. *)
Definition isStateChanging (e : Event) : bool :=
  match e with
  | ECall (EvmIncreaseTime _) | ECall EvmMine => true
  | ECall c => isTransaction c
  | ELog _ => false
  end.

Definition readOnly (t : Trace) : Prop :=
  forallb (fun e => negb (isStateChanging e)) t = true.

(** No failure banner of an operation has been printed. *)
Definition isFailureBanner (e : Event) : bool :=
  match e with
  | ELog (Failed _) => true
  | _ => false
  end.

Definition noFailureBanner (t : Trace) : Prop :=
  forallb (fun e => negb (isFailureBanner e)) t = true.

(** The amount of a transaction. *)
Definition transactionAmount (c : Call) : option Z :=
  match c with
  | Approve _ _ _ a | Deposit _ _ _ a _ _ | Withdraw _ _ _ a _
  | Borrow _ _ _ a _ _ _ | Repay _ _ _ a _ _ => Some a
  | _ => None
  end.

(** The event is not a transaction, or it is one for the amount [v]. *)
Definition carries (v : Z) (e : Event) : Prop :=
  match e with
  | ECall c =>
      match transactionAmount c with
      | Some a => a = v
      | None => True
      end
  | ELog _ => True
  end.

Definition amountsAre (v : Z) (t : Trace) : Prop := Forall (carries v) t.

(** The trace starts with the events [p]. *)
Definition beginsWith (p : Trace) (t : Trace) : Prop := exists rest, t = p ++ rest.

(** ** Sample environments and worlds *)

(** The two required addresses, on the default (local) network. *)
Definition plainEnv : gmap string string :=
  {[ "LENDING_POOL_ADDRESS" := "0xPool"; "TOKEN_ADDRESS" := "0xToken" ]}.

(** The same with a data provider. *)
Definition providerEnv : gmap string string :=
  {[ "LENDING_POOL_ADDRESS" := "0xPool"; "TOKEN_ADDRESS" := "0xToken";
     "DATA_PROVIDER_ADDRESS" := "0xProvider" ]}.

(** The same as [plainEnv], with the amount '0' for supply and borrow. *)
Definition zeroAmountEnv : gmap string string :=
  {[ "LENDING_POOL_ADDRESS" := "0xPool"; "TOKEN_ADDRESS" := "0xToken";
     "TOKEN_SUPPLY_AMOUNT" := "0"; "TOKEN_BORROW_AMOUNT" := "0" ]}.

(** A local node with two accounts, on which the reserve of the token is
    initialised with the configuration word 0 (neither active nor frozen),
    the pool is not paused, the user holds 1000 tokens, approvals succeed
    and the pool reverts every deposit with its code 2. *)
Definition inactiveReserveWorld : World :=
  {| signers := ["0xDeployer"; "0xUser"];
     chain := fun _ c =>
       match c with
       | BalanceOf _ _ => RInt (1000 * 10 ^ 18)
       | GetReserveData _ _ => RReserve (mkReserveData 0 "0xAToken")
       | Paused _ => RBool false
       | Approve _ _ _ _ => RDone
       | Deposit _ _ _ _ _ _ => RFail "VM Exception while processing transaction: revert 2"
       | _ => RFail "call revert exception"
       end |}.

(** A pool with one reserve and no data provider configured: the user
    holds 5 units in the wallet and 7 units of the yield-bearing token. *)
Definition oneReserveWorld : World :=
  {| signers := ["0xDeployer"; "0xUser"];
     chain := fun _ c =>
       match c with
       | GetReservesList _ => RAddresses ["0xToken"]
       | TokenSymbol _ => RString "DAI"
       | TokenDecimals _ => RInt 18
       | BalanceOf token _ => if String.eqb token "0xToken" then RInt 5 else RInt 7
       | GetReserveData _ _ => RReserve (mkReserveData (2 ^ 56) "0xAToken")
       | _ => RFail "call revert exception"
       end |}.

(** A local node where the user has no debt and nothing deposited; every
    transaction would succeed if it were submitted. *)
Definition emptyPositionWorld : World :=
  {| signers := ["0xDeployer"; "0xUser"];
     chain := fun _ c =>
       match c with
       | BalanceOf token _ =>
           if String.eqb token "0xAToken" then RInt 0 else RInt (1000 * 10 ^ 18)
       | GetReserveData _ _ => RReserve (mkReserveData (2 ^ 56) "0xAToken")
       | GetUserReserveData _ _ _ => RUserReserve (mkUserReserveData 0 0 0)
       | GetUserAccountData _ _ =>
           RAccount (mkAccountData 0 0 0 0 0 Ethers.MaxUint256)
       | _ => RDone
       end |}.

(** A local node on which the pool reverts every borrow with its code 11
    (the collateral cannot cover the new borrow). *)
Definition revertingWorld : World :=
  {| signers := ["0xDeployer"; "0xUser"];
     chain := fun _ c =>
       match c with
       | BalanceOf _ _ => RInt 0
       | Borrow _ _ _ _ _ _ _ =>
           RFail "VM Exception while processing transaction: revert 11"
       | _ => RFail "call revert exception"
       end |}.

(** A local node on which the pool reverts a deposit or a borrow of the
    amount 0 with its code 1, and every other transaction succeeds; the
    user holds 1000 tokens and owes 1 token at the variable rate. *)
Definition zeroRejectingWorld : World :=
  {| signers := ["0xDeployer"; "0xUser"];
     chain := fun _ c =>
       match c with
       | BalanceOf _ _ => RInt (1000 * 10 ^ 18)
       | Deposit _ _ _ a _ _ | Borrow _ _ _ a _ _ _ =>
           if a =? 0
           then RFail "VM Exception while processing transaction: revert 1"
           else RDone
       | Approve _ _ _ _ | Repay _ _ _ _ _ _ | Withdraw _ _ _ _ _
       | EvmIncreaseTime _ | EvmMine => RDone
       | GetUserAccountData _ _ =>
           RAccount (mkAccountData (2 * 10 ^ 18) (10 ^ 18) (5 * 10 ^ 17)
                       8000 7500 (16 * 10 ^ 17))
       | GetUserReserveData _ _ _ =>
           RUserReserve (mkUserReserveData 0 0 (10 ^ 18))
       | _ => RFail "call revert exception"
       end |}.

(** ** The transactions of a run *)

Definition isTransactionEvent (e : Event) : bool :=
  match e with
  | ECall c => isTransaction c
  | ELog _ => false
  end.

(** The transactions of a trace, in the order of their submission. *)
Definition transactions (t : Trace) : list Call :=
  flat_map (fun e =>
              match e with
              | ECall c => if isTransaction c then [c] else []
              | ELog _ => []
              end) t.

Definition transactionsAre (l : list Call) (t : Trace) : Prop :=
  transactions t = l.

(** The transactions of the trace are the first ones of the plan. *)
Definition follows (plan : list Call) (t : Trace) : Prop :=
  exists rest, plan = transactions t ++ rest.

(** What a run of the supply script submits when nothing stops it: the
    approval of the pool for the configured amount, then the deposit of
    that amount on behalf of the sender. *)
Definition supplyPlan (env : gmap string string) (w : World) : list Call :=
  match loadConfig env "TOKEN_SUPPLY_AMOUNT" "100" with
  | Ok config =>
      match pickUser (isLocalNetwork env) (signers w),
            Ethers.parseUnits (amount config) (token_decimals config) with
      | Ok user1, Ok supplyAmountWei =>
          [Approve (token_address config) user1 (lendingPoolAddress config)
             supplyAmountWei;
           Deposit (lendingPoolAddress config) user1 (token_address config)
             supplyAmountWei user1 0]
      | _, _ => []
      end
  | Err _ => []
  end.

(** The same for repay: the approval and the repayment carry the same
    amount, the sentinel or the parsed one. *)
Definition repayPlan (env : gmap string string) (w : World) : list Call :=
  match loadConfig env "TOKEN_REPAY_AMOUNT" "0" with
  | Ok config =>
      match pickUser (isLocalNetwork env) (signers w),
            resolveFullAmount (amount config) (token_decimals config) with
      | Ok user1, Ok repayAmountWei =>
          [Approve (token_address config) user1 (lendingPoolAddress config)
             repayAmountWei;
           Repay (lendingPoolAddress config) user1 (token_address config)
             repayAmountWei (interestRateMode config) user1]
      | _, _ => []
      end
  | Err _ => []
  end.

Definition borrowPlan (env : gmap string string) (w : World) : list Call :=
  match loadConfig env "TOKEN_BORROW_AMOUNT" "100" with
  | Ok config =>
      match pickUser (isLocalNetwork env) (signers w),
            Ethers.parseUnits (amount config) (token_decimals config) with
      | Ok user1, Ok borrowAmountWei =>
          [Borrow (lendingPoolAddress config) user1 (token_address config)
             borrowAmountWei (interestRateMode config) 0 user1]
      | _, _ => []
      end
  | Err _ => []
  end.

Definition withdrawPlan (env : gmap string string) (w : World) : list Call :=
  match loadConfig env "TOKEN_WITHDRAW_AMOUNT" "0" with
  | Ok config =>
      match pickUser (isLocalNetwork env) (signers w),
            resolveFullAmount (amount config) (token_decimals config) with
      | Ok user1, Ok withdrawAmountWei =>
          [Withdraw (lendingPoolAddress config) user1 (token_address config)
             withdrawAmountWei user1]
      | _, _ => []
      end
  | Err _ => []
  end.

(** ** More predicates on traces *)

(** The clock commands of a local test node. *)
Definition isClockEvent (e : Event) : bool :=
  match e with
  | ECall (EvmIncreaseTime _) | ECall EvmMine => true
  | _ => false
  end.

Definition noClock (t : Trace) : Prop :=
  forallb (fun e => negb (isClockEvent e)) t = true.

(** ** Reports of failed operations *)

(** The message of the error with which ethers rejects an answer that is
    not of the awaited shape (the [expect...] views of [Script]). *)
Definition errorOf (r : Response) : string :=
  match r with
  | RFail msg => msg
  | _ => "call revert exception"
  end.

(** The line of a hint, when there is one. *)
Definition hintLines (hint : option ErrorKind) : Trace :=
  match hint with
  | Some k => [ELog (Hint k)]
  | None => []
  end.

(** Every transaction of the trace was accepted by the chain. *)
Definition settled (w : World) (t : Trace) : Prop :=
  forall h c rest,
    t = h ++ ECall c :: rest -> isTransaction c = true -> chain w h c = RDone.

(** No failure so far. *)
Definition clean (w : World) (t : Trace) : Prop :=
  noFailureBanner t /\ settled w t.

(** The trace is a clean one, followed by a call, and by the report of
    the failure of that call: the banner, the message of the error that
    the answer of the chain raised, and the hint chosen for that message. *)
Definition reportedBy (w : World) (banner : string)
    (hint : string -> option ErrorKind) (t : Trace) : Prop :=
  exists h c,
    t = h ++ ECall c :: ELog (Failed banner)
          :: ELog (ErrorMessage (errorOf (chain w h c)))
          :: hintLines (hint (errorOf (chain w h c)))
    /\ clean w h.

(** The trace is a clean one followed by the call whose answer raised
    [msg]. *)
Definition raised (w : World) (msg : string) (t : Trace) : Prop :=
  exists h c, t = h ++ [ECall c] /\ clean w h /\ msg = errorOf (chain w h c).

(** The body of a [try]: it keeps the trace clean, and when it throws,
    the error is the one raised by the answer to its last call. *)
Definition tries {A} (w : World) (m : Script A) : Prop :=
  forall t, clean w t ->
    match m w t with
    | Value _ t' => clean w t'
    | Thrown msg t' => raised w msg t'
    | Returned _ => False
    end.

(** Neither a failure banner nor a transaction. *)
Definition harmless (e : Event) : Prop :=
  isFailureBanner e = false /\ isTransactionEvent e = false.


(** A local node on which the user holds tokens and owes some, approvals
    succeed and the pool reverts every repayment with its code 15 and
    every withdrawal with its code 35. *)
Definition refusingWorld : World :=
  {| signers := ["0xDeployer"; "0xUser"];
     chain := fun _ c =>
       match c with
       | BalanceOf _ _ => RInt (1000 * 10 ^ 18)
       | GetReserveData _ _ => RReserve (mkReserveData (2 ^ 56) "0xAToken")
       | GetUserAccountData _ _ =>
           RAccount (mkAccountData (10 ^ 18) (5 * 10 ^ 17) 0 8000 7500
                       (16 * 10 ^ 17))
       | Approve _ _ _ _ => RDone
       | Repay _ _ _ _ _ _ =>
           RFail "VM Exception while processing transaction: revert 15"
       | Withdraw _ _ _ _ _ =>
           RFail "VM Exception while processing transaction: revert 35"
       | _ => RFail "call revert exception"
       end |}.

(** ** The health factor in the runs of repay and withdraw *)

Definition isAccountRead (e : Event) : bool :=
  match e with
  | ECall (GetUserAccountData _ _) => true
  | _ => false
  end.

Definition noAccountRead (t : Trace) : Prop := existsb isAccountRead t = false.

(** No read of the account data comes after another one. *)
Definition oneAccountRead (t : Trace) : Prop :=
  forall h e rest, t = h ++ e :: rest -> isAccountRead e = true -> noAccountRead h.

(** Every answer to a read of the account data in the trace is [before]. *)
Definition firstAnswer (w : World) (before : AccountData) (t : Trace) : Prop :=
  forall h pool user answer rest,
    t = h ++ ECall (GetUserAccountData pool user) :: rest ->
    chain w h (GetUserAccountData pool user) = RAccount answer ->
    answer = before.

(** What a run says about the health factor.  Each time the pool answers
    a read of the account data, the next line renders the raw health
    factor of the answer with [displayHealth], whatever the debt.  When
    an earlier read was answered too (the snapshot taken before the
    operation) and the two snapshots satisfy [infinite], the line after
    the rendering is [line]. *)
Definition healthReport (w : World)
    (infinite : AccountData -> AccountData -> Prop) (line : Line)
    (t : Trace) : Prop :=
  forall h pool user after rest,
    t = h ++ ECall (GetUserAccountData pool user) :: rest ->
    chain w h (GetUserAccountData pool user) = RAccount after ->
    exists rest',
      rest = ELog (Health (displayHealth (healthFactor after))) :: rest'
      /\ (forall h0 pool0 user0 before mid,
            h = h0 ++ ECall (GetUserAccountData pool0 user0) :: mid ->
            chain w h0 (GetUserAccountData pool0 user0) = RAccount before ->
            infinite before after ->
            exists rest'', rest' = ELog line :: rest'').

(** After the first read of the account data and its rendering. *)
Definition afterFirstRead (w : World)
    (infinite : AccountData -> AccountData -> Prop) (line : Line)
    (before : AccountData) (t : Trace) : Prop :=
  healthReport w infinite line t /\ oneAccountRead t /\ firstAnswer w before t.

(** The infinite state of the two summaries. *)
Definition repayInfinite (before after : AccountData) : Prop :=
  totalDebtETH after = 0.

Definition withdrawInfinite (before after : AccountData) : Prop :=
  totalDebtETH before > 0 /\ totalDebtETH after = 0.

Definition repayInfiniteLine : Line :=
  Text "All debt repaid! Health Factor: oo (Infinite)".

Definition withdrawInfiniteLine : Line :=
  Text "Debt fully repaid - Health Factor: oo".

(** A repayment or a withdrawal was submitted. *)
Definition hasOperated (t : Trace) : bool :=
  existsb (fun e =>
             match e with
             | ECall (Repay _ _ _ _ _ _) | ECall (Withdraw _ _ _ _ _) => true
             | _ => false
             end) t.

(** A local node with a data provider on which every transaction
    succeeds.  The user owes 1 token at the variable rate; once a
    repayment or a withdrawal has been submitted the pool reports no debt
    at all, with the raw health factor 5.0. *)
Definition settlingWorld : World :=
  {| signers := ["0xDeployer"; "0xUser"];
     chain := fun t c =>
       match c with
       | BalanceOf _ _ => RInt (1000 * 10 ^ 18)
       | GetReserveData _ _ => RReserve (mkReserveData (2 ^ 56) "0xAToken")
       | GetUserReserveData _ _ _ =>
           RUserReserve (mkUserReserveData (10 * 10 ^ 18) 0 (10 ^ 18))
       | GetUserAccountData _ _ =>
           if hasOperated t
           then RAccount (mkAccountData (10 ^ 18) 0 (8 * 10 ^ 17) 8000 7500
                            (5 * 10 ^ 18))
           else RAccount (mkAccountData (10 ^ 18) (5 * 10 ^ 17) 0 8000 7500
                            (16 * 10 ^ 17))
       | _ => RDone
       end |}.

(** ** How a script ends *)

(** [ends canThrow canReturn w m]: in world [w] the script [m] yields a
    value; it throws only if [canThrow], and leaves [main] by [return]
    only if [canReturn]. *)
Definition ends {A} (canThrow canReturn : bool) (w : Node) (m : Script A)
  : Prop :=
  forall t,
    match m w t with
    | Value _ _ => True
    | Thrown _ _ => canThrow = true
    | Returned _ => canReturn = true
    end.

(** ** Lines that need a reason *)

(** The line [line] occurs in the trace only if [reason] holds. *)
Definition onlyIf (line : Event) (reason : Prop) (t : Trace) : Prop :=
  In line t -> reason.

(** A local node with a healthy, active reserve and a paused pool. *)
Definition pausedPoolWorld : World :=
  {| signers := ["0xDeployer"; "0xUser"];
     chain := fun _ c =>
       match c with
       | Paused _ => RBool true
       | GetReserveData _ _ => RReserve (mkReserveData (2 ^ 56) "0xAToken")
       | _ => RFail "call revert exception"
       end |}.

(** ** What a script appends *)

(** [emits w m V T R]: whatever the trace [m] starts on, it only appends
    to it; the events appended satisfy [V] with the value when [m] ends
    with a value, [T] with the message when it throws, [R] when it leaves
    [main] by a [return]. *)
Definition emits {A} (w : Node) (m : Script A) (V : A -> Trace -> Prop)
    (T : string -> Trace -> Prop) (R : Trace -> Prop) : Prop :=
  forall t,
    match m w t with
    | Value a t' => exists extra, t' = t ++ extra /\ V a extra
    | Thrown msg t' => exists extra, t' = t ++ extra /\ T msg extra
    | Returned t' => exists extra, t' = t ++ extra /\ R extra
    end.

(** The trace is [t0] followed by events satisfying [P]. *)
Definition since (t0 : Trace) (P : Trace -> Prop) (t : Trace) : Prop :=
  exists extra, t = t0 ++ extra /\ P extra.

(** The rows of the balance table. *)
Definition isBalanceRow (e : Event) : bool :=
  match e with
  | ELog (BalanceRow _ _ _) => true
  | _ => false
  end.

Definition hasRow (t : Trace) : bool := existsb isBalanceRow t.

(** The line [s] is printed. *)
Definition isLine (s : string) (e : Event) : bool :=
  match e with
  | ELog (Text s') => String.eqb s' s
  | _ => false
  end.

Definition printed (s : string) (t : Trace) : bool := existsb (isLine s) t.

(** The two closing lines of [check-balance]. *)
Definition completeLine : string := "Balance check complete!".
Definition noBalanceLine : string := "No token balances found for this address".

Definition noClosing (t : Trace) : Prop :=
  printed completeLine t = false /\ printed noBalanceLine t = false.

(** Neither a row nor a closing line. *)
Definition quietEvent (e : Event) : Prop :=
  isBalanceRow e = false
  /\ isLine completeLine e = false /\ isLine noBalanceLine e = false.

Definition quiet (t : Trace) : Prop := hasRow t = false /\ noClosing t.

(** The closing line agrees with the table: after a row only
    [completeLine] may be printed, without a row only [noBalanceLine]. *)
Definition agrees (t : Trace) : Prop :=
  if hasRow t then printed noBalanceLine t = false
  else printed completeLine t = false.

(** The read of the wallet balance of a reserve. *)
Definition walletRead (user : address) (reserve : ReserveToken) : Event :=
  ECall (BalanceOf (tokenAddress reserve) user).

(** A local node whose data provider lists one reserve. *)
Definition providerWorld : World :=
  {| signers := ["0xDeployer"; "0xUser"];
     chain := fun _ c =>
       match c with
       | GetAllReservesTokens _ => RTokens [mkReserveToken "DAI" "0xDai"]
       | BalanceOf _ _ => RInt 5
       | TokenDecimals _ => RInt 18
       | _ => RFail "call revert exception"
       end |}.

(** * Properties *)

(** ** Strings *)

Lemma startsWith_spec (needle hay : string) :
  JS.startsWith needle hay = true <-> exists rest, hay = needle +:+ rest.
Proof.
  revert hay. induction needle as [|a needle IH]; intros hay; simpl.
  - split; [intros _; exists hay; reflexivity | reflexivity].
  - destruct hay as [|b hay].
    + split; [discriminate | intros [rest H]; discriminate H].
    + rewrite andb_true_iff, Ascii.eqb_eq, IH. split.
      * intros [-> [rest ->]]. exists rest. reflexivity.
      * intros [rest H]. injection H as -> ->. split; [reflexivity | eauto].
Qed.

Lemma includes_spec (needle hay : string) :
  JS.includes needle hay = true
  <-> exists before after, hay = before +:+ needle +:+ after.
Proof.
  induction hay as [|b hay IH].
  - simpl. rewrite orb_false_r, startsWith_spec. split.
    + intros [rest H]. exists "", rest. exact H.
    + intros [[|c before] [after H]]; [exists after; exact H | discriminate H].
  - cbn [JS.includes]. rewrite orb_true_iff, startsWith_spec, IH. split.
    + intros [[rest H] | (before & after & H)].
      * exists "", rest. exact H.
      * exists (String b before), after. rewrite H. reflexivity.
    + intros [[|c before] [after H]].
      * left. exists after. exact H.
      * right. simpl in H. injection H as _ H. exists before, after. exact H.
Qed.

(** ** The reserve-configuration decoder *)

Lemma flagAt_testbit (word bit : Z) :
  0 <= word -> 0 <= bit ->
  flagAt word bit = Ok (Z.land (Z.shiftr word bit) 1 =? 1)
  /\ (Z.land (Z.shiftr word bit) 1 =? 1) = Z.testbit word bit.
Proof.
  intros Hw Hb. unfold flagAt, Ethers.shr, Ethers.and.
  assert (Hs : 0 <= Z.shiftr word bit) by (apply Z.shiftr_nonneg; exact Hw).
  destruct (Z.ltb_spec word 0); [lia|].
  destruct (Z.ltb_spec bit 0); [lia|]. simpl.
  destruct (Z.ltb_spec (Z.shiftr word bit) 0); [lia|]. simpl.
  split; [reflexivity|].
  change 1 with (Z.ones 1) at 1. rewrite Z.land_ones by lia.
  change (2 ^ 1) with 2. rewrite <- Z.bit0_eqb, Z.shiftr_spec by lia.
  f_equal.
Qed.

Lemma decodeStatus_testbit (word : Z) :
  0 <= word ->
  decodeStatus word
  = Ok (mkReserveStatus (Z.land (Z.shiftr word 56) 1 =? 1)
          (Z.land (Z.shiftr word 57) 1 =? 1))
  /\ (Z.land (Z.shiftr word 56) 1 =? 1) = Z.testbit word 56
  /\ (Z.land (Z.shiftr word 57) 1 =? 1) = Z.testbit word 57.
Proof.
  intros Hw.
  destruct (flagAt_testbit word 56 Hw ltac:(lia)) as [Ha Ha'].
  destruct (flagAt_testbit word 57 Hw ltac:(lia)) as [Hf Hf'].
  unfold decodeStatus. rewrite Ha, Hf. cbn [Res_bind]. auto.
Qed.

(** C1.  For every unsigned configuration word the decoder succeeds, and
    it returns [isActive] equal to [((word >> 56) & 1) == 1], which is
    bit 56 of the word, and [isFrozen] equal to [((word >> 57) & 1) == 1],
    which is bit 57. *)
Theorem decodeStatus_bits (word : Z) :
  0 <= word ->
  exists status,
    decodeStatus word = Ok status
    /\ isActive status = (Z.land (Z.shiftr word 56) 1 =? 1)
    /\ isFrozen status = (Z.land (Z.shiftr word 57) 1 =? 1)
    /\ isActive status = Z.testbit word 56
    /\ isFrozen status = Z.testbit word 57.
Proof.
  intros Hw. destruct (decodeStatus_testbit word Hw) as (Hd & Ha & Hf).
  eexists. split; [exact Hd|]. cbn [isActive isFrozen]. auto.
Qed.

Lemma decodeStatus_bits_witness :
  0 <= 2 ^ 56 + 5
  /\ exists status,
       decodeStatus (2 ^ 56 + 5) = Ok status
       /\ isActive status = (Z.land (Z.shiftr (2 ^ 56 + 5) 56) 1 =? 1)
       /\ isFrozen status = (Z.land (Z.shiftr (2 ^ 56 + 5) 57) 1 =? 1)
       /\ isActive status = Z.testbit (2 ^ 56 + 5) 56
       /\ isFrozen status = Z.testbit (2 ^ 56 + 5) 57.
Proof.
  split; [lia | apply (decodeStatus_bits (2 ^ 56 + 5)); lia].
Defined.

(** ** Network profile and address resolution *)

Lemma isLocalNetwork_cases (env : gmap string string) :
  isLocalNetwork env = true
  <-> (env !! "NETWORK" = None \/ env !! "NETWORK" = Some ""
       \/ env !! "NETWORK" = Some "hardhat"
       \/ env !! "NETWORK" = Some "localhost").
Proof.
  unfold isLocalNetwork, JS.orDefault.
  destruct (env !! "NETWORK") as [s|]; [|simpl; tauto].
  destruct (String.eqb_spec s "") as [->|Hne]; [simpl; tauto|].
  rewrite orb_true_iff, !String.eqb_eq. split.
  - intros [->| ->]; auto.
  - intros [H|[H|[H|H]]]; try discriminate H; injection H as ->; tauto.
Qed.

Lemma configIsLocal_isLocalNetwork (env : gmap string string) :
  configIsLocal env = isLocalNetwork env.
Proof.
  unfold configIsLocal, configNetwork, isLocalNetwork, JS.orDefault.
  destruct (env !! "NETWORK") as [s|]; [|reflexivity].
  destruct (String.eqb s ""); reflexivity.
Qed.

Lemma length_append (s1 s2 : string) :
  String.length (s1 +:+ s2) = (String.length s1 + String.length s2)%nat.
Proof. induction s1 as [|c s1 IH]; simpl; [reflexivity | rewrite IH; reflexivity]. Qed.

Lemma append_neq_self (prefix name : string) :
  prefix <> "" -> prefix +:+ name <> name.
Proof.
  intros Hp Heq. apply (f_equal String.length) in Heq.
  rewrite length_append in Heq.
  destruct prefix; [congruence | simpl in Heq; lia].
Qed.

(** On a local network the [SEPOLIA_] variable of a role is not
    consulted, elsewhere its [LOCAL_] variable is not. *)
Lemma resolveAddress_frame (env : gmap string string) (isLocal : bool)
    (name value : string) :
  resolveAddress (<[networkPrefix (negb isLocal) +:+ name := value]> env)
    isLocal name
  = resolveAddress env isLocal name.
Proof.
  unfold resolveAddress.
  destruct isLocal; cbn [negb networkPrefix].
  - rewrite lookup_insert_ne by (simpl; discriminate).
    rewrite lookup_insert_ne by (apply append_neq_self; discriminate).
    reflexivity.
  - rewrite lookup_insert_ne by (simpl; discriminate).
    rewrite lookup_insert_ne by (apply append_neq_self; discriminate).
    reflexivity.
Qed.

(** C9, as stated, fails: a [NETWORK] variable set to the empty string
    is neither 'hardhat' nor 'localhost' nor unset, and is classified as
    local, because [process.env.NETWORK || 'hardhat'] takes the default
    for every falsy value. *)
Lemma network_classification_counterexample :
  ~ (forall env : gmap string string,
       isLocalNetwork env = true
       <-> (env !! "NETWORK" = None
            \/ env !! "NETWORK" = Some "hardhat"
            \/ env !! "NETWORK" = Some "localhost")).
Proof.
  intros H.
  destruct (H {[ "NETWORK" := "" ]}) as [H1 _].
  destruct (H1 eq_refl) as [H2|[H2|H2]];
    vm_compute in H2; discriminate H2.
Qed.

(** C9, amended.  The network is classified as local exactly when
    [NETWORK] is unset, empty, 'hardhat' or 'localhost'; [loadConfig]
    (default 'localhost') and [isLocalNetwork] (default 'hardhat') agree
    on it; a role is resolved from the [LOCAL_] variable and the generic
    one in the local case and from the [SEPOLIA_] variable and the generic
    one in every other case, and the variable with the other prefix has
    no influence. *)
Theorem network_classification (env : gmap string string) (name : string) :
  (isLocalNetwork env = true
   <-> (env !! "NETWORK" = None \/ env !! "NETWORK" = Some ""
        \/ env !! "NETWORK" = Some "hardhat"
        \/ env !! "NETWORK" = Some "localhost"))
  /\ configIsLocal env = isLocalNetwork env
  /\ resolveAddress env (isLocalNetwork env) name
     = JS.or (env !! (networkPrefix (isLocalNetwork env) +:+ name))
             (env !! name)
  /\ (networkPrefix (isLocalNetwork env) = "LOCAL_"
      \/ networkPrefix (isLocalNetwork env) = "SEPOLIA_")
  /\ (forall value,
        resolveAddress
          (<[networkPrefix (negb (isLocalNetwork env)) +:+ name := value]> env)
          (isLocalNetwork env) name
        = resolveAddress env (isLocalNetwork env) name).
Proof.
  split; [apply isLocalNetwork_cases|].
  split; [apply configIsLocal_isLocalNetwork|].
  split; [unfold resolveAddress; destruct (isLocalNetwork env); reflexivity|].
  split; [destruct (isLocalNetwork env); simpl; auto|].
  intros value. apply resolveAddress_frame.
Qed.

Lemma network_classification_witness :
  isLocalNetwork {[ "NETWORK" := "localhost" ]} = true
  /\ isLocalNetwork {[ "NETWORK" := "sepolia" ]} = false.
Proof.
  split.
  - apply (proj1 (network_classification {[ "NETWORK" := "localhost" ]} "TOKEN_ADDRESS")).
    right. right. right. reflexivity.
  - destruct (isLocalNetwork {[ "NETWORK" := "sepolia" ]}) eqn:E; [|reflexivity].
    apply (proj1 (network_classification {[ "NETWORK" := "sepolia" ]} "TOKEN_ADDRESS")) in E.
    destruct E as [E|[E|[E|E]]]; vm_compute in E; discriminate E.
Defined.

Lemma truthy_Some (v : option string) (s : string) :
  v = Some s -> s <> "" -> JS.truthy v = true.
Proof.
  intros -> Hne. simpl. destruct (String.eqb_spec s ""); [contradiction | reflexivity].
Qed.

Lemma truthy_true (v : option string) :
  JS.truthy v = true -> exists s, v = Some s /\ s <> "".
Proof.
  destruct v as [s|]; simpl; [|discriminate].
  destruct (String.eqb_spec s ""); [discriminate | eauto].
Qed.

Lemma orDefault_empty (v : option string) :
  JS.orDefault v "" = match v with Some s => s | None => "" end.
Proof.
  destruct v as [s|]; simpl; [|reflexivity].
  destruct (String.eqb_spec s ""); congruence.
Qed.

(** C5, as stated, fails for the data-provider role: with neither of its
    variables set, [loadConfig] succeeds and the address is the empty
    string. *)
Lemma data_provider_absent_counterexample :
  let env : gmap string string :=
    {[ "LENDING_POOL_ADDRESS" := "0xPool"; "TOKEN_ADDRESS" := "0xToken" ]} in
  env !! "LOCAL_DATA_PROVIDER_ADDRESS" = None
  /\ env !! "DATA_PROVIDER_ADDRESS" = None
  /\ isLocalNetwork env = true
  /\ exists config,
       loadConfig env "TOKEN_SUPPLY_AMOUNT" "100" = Ok config
       /\ dataProviderAddress config = "".
Proof.
  cbv zeta. repeat split. eexists. split; vm_compute; reflexivity.
Qed.

(** C5, amended.  For each role the network-prefixed variable wins when
    it is set to a non-empty value, otherwise the generic one is used when
    it is set to a non-empty value, otherwise nothing is resolved.
    [loadConfig] fails for the first of lending pool and token that is
    not resolved, with a message naming both the prefixed and the generic
    variable; when both are resolved it succeeds with these addresses, and
    an unresolved data provider is the empty string, not a failure. *)
Theorem address_resolution (env : gmap string string)
    (amountVariable amountDefault : string) :
  let isLocal := isLocalNetwork env in
  let prefix := networkPrefix isLocal in
  let resolved := resolveAddress env isLocal in
  (forall name p,
     env !! (prefix +:+ name) = Some p -> p <> "" -> resolved name = Some p)
  /\ (forall name g,
        JS.truthy (env !! (prefix +:+ name)) = false ->
        env !! name = Some g -> g <> "" -> resolved name = Some g)
  /\ (forall name,
        JS.truthy (env !! (prefix +:+ name)) = false ->
        JS.truthy (env !! name) = false ->
        JS.truthy (resolved name) = false)
  /\ (JS.truthy (resolved "LENDING_POOL_ADDRESS") = false ->
      loadConfig env amountVariable amountDefault
      = Err ("Missing required environment variable: " +:+ prefix
             +:+ "LENDING_POOL_ADDRESS" +:+ " (or fallback "
             +:+ "LENDING_POOL_ADDRESS" +:+ ")"))
  /\ (JS.truthy (resolved "LENDING_POOL_ADDRESS") = true ->
      JS.truthy (resolved "TOKEN_ADDRESS") = false ->
      loadConfig env amountVariable amountDefault
      = Err ("Missing required environment variable: " +:+ prefix
             +:+ "TOKEN_ADDRESS" +:+ " (or fallback "
             +:+ "TOKEN_ADDRESS" +:+ ")"))
  /\ (forall pool token,
        resolved "LENDING_POOL_ADDRESS" = Some pool -> pool <> "" ->
        resolved "TOKEN_ADDRESS" = Some token -> token <> "" ->
        exists config,
          loadConfig env amountVariable amountDefault = Ok config
          /\ lendingPoolAddress config = pool
          /\ token_address config = token
          /\ dataProviderAddress config
             = match resolved "DATA_PROVIDER_ADDRESS" with
               | Some provider => provider
               | None => ""
               end).
Proof.
  intros isLocal prefix resolved.
  assert (Hres : forall name,
            resolved name = JS.or (env !! (prefix +:+ name)) (env !! name)).
  { intros name. unfold resolved, prefix, resolveAddress.
    destruct isLocal; reflexivity. }
  repeat apply conj.
  - intros name p Hp Hne. rewrite Hres. unfold JS.or.
    rewrite (truthy_Some _ _ Hp Hne). exact Hp.
  - intros name g Hp Hg _. rewrite Hres. unfold JS.or. rewrite Hp. exact Hg.
  - intros name Hp Hg. rewrite Hres. unfold JS.or. rewrite Hp. exact Hg.
  - intros Hpool. unfold loadConfig.
    rewrite configIsLocal_isLocalNetwork. fold isLocal. fold resolved.
    cbn [checkRequired]. rewrite Hpool. reflexivity.
  - intros Hpool Htoken. unfold loadConfig.
    rewrite configIsLocal_isLocalNetwork. fold isLocal. fold resolved.
    cbn [checkRequired]. rewrite Hpool, Htoken. reflexivity.
  - intros pool token Hpool Hpne Htoken Htne. unfold loadConfig.
    rewrite configIsLocal_isLocalNetwork. fold isLocal. fold resolved.
    cbn [checkRequired].
    rewrite (truthy_Some _ _ Hpool Hpne), (truthy_Some _ _ Htoken Htne).
    cbn [negb Res_bind]. eexists. split; [reflexivity|].
    cbn [lendingPoolAddress token_address dataProviderAddress].
    rewrite Hpool, Htoken, orDefault_empty. auto.
Qed.

Lemma address_resolution_witness :
  let env : gmap string string :=
    {[ "LOCAL_LENDING_POOL_ADDRESS" := "0xLocalPool";
       "LENDING_POOL_ADDRESS" := "0xPool";
       "TOKEN_ADDRESS" := "0xToken" ]} in
  exists config,
    loadConfig env "TOKEN_REPAY_AMOUNT" "0" = Ok config
    /\ lendingPoolAddress config = "0xLocalPool"
    /\ token_address config = "0xToken"
    /\ dataProviderAddress config = "".
Proof.
  intros env.
  destruct (address_resolution env "TOKEN_REPAY_AMOUNT" "0")
    as (_ & _ & _ & _ & _ & H).
  destruct (H "0xLocalPool" "0xToken") as (config & H1 & H2 & H3 & H4);
    [reflexivity | discriminate | reflexivity | discriminate |].
  exists config. repeat split; assumption.
Defined.

(** ** Classification of failures *)

Lemma classify_find (table : list (string * ErrorKind)) (message : string) :
  classify table message
  = match find (fun entry => JS.includes (fst entry) message) table with
    | Some entry => snd entry
    | None => Unrecognized
    end.
Proof.
  induction table as [|[code kind] table IH]; simpl; [reflexivity|].
  destruct (JS.includes code message); [reflexivity | exact IH].
Qed.

Lemma reportFailure_trace (banner : string) (hint : string -> option ErrorKind)
    (message : string) (w : World) (t : Trace) :
  reportFailure banner hint message w t
  = Returned (t ++ ELog (Failed banner) :: ELog (ErrorMessage message)
                :: match hint message with
                   | Some k => [ELog (Hint k)]
                   | None => []
                   end).
Proof.
  unfold reportFailure, Script.bind, Script.log, Script.returnNow, Script.ret.
  destruct (hint message); rewrite <- ?app_assoc; reflexivity.
Qed.

(** The three [catch] chains are lookups in the tables. *)
Lemma hints_are_lookups (message : string) :
  borrowHint message = hintOf (classify borrowErrors message)
  /\ repayHint message = hintOf (classify repayErrors message)
  /\ withdrawHint message = hintOf (classify withdrawErrors message).
Proof.
  split; [unfold borrowHint, borrowErrors; cbn [classify];
          repeat (destruct (JS.includes _ message); [reflexivity|]); reflexivity|].
  split; [unfold repayHint, repayErrors; cbn [classify];
          repeat (destruct (JS.includes _ message); [reflexivity|]); reflexivity|].
  unfold withdrawHint, withdrawErrors; cbn [classify];
    repeat (destruct (JS.includes _ message); [reflexivity|]); reflexivity.
Qed.

Lemma append_assoc (a b c : string) : (a +:+ b) +:+ c = a +:+ b +:+ c.
Proof.
  induction a as [|x a IH]; [reflexivity|].
  change (String x ((a +:+ b) +:+ c) = String x (a +:+ b +:+ c)).
  rewrite IH. reflexivity.
Qed.

Lemma includes_trans (a b hay : string) :
  JS.includes a b = true -> JS.includes b hay = true -> JS.includes a hay = true.
Proof.
  rewrite !includes_spec. intros (x & y & ->) (u & v & ->).
  exists (u +:+ x), (y +:+ v). rewrite !append_assoc. reflexivity.
Qed.

(** A consequence of the order of the chains: a code that contains an
    earlier code of the same chain is never reported ('11' after '1' in
    borrow, '15' after '5' in repay). *)
Lemma shadowed_hints (message : string) :
  borrowHint message <> Some InsufficientCollateral
  /\ repayHint message <> Some NoVariableDebt.
Proof.
  split.
  - unfold borrowHint.
    destruct (JS.includes "1" message) eqn:E1; [discriminate|].
    destruct (JS.includes "3" message); [discriminate|].
    destruct (JS.includes "11" message) eqn:E11; [|destruct (JS.includes "64" message); discriminate].
    rewrite (includes_trans "1" "11" message eq_refl E11) in E1. discriminate.
  - unfold repayHint.
    destruct (JS.includes "5" message) eqn:E5; [discriminate|].
    destruct (JS.includes "14" message); [discriminate|].
    destruct (JS.includes "15" message) eqn:E15; [|discriminate].
    rewrite (includes_trans "5" "15" message eq_refl E15) in E5. discriminate.
Qed.

(** ** Reasoning about scripts *)

Section Rules.

Context (w : Node) (I R : Trace -> Prop).

Lemma safe_ret {A} (a : A) : safe w I R (Script.ret a).
Proof. intros t Ht. exact Ht. Qed.

Lemma safe_throw {A} (msg : string) : safe w I R (@Script.throw A msg).
Proof. intros t Ht. exact Ht. Qed.

Lemma safe_returnNow {A} : safe w I R (@Script.returnNow A).
Proof. intros t Ht. left. exact Ht. Qed.

Lemma safe_getSigners : safe w I R Script.getSigners.
Proof.
  intros t Ht. unfold Script.getSigners.
  destruct w as [w0|w0 rejects]; [exact Ht|].
  destruct (rejects t Signers); exact Ht.
Qed.

Lemma safe_getContractAt (artifact : string) (target : address) :
  safe w I R (Script.getContractAt artifact target).
Proof.
  intros t Ht. unfold Script.getContractAt.
  destruct w as [w0|w0 rejects]; [exact Ht|].
  destruct (rejects t (ContractAt artifact target)); exact Ht.
Qed.

Lemma safe_lift {A} (r : Res A) : safe w I R (Script.lift r).
Proof. destruct r; [apply safe_ret | apply safe_throw]. Qed.

Lemma triple_bind {A B} (P : Trace -> Prop) (m : Script A) (f : A -> Script B) :
  triple w P m I R -> (forall a, safe w I R (f a)) ->
  triple w P (Script.bind m f) I R.
Proof.
  intros Hm Hf t Ht. unfold Script.bind. specialize (Hm t Ht).
  destruct (m w t) as [a t'|msg t'|t']; [apply Hf; exact Hm | exact Hm | exact Hm].
Qed.

Lemma safe_bind {A B} (m : Script A) (f : A -> Script B) :
  safe w I R m -> (forall a, safe w I R (f a)) -> safe w I R (Script.bind m f).
Proof. apply triple_bind. Qed.

Lemma safe_bind_ret {A B} (a : A) (f : A -> Script B) :
  safe w I R (f a) -> safe w I R (Script.bind (Script.ret a) f).
Proof. intros H t Ht. exact (H t Ht). Qed.

(** A script that never yields a value cuts off what follows it. *)
Lemma safe_bind_stop {A B} (m : Script A) (f : A -> Script B) :
  safe w I R m ->
  (forall t, I t -> match m w t with Value _ _ => False | _ => True end) ->
  safe w I R (Script.bind m f).
Proof.
  intros Hm Hstop t Ht. unfold Script.bind.
  specialize (Hm t Ht). specialize (Hstop t Ht).
  destruct (m w t) as [a t'|msg t'|t']; [contradiction | exact Hm | exact Hm].
Qed.

Lemma safe_tryCatch {A} (body : Script A) (handler : string -> Script A) :
  safe w I R body -> (forall msg, safe w I R (handler msg)) ->
  safe w I R (Script.tryCatch body handler).
Proof.
  intros Hb Hh t Ht. unfold Script.tryCatch. specialize (Hb t Ht).
  destruct (body w t) as [a t'|msg t'|t']; [exact Hb | apply Hh; exact Hb | exact Hb].
Qed.

Lemma safe_log (good : Event -> Prop) (l : Line) :
  stable I good -> good (ELog l) -> safe w I R (Script.log l).
Proof. intros Hs Hg t Ht. apply Hs; assumption. Qed.

Lemma safe_call (good : Event -> Prop) (c : Call) :
  stable I good -> good (ECall c) -> safe w I R (Script.call c).
Proof.
  intros Hs Hg t Ht. unfold Script.call.
  destruct w; apply Hs; assumption.
Qed.

Lemma safe_expectDone r : safe w I R (Script.expectDone r).
Proof. destruct r; first [apply safe_ret | apply safe_throw]. Qed.
Lemma safe_expectInt r : safe w I R (Script.expectInt r).
Proof. destruct r; first [apply safe_ret | apply safe_throw]. Qed.
Lemma safe_expectBool r : safe w I R (Script.expectBool r).
Proof. destruct r; first [apply safe_ret | apply safe_throw]. Qed.
Lemma safe_expectString r : safe w I R (Script.expectString r).
Proof. destruct r; first [apply safe_ret | apply safe_throw]. Qed.
Lemma safe_expectAddresses r : safe w I R (Script.expectAddresses r).
Proof. destruct r; first [apply safe_ret | apply safe_throw]. Qed.
Lemma safe_expectTokens r : safe w I R (Script.expectTokens r).
Proof. destruct r; first [apply safe_ret | apply safe_throw]. Qed.
Lemma safe_expectReserve r : safe w I R (Script.expectReserve r).
Proof. destruct r; first [apply safe_ret | apply safe_throw]. Qed.
Lemma safe_expectAccount r : safe w I R (Script.expectAccount r).
Proof. destruct r; first [apply safe_ret | apply safe_throw]. Qed.
Lemma safe_expectUserReserve r : safe w I R (Script.expectUserReserve r).
Proof. destruct r; first [apply safe_ret | apply safe_throw]. Qed.

End Rules.

(** The outcome of a process run, from a fact about [main]. *)
Lemma runProcess_safe (w : World) (I R : Trace -> Prop) (good : Event -> Prop)
    (main : Script unit) :
  safe w I R main -> stable I good -> (forall msg, good (ELog (UncaughtError msg))) ->
  I [] ->
  I (output (runProcess main w))
  \/ (R (output (runProcess main w)) /\ exitStatus (runProcess main w) = 0).
Proof.
  intros Hm Hs Hg H0. unfold runProcess. specialize (Hm [] H0).
  destruct (main w []) as [a t|msg t|t]; simpl.
  - left. exact Hm.
  - left. apply Hs; [exact Hm | apply Hg].
  - destruct Hm as [Hm|Hm]; [left; exact Hm | right; split; [exact Hm | reflexivity]].
Qed.

Create HintDb script_rules.
#[local] Hint Resolve safe_ret safe_throw safe_returnNow safe_getSigners
  safe_getContractAt safe_lift
  safe_expectDone safe_expectInt safe_expectBool safe_expectString
  safe_expectAddresses safe_expectTokens safe_expectReserve safe_expectAccount
  safe_expectUserReserve : script_rules.

(** Walk through a script: [side] closes the conditions of [safe_log] and
    [safe_call] on the events met on the way. *)
Ltac safe_step side :=
  lazymatch goal with
  | |- safe _ _ _ (Script.bind (Script.ret _) _) => apply safe_bind_ret
  | |- safe _ _ _ (Script.bind (Script.lift (Ok _)) _) => apply safe_bind_ret
  | |- safe _ _ _ (Script.bind _ _) => apply safe_bind; [|intros ?]
  | |- safe _ _ _ (Script.tryCatch _ _) => apply safe_tryCatch; [|intros ?]
  | |- safe _ _ _ (Script.log _) => eapply safe_log; [side | side]
  | |- safe _ _ _ (Script.call _) => eapply safe_call; [side | side]
  | |- safe _ _ _ (if ?b then _ else _) => destruct b
  | |- safe _ _ _ (match ?x with _ => _ end) => destruct x
  | |- safe _ _ _ ?m =>
      first [ solve [auto with script_rules]
            | let h := get_head m in unfold h; cbv beta zeta ]
  end.

Ltac safe_walk side := repeat safe_step side.

(** ** Supplying to an inactive reserve *)

Lemma noStatusRead_stable : stable noStatusRead (fun e => isStatusRead e = false).
Proof.
  intros t e Ht He. unfold noStatusRead in *.
  rewrite forallb_app, Ht. simpl. rewrite He. reflexivity.
Qed.

Lemma supplyMain_noStatusRead (env : gmap string string) (w : World) :
  safe w noStatusRead noStatusRead (supplyMain env).
Proof.
  unfold supplyMain.
  safe_walk ltac:(first [exact noStatusRead_stable | reflexivity]).
Qed.

(** C3, as stated, fails: against a reserve whose word has bits 56 and 57
    both 0 the supply script validates nothing; it approves and submits
    the deposit, and the failure is the revert of that call. *)
Lemma inactive_reserve_counterexample :
  chain inactiveReserveWorld [] (GetReserveData "0xPool" "0xToken")
  = RReserve (mkReserveData 0 "0xAToken")
  /\ decodeStatus 0 = Ok (mkReserveStatus false false)
  /\ output (runProcess (supplyMain plainEnv) inactiveReserveWorld)
     = [ ECall (BalanceOf "0xToken" "0xUser");
         ECall (Approve "0xToken" "0xUser" "0xPool" (100 * 10 ^ 18));
         ELog (Text "Approved");
         ECall (Deposit "0xPool" "0xUser" "0xToken" (100 * 10 ^ 18) "0xUser" 0);
         ELog (UncaughtError "VM Exception while processing transaction: revert 2") ]
  /\ exitStatus (runProcess (supplyMain plainEnv) inactiveReserveWorld) = 1.
Proof. repeat split; vm_compute; reflexivity. Qed.

Lemma readPaused_outcome (pool : address) (onFailure : Line) (w : World) (t : Trace) :
  exists b extra,
    readPaused pool onFailure w t = Value b (t ++ ECall (Paused pool) :: extra)
    /\ (extra = []
        \/ extra = [ELog (Text "WARNING: The entire pool is PAUSED!")]
        \/ extra = [ELog onFailure]).
Proof.
  unfold readPaused, Script.tryCatch, Script.bind, Script.call, Script.expectBool,
    Script.log, Script.ret, Script.throw.
  destruct (chain w t (Paused pool)) as [| | [|] | | | | | | |];
    rewrite <- ?app_assoc; eauto 6.
Qed.

Lemma bind_value {A B} (m : Script A) (f : A -> Script B) (w : World)
    (t t' : Trace) (a : A) :
  m w t = Value a t' -> Script.bind m f w t = f a w t'.
Proof. intros H. unfold Script.bind. rewrite H. reflexivity. Qed.

Lemma bind_thrown {A B} (m : Script A) (f : A -> Script B) (w : World)
    (t t' : Trace) (msg : string) :
  m w t = Thrown msg t' -> Script.bind m f w t = Thrown msg t'.
Proof. intros H. unfold Script.bind. rewrite H. reflexivity. Qed.

Lemma bind_returned {A B} (m : Script A) (f : A -> Script B) (w : World)
    (t t' : Trace) :
  m w t = Returned t' -> Script.bind m f w t = Returned t'.
Proof. intros H. unfold Script.bind. rewrite H. reflexivity. Qed.

Lemma bind_ret {A B} (a : A) (f : A -> Script B) (w : World) (t : Trace) :
  Script.bind (Script.ret a) f w t = f a w t.
Proof. reflexivity. Qed.

Lemma bind_log {B} (l : Line) (f : unit -> Script B) (w : World) (t : Trace) :
  Script.bind (Script.log l) f w t = f tt w (t ++ [ELog l]).
Proof. reflexivity. Qed.

(** On a world the awaits of the environment resolve. *)
Lemma bind_getContractAt {B} (artifact : string) (target : address)
    (f : unit -> Script B) (w : World) (t : Trace) :
  Script.bind (Script.getContractAt artifact target) f w t = f tt w t.
Proof. reflexivity. Qed.

Lemma bind_connect {B} (config : Config) (f : unit -> Script B) (w : World)
    (t : Trace) :
  Script.bind (connect config) f w t = f tt w t.
Proof. reflexivity. Qed.

Lemma balanceOf_value (w : World) (t : Trace) (token user : address) (z : Z) :
  chain w t (BalanceOf token user) = RInt z ->
  balanceOf token user w t = Value z (t ++ [ECall (BalanceOf token user)]).
Proof.
  intros H. unfold balanceOf, Script.bind, Script.call. rewrite H. reflexivity.
Qed.

Lemma getReserveData_value (w : World) (t : Trace) (pool asset : address)
    (r : ReserveData) :
  chain w t (GetReserveData pool asset) = RReserve r ->
  getReserveData pool asset w t
  = Value r (t ++ [ECall (GetReserveData pool asset)]).
Proof.
  intros H. unfold getReserveData, Script.bind, Script.call. rewrite H. reflexivity.
Qed.


Lemma sendTransaction_value (w : World) (t : Trace) (c : Call) :
  chain w t c = RDone ->
  sendTransaction c w t = Value tt (t ++ [ECall c]).
Proof.
  intros H. unfold sendTransaction, Script.bind, Script.call. rewrite H. reflexivity.
Qed.

Lemma sendTransaction_thrown (w : World) (t : Trace) (c : Call) (msg : string) :
  chain w t c = RFail msg ->
  sendTransaction c w t = Thrown msg (t ++ [ECall c]).
Proof.
  intros H. unfold sendTransaction, Script.bind, Script.call. rewrite H. reflexivity.
Qed.

(** The run of [check-pool-config] on an initialised reserve whose
    decoded status is inactive and not frozen. *)
Lemma checkPoolConfig_inactive (word : Z) (env : gmap string string) (w : World)
    (pool asset aToken : string) :
  decodeStatus word = Ok (mkReserveStatus false false) ->
  resolveAddress env (isLocalNetwork env) "LENDING_POOL_ADDRESS" = Some pool ->
  pool <> "" ->
  resolveAddress env (isLocalNetwork env) "TOKEN_ADDRESS" = Some asset ->
  asset <> "" ->
  aToken <> Ethers.AddressZero ->
  (forall h, chain w h (GetReserveData pool asset)
             = RReserve (mkReserveData word aToken)) ->
  exists extra,
    checkPoolConfigMain env w []
    = Value tt (ECall (Paused pool) :: extra
                ++ [ECall (GetReserveData pool asset);
                    ELog (StatusLine (mkReserveStatus false false));
                    ELog (Text "ERROR: Reserve is not active!")])
    /\ (extra = []
        \/ extra = [ELog (Text "WARNING: The entire pool is PAUSED!")]
        \/ extra = [ELog (Text "Could not check pool pause status")]).
Proof.
  intros Hdec Hpool Hpne Hasset Hane HaToken Hchain.
  unfold checkPoolConfigMain. cbv zeta.
  rewrite Hpool, Hasset.
  rewrite (truthy_Some _ _ eq_refl Hpne), (truthy_Some _ _ eq_refl Hane).
  cbn [negb orb assertPresent]. rewrite bind_getContractAt.
  destruct (readPaused_outcome pool (Text "Could not check pool pause status") w [])
    as (b & extra & Hpaused & Hextra).
  exists extra. split; [|exact Hextra].
  rewrite (bind_value _ _ _ _ _ _ Hpaused).
  unfold Script.tryCatch.
  rewrite (bind_value _ _ _ _ _ _ (getReserveData_value _ _ _ _ _ (Hchain _))).
  cbn [configuration_data]. rewrite Hdec. cbn [Script.lift].
  rewrite bind_ret, bind_log.
  unfold reserveVerdict. cbn [aTokenAddress isActive negb].
  destruct (String.eqb_spec aToken Ethers.AddressZero) as [E|_]; [contradiction|].
  unfold Script.log. simpl app. rewrite <- !app_assoc. reflexivity.
Qed.

(** C3, amended.  A word with bits 56 and 57 both 0 decodes to
    [isActive = false], [isFrozen = false].  For an initialised reserve
    with such a word the diagnostic [check-pool-config] reports that the
    reserve is not active, never that it is configured correctly, submits
    nothing and exits with status 0.  The supply script never reads the
    reserve data or the pause flag, in any run. *)
Theorem inactive_reserve_diagnosed (word : Z) (env : gmap string string)
    (w : World) :
  0 <= word -> Z.testbit word 56 = false -> Z.testbit word 57 = false ->
  decodeStatus word = Ok (mkReserveStatus false false)
  /\ (forall pool asset aToken,
        resolveAddress env (isLocalNetwork env) "LENDING_POOL_ADDRESS" = Some pool ->
        pool <> "" ->
        resolveAddress env (isLocalNetwork env) "TOKEN_ADDRESS" = Some asset ->
        asset <> "" ->
        aToken <> Ethers.AddressZero ->
        (forall h, chain w h (GetReserveData pool asset)
                   = RReserve (mkReserveData word aToken)) ->
        let run := runProcess (checkPoolConfigMain env) w in
        In (ELog (Text "ERROR: Reserve is not active!")) (output run)
        /\ ~ In (ELog (Text "Reserve is configured correctly")) (output run)
        /\ (forall c, In (ECall c) (output run) -> isTransaction c = false)
        /\ exitStatus run = 0)
  /\ noStatusRead (output (runProcess (supplyMain env) w)).
Proof.
  intros Hw H56 H57.
  assert (Hdec : decodeStatus word = Ok (mkReserveStatus false false)).
  { destruct (decodeStatus_testbit word Hw) as (Hd & Ha & Hf).
    rewrite Hd, Ha, Hf, H56, H57. reflexivity. }
  split; [exact Hdec|]. split.
  - intros pool asset aToken Hpool Hpne Hasset Hane HaToken Hchain run.
    destruct (checkPoolConfig_inactive word env w pool asset aToken
                Hdec Hpool Hpne Hasset Hane HaToken Hchain)
      as (extra & Hrun & Hextra).
    subst run. unfold runProcess. rewrite Hrun. cbn [output exitStatus].
    repeat split.
    + right. apply in_or_app. right. simpl. auto.
    + intros [H|H]; [discriminate H|].
      apply in_app_or in H.
      destruct H as [H|H];
        [destruct Hextra as [-> | [-> | ->]] | ]; simpl in H; intuition discriminate.
    + intros c [H|H]; [injection H as E; subst c; reflexivity|].
      apply in_app_or in H.
      destruct H as [H|H];
        [destruct Hextra as [-> | [-> | ->]] | ]; simpl in H;
        intuition (try discriminate);
        match goal with E : ECall _ = ECall _ |- _ => injection E as E' end;
        subst c; reflexivity.
  - destruct (runProcess_safe w noStatusRead noStatusRead
                (fun e => isStatusRead e = false) (supplyMain env)
                (supplyMain_noStatusRead env w) noStatusRead_stable
                (fun _ => eq_refl) eq_refl) as [H|[H _]]; exact H.
Qed.

Lemma inactive_reserve_diagnosed_witness :
  decodeStatus 0 = Ok (mkReserveStatus false false)
  /\ In (ELog (Text "ERROR: Reserve is not active!"))
       (output (runProcess (checkPoolConfigMain plainEnv) inactiveReserveWorld))
  /\ noStatusRead (output (runProcess (supplyMain plainEnv) inactiveReserveWorld)).
Proof.
  destruct (inactive_reserve_diagnosed 0 plainEnv inactiveReserveWorld)
    as (H1 & H2 & H3); [lia | reflexivity | reflexivity |].
  split; [exact H1|]. split; [|exact H3].
  apply (H2 "0xPool" "0xToken" "0xAToken");
    [reflexivity | discriminate | reflexivity | discriminate | discriminate
     | intros h; reflexivity].
Defined.

(** ** The balance aggregator *)

Lemma rowsExact_stable : stable rowsExact rowExact.
Proof.
  intros t e Ht He. unfold rowsExact. rewrite Forall_app. split; [exact Ht|].
  constructor; [exact He | constructor].
Qed.

Lemma readDeposited_answer (w : World) (t : Trace) (pool user : address)
    (reserve : ReserveToken) :
  exists t',
    readDeposited pool user reserve w t
    = Value (depositedAnswer w t pool user reserve) t'.
Proof.
  unfold readDeposited, depositedAnswer, Script.tryCatch, getReserveData,
    erc20BalanceOf, expectUint, Script.bind, Script.call,
    Script.expectReserve, Script.expectInt, Script.ret, Script.throw.
  destruct (chain w t (GetReserveData pool (tokenAddress reserve)))
    as [| | | | | |rd| | |]; eauto.
  destruct (String.eqb (aTokenAddress rd) Ethers.AddressZero); cbn [negb]; eauto.
  destruct (chain w _ (BalanceOf (aTokenAddress rd) user)) as [|z| | | | | | | |];
    eauto.
  destruct ((0 <=? z) && (z <? 2 ^ 256)); eauto.
Qed.

Lemma readBalances_exact (w : World) (t : Trace) (pool user : address)
    (reserve : ReserveToken) :
  match readBalances pool user reserve w t with
  | Value tb _ => total tb = wallet tb + deposited tb
  | _ => True
  end.
Proof.
  unfold readBalances, Script.bind.
  destruct (erc20BalanceOf (tokenAddress reserve) user w t) as [wb t1|?|?];
    [|exact Logic.I|exact Logic.I].
  destruct (readDeposited_answer w t1 pool user reserve) as [t2 ->].
  reflexivity.
Qed.

Section BalanceRules.

Context (w : World).

Lemma safe_bind_value {A B} (I R : Trace -> Prop) (V : A -> Prop)
    (m : Script A) (f : A -> Script B) :
  (forall t, match m w t with Value a _ => V a | _ => True end) ->
  safe w I R m -> (forall a, V a -> safe w I R (f a)) ->
  safe w I R (Script.bind m f).
Proof.
  intros Hv Hm Hf t Ht. unfold Script.bind.
  specialize (Hm t Ht). specialize (Hv t).
  destruct (m w t) as [a t'|msg t'|t']; [apply Hf; assumption | exact Hm | exact Hm].
Qed.

Lemma readBalances_safe (pool user : address) (reserve : ReserveToken) :
  safe w rowsExact rowsExact (readBalances pool user reserve).
Proof.
  unfold readBalances.
  safe_walk ltac:(first [exact rowsExact_stable | exact Logic.I]).
Qed.

Lemma checkReserve_safe (pool user : address) (i : nat) (reserve : ReserveToken)
    (hasAny : bool) :
  safe w rowsExact rowsExact (checkReserve pool user i reserve hasAny).
Proof.
  unfold checkReserve.
  apply safe_tryCatch;
    [|intros msg; safe_walk ltac:(first [exact rowsExact_stable | exact Logic.I])].
  apply safe_bind;
    [unfold readMetadata;
     safe_walk ltac:(first [exact rowsExact_stable | exact Logic.I])|].
  intros [sym decimals].
  apply (safe_bind_value _ _ (fun tb => total tb = wallet tb + deposited tb));
    [intros t; apply readBalances_exact | apply readBalances_safe |].
  intros tb Htb.
  safe_walk ltac:(first [exact rowsExact_stable | exact Htb | exact Logic.I]).
Qed.

Lemma checkReserves_safe (pool user : address) (reserves : list ReserveToken) :
  forall i hasAny,
    safe w rowsExact rowsExact (checkReserves pool user i reserves hasAny).
Proof.
  induction reserves as [|reserve rest IH]; intros i hasAny; cbn [checkReserves].
  - apply safe_ret.
  - apply safe_bind; [apply checkReserve_safe | intros hasAny'; apply IH].
Qed.

Lemma checkBalanceMain_safe (env : gmap string string) :
  safe w rowsExact rowsExact (checkBalanceMain env).
Proof.
  unfold checkBalanceMain. cbv zeta.
  destruct (negb (JS.truthy _));
    [safe_walk ltac:(first [exact rowsExact_stable | exact Logic.I])|].
  apply safe_bind; [apply safe_getSigners|]. intros accounts.
  apply safe_bind;
    [unfold pickCheckedUser;
     safe_walk ltac:(first [exact rowsExact_stable | exact Logic.I])|].
  intros user.
  apply safe_bind; [apply safe_getContractAt|]. intros _.
  apply safe_bind;
    [unfold listReserves;
     safe_walk ltac:(first [exact rowsExact_stable | exact Logic.I])|].
  intros [|reserve rest];
    [safe_walk ltac:(first [exact rowsExact_stable | exact Logic.I])|].
  apply safe_bind; [apply checkReserves_safe|]. intros hasAny.
  safe_walk ltac:(first [exact rowsExact_stable | exact Logic.I]).
Qed.

End BalanceRules.

Lemma erc20BalanceOf_value (w : World) (t : Trace) (token user : address) (z : Z) :
  chain w t (BalanceOf token user) = RInt z -> 0 <= z < 2 ^ 256 ->
  erc20BalanceOf token user w t = Value z (t ++ [ECall (BalanceOf token user)]).
Proof.
  intros H Hz. unfold erc20BalanceOf, expectUint, Script.bind, Script.call.
  rewrite H. cbn [Script.expectInt Script.ret].
  destruct (Z.leb_spec 0 z); [|lia].
  destruct (Z.ltb_spec z (2 ^ 256)); [|lia]. reflexivity.
Qed.

(** C8.  Every balance row printed by a run of [check-balance] has
    [total = wallet + deposited], over the integers.  The three balances
    of a reserve are the wallet balance read from the token, the deposited
    amount, and their sum, where the deposited amount is the balance of
    the yield-bearing token, or 0 when the reserve data cannot be read,
    when the yield-token address is the zero address, or when that balance
    cannot be read. *)
Theorem balance_total_exact (env : gmap string string) (w : World)
    (pool user : address) (reserve : ReserveToken) (t : Trace) :
  Forall rowExact (output (runProcess (checkBalanceMain env) w))
  /\ match readBalances pool user reserve w t with
     | Value tb _ => total tb = wallet tb + deposited tb
     | _ => True
     end
  /\ (exists t',
        readDeposited pool user reserve w t
        = Value (depositedAnswer w t pool user reserve) t')
  /\ (forall walletBalance,
        chain w t (BalanceOf (tokenAddress reserve) user) = RInt walletBalance ->
        0 <= walletBalance < 2 ^ 256 ->
        let aTokenBalance :=
          depositedAnswer w (t ++ [ECall (BalanceOf (tokenAddress reserve) user)])
            pool user reserve in
        exists t',
          readBalances pool user reserve w t
          = Value (mkTokenBalance walletBalance aTokenBalance
                     (walletBalance + aTokenBalance)) t').
Proof.
  split.
  { destruct (runProcess_safe w rowsExact rowsExact rowExact (checkBalanceMain env)
                (checkBalanceMain_safe w env) rowsExact_stable
                (fun _ => Logic.I) (List.Forall_nil _)) as [H|[H _]]; exact H. }
  split; [apply readBalances_exact|].
  split; [apply readDeposited_answer|].
  intros walletBalance Hwallet Hrange aTokenBalance.
  unfold readBalances.
  rewrite (bind_value _ _ _ _ _ _ (erc20BalanceOf_value _ _ _ _ _ Hwallet Hrange)).
  destruct (readDeposited_answer w
              (t ++ [ECall (BalanceOf (tokenAddress reserve) user)])
              pool user reserve) as [t' Hd].
  rewrite (bind_value _ _ _ _ _ _ Hd). eexists. reflexivity.
Qed.

Lemma balance_total_exact_witness :
  In (ELog (BalanceRow 1 "DAI" (mkTokenBalance 5 7 12)))
     (output (runProcess (checkBalanceMain plainEnv) oneReserveWorld))
  /\ total (mkTokenBalance 5 7 12)
     = wallet (mkTokenBalance 5 7 12) + deposited (mkTokenBalance 5 7 12)
  /\ exists t',
       readBalances "0xPool" "0xUser" (mkReserveToken "DAI" "0xToken")
         oneReserveWorld []
       = Value (mkTokenBalance 5 7 12) t'.
Proof.
  destruct (balance_total_exact plainEnv oneReserveWorld "0xPool" "0xUser"
              (mkReserveToken "DAI" "0xToken") []) as (H1 & _ & _ & H4).
  assert (Hin : In (ELog (BalanceRow 1 "DAI" (mkTokenBalance 5 7 12)))
                  (output (runProcess (checkBalanceMain plainEnv) oneReserveWorld))).
  { vm_compute. auto 10. }
  split; [exact Hin|]. split.
  - exact (proj1 (List.Forall_forall _ _) H1 _ Hin).
  - apply (H4 5); [reflexivity | lia].
Defined.

(** ** Early returns of repay and withdraw *)

Lemma readOnly_stable : stable readOnly (fun e => isStateChanging e = false).
Proof.
  intros t e Ht He. unfold readOnly in *.
  rewrite forallb_app, Ht. simpl. rewrite He. reflexivity.
Qed.

Section EarlyReturn.

Context (env : gmap string string) (w : World) (user : address).
Hypothesis Huser : pickUser (isLocalNetwork env) (signers w) = Ok user.

Lemma selectUser_value (t : Trace) :
  selectUser (isLocalNetwork env) w t = Value user t.
Proof.
  unfold selectUser, Script.bind, Script.getSigners. rewrite Huser. reflexivity.
Qed.

Lemma safe_bind_selectUser {B} (I R : Trace -> Prop) (f : address -> Script B) :
  safe w I R (f user) ->
  safe w I R (Script.bind (selectUser (isLocalNetwork env)) f).
Proof.
  intros H t Ht. rewrite (bind_value _ _ _ _ _ _ (selectUser_value t)).
  exact (H t Ht).
Qed.





End EarlyReturn.

Lemma runProcess_readOnly (w : World) (main : Script unit) :
  safe w readOnly readOnly main -> readOnly (output (runProcess main w)).
Proof.
  intros H.
  destruct (runProcess_safe w readOnly readOnly
              (fun e => isStateChanging e = false) main H readOnly_stable
              (fun _ => eq_refl) eq_refl) as [H'|[H' _]]; exact H'.
Qed.



(** ** Rendering of the health factor *)

Lemma infiniteThreshold_value : infiniteThreshold = 1000000 * 10 ^ 18.
Proof. reflexivity. Qed.

(** C4, as stated, fails.  A health factor equal to the threshold is
    rendered as a number; a snapshot without debt whose raw health factor
    is 5.0 has it rendered as the number 5.0 by the repay and withdraw
    scripts; and the borrow script renders every health factor as a
    number, also the maximal one that the pool reports without debt. *)
Lemma health_display_counterexample :
  displayHealth infiniteThreshold = HealthValue infiniteThreshold
  /\ (let snapshot :=
        mkAccountData (10 ^ 18) 0 (8 * 10 ^ 17) 8000 7500 (5 * 10 ^ 18) in
      totalDebtETH snapshot = 0
      /\ displayHealth (healthFactor snapshot) = HealthValue (5 * 10 ^ 18))
  /\ In (ELog (Health (HealthValue Ethers.MaxUint256)))
       (output (runProcess (borrowMain providerEnv)
                  {| signers := ["0xDeployer"; "0xUser"];
                     chain := fun _ c =>
                       match c with
                       | BalanceOf _ _ => RInt 0
                       | GetUserAccountData _ _ =>
                           RAccount (mkAccountData (10 ^ 18) 0 (8 * 10 ^ 17)
                                       8000 7500 Ethers.MaxUint256)
                       | GetUserReserveData _ _ _ =>
                           RUserReserve (mkUserReserveData 0 0 0)
                       | _ => RDone
                       end |})).
Proof.
  split; [reflexivity|]. split; [split; reflexivity|].
  vm_compute. auto 10.
Qed.


(** ** Exit status *)

Lemma noFailureBanner_stable :
  stable noFailureBanner (fun e => isFailureBanner e = false).
Proof.
  intros t e Ht He. unfold noFailureBanner in *.
  rewrite forallb_app, Ht. simpl. rewrite He. reflexivity.
Qed.

(** The handler of a failed operation leaves [main] by [return]. *)
Lemma safe_reportFailure (w : World) (I : Trace -> Prop) (banner : string)
    (hint : string -> option ErrorKind) (message : string) :
  safe w I (fun _ => True) (reportFailure banner hint message).
Proof. intros t _. rewrite reportFailure_trace. right. exact Logic.I. Qed.

#[local] Hint Resolve safe_reportFailure : script_rules.

Lemma operations_noFailureBanner (env : gmap string string) (w : World) :
  safe w noFailureBanner (fun _ => True) (borrowMain env)
  /\ safe w noFailureBanner (fun _ => True) (repayMain env)
  /\ safe w noFailureBanner (fun _ => True) (withdrawMain env).
Proof.
  repeat split.
  - unfold borrowMain.
    safe_walk ltac:(first [exact noFailureBanner_stable | reflexivity]).
  - unfold repayMain.
    safe_walk ltac:(first [exact noFailureBanner_stable | reflexivity]).
  - unfold withdrawMain.
    safe_walk ltac:(first [exact noFailureBanner_stable | reflexivity]).
Qed.

Lemma banner_exit_zero (w : World) (main : Script unit) :
  safe w noFailureBanner (fun _ => True) main ->
  (exists banner, In (ELog (Failed banner)) (output (runProcess main w))) ->
  exitStatus (runProcess main w) = 0.
Proof.
  intros Hsafe [banner Hin].
  destruct (runProcess_safe w noFailureBanner (fun _ => True)
              (fun e => isFailureBanner e = false) main Hsafe
              noFailureBanner_stable (fun _ => eq_refl) eq_refl) as [H|[_ H]];
    [|exact H].
  unfold noFailureBanner in H. rewrite forallb_forall in H.
  specialize (H _ Hin). discriminate H.
Qed.

(** C7, as stated, fails: a borrow rejected by the pool is reported and
    the process exits with status 0; so does [check-pool-config] when the
    required variables are missing. *)
Lemma exit_status_counterexample :
  runProcess (borrowMain plainEnv) revertingWorld
  = {| output :=
         [ ECall (BalanceOf "0xToken" "0xUser");
           ECall (Borrow "0xPool" "0xUser" "0xToken" (100 * 10 ^ 18)
                    (Some 2) 0 "0xUser");
           ELog (Failed "Borrow failed!");
           ELog (ErrorMessage "VM Exception while processing transaction: revert 11");
           ELog (Hint InvalidCollateralReserve) ];
       exitStatus := 0 |}
  /\ runProcess (checkPoolConfigMain ∅) revertingWorld
     = {| output :=
            [ ELog (Text "Missing required environment variables!");
              ELog (Text "Need: LENDING_POOL_ADDRESS and TOKEN_ADDRESS");
              ELog (Text "Or: LOCAL_*/SEPOLIA_* prefixed versions based on NETWORK setting") ];
          exitStatus := 0 |}.
Proof. split; vm_compute; reflexivity. Qed.

Lemma loadConfig_failure_exit (w : World) (main : Script unit)
    (r : Res Config) (f : Config -> Script unit) (msg : string) :
  main = Script.bind (Script.lift r) f -> r = Err msg ->
  runProcess main w = mkRun [ELog (UncaughtError msg)] 1.
Proof. intros -> ->. reflexivity. Qed.

(** C7, amended.  A process exits with status 0 or 1.  It exits with
    status 1 exactly when an error escapes [main], and then the last line
    of its output is the message of that error (not a classification).
    A configuration that cannot be resolved by [loadConfig] is such an
    error.  A run that completes, or that leaves [main] by [return], exits
    with status 0: in particular every run of borrow, repay or withdraw
    that prints the banner of a failed operation, and every run of
    [check-pool-config] that misses a required variable. *)
Theorem exit_convention (env : gmap string string) (w : World)
    (main : Script unit) :
  (exitStatus (runProcess main w) = 0 \/ exitStatus (runProcess main w) = 1)
  /\ (exitStatus (runProcess main w) = 1
      <-> exists msg t, main w [] = Thrown msg t)
  /\ (forall msg t,
        main w [] = Thrown msg t ->
        output (runProcess main w) = t ++ [ELog (UncaughtError msg)])
  /\ (forall msg,
        (loadConfig env "TOKEN_SUPPLY_AMOUNT" "100" = Err msg ->
         runProcess (supplyMain env) w = mkRun [ELog (UncaughtError msg)] 1)
        /\ (loadConfig env "TOKEN_BORROW_AMOUNT" "100" = Err msg ->
            runProcess (borrowMain env) w = mkRun [ELog (UncaughtError msg)] 1)
        /\ (loadConfig env "TOKEN_REPAY_AMOUNT" "0" = Err msg ->
            runProcess (repayMain env) w = mkRun [ELog (UncaughtError msg)] 1)
        /\ (loadConfig env "TOKEN_WITHDRAW_AMOUNT" "0" = Err msg ->
            runProcess (withdrawMain env) w = mkRun [ELog (UncaughtError msg)] 1))
  /\ (forall operation,
        In operation [borrowMain env; repayMain env; withdrawMain env] ->
        (exists banner,
            In (ELog (Failed banner)) (output (runProcess operation w))) ->
        exitStatus (runProcess operation w) = 0)
  /\ (JS.truthy (resolveAddress env (isLocalNetwork env) "LENDING_POOL_ADDRESS")
      && JS.truthy (resolveAddress env (isLocalNetwork env) "TOKEN_ADDRESS")
      = false ->
      exitStatus (runProcess (checkPoolConfigMain env) w) = 0).
Proof.
  unfold runProcess at 1 2 3 4.
  split; [destruct (main w []); simpl; auto|].
  split.
  { destruct (main w []) as [a t|msg t|t]; simpl; split;
      try discriminate; try (intros (m & t' & H); discriminate H); eauto. }
  split.
  { intros msg t H. unfold runProcess. rewrite H. reflexivity. }
  split.
  { intros msg. repeat split; intros H;
      (eapply loadConfig_failure_exit; [reflexivity | exact H]). }
  split.
  { intros operation Hin Hbanner.
    destruct (operations_noFailureBanner env w) as (Hb & Hr & Hw).
    apply banner_exit_zero; [|exact Hbanner].
    destruct Hin as [<-|[<-|[<-|[]]]]; assumption. }
  intros Hmissing. unfold runProcess, checkPoolConfigMain. cbv zeta.
  rewrite <- negb_andb, Hmissing. reflexivity.
Qed.

Lemma exit_convention_witness :
  exitStatus (runProcess (borrowMain plainEnv) revertingWorld) = 0
  /\ runProcess (borrowMain ∅) revertingWorld
     = mkRun [ELog (UncaughtError
                ("Missing required environment variable: LOCAL_LENDING_POOL_ADDRESS"
                 +:+ " (or fallback LENDING_POOL_ADDRESS)"))] 1
  /\ exitStatus (runProcess (checkPoolConfigMain ∅) revertingWorld) = 0.
Proof.
  destruct (exit_convention plainEnv revertingWorld (borrowMain plainEnv))
    as (_ & _ & _ & _ & Hbanner & _).
  destruct (exit_convention ∅ revertingWorld (borrowMain ∅))
    as (_ & _ & _ & Hload & _ & Hmissing).
  split; [|split].
  - apply Hbanner; [left; reflexivity|].
    exists "Borrow failed!". vm_compute. auto 10.
  - apply (Hload _). vm_compute. reflexivity.
  - apply Hmissing. reflexivity.
Defined.

(** ** The amount of an operation *)

Lemma amountsAre_stable (v : Z) : stable (amountsAre v) (carries v).
Proof.
  intros t e Ht He. unfold amountsAre. rewrite Forall_app. split; [exact Ht|].
  constructor; [exact He | constructor].
Qed.

Lemma getMultiplier_positive (decimals : option Z) (m : Z) :
  Ethers.getMultiplier decimals = Ok m -> 0 < m.
Proof.
  unfold Ethers.getMultiplier. destruct decimals as [d|]; [|discriminate].
  destruct (Z.leb_spec 0 d) as [Hd|Hd]; [|discriminate].
  destruct (d <=? 256); [|discriminate]. cbn [andb].
  intros Hm. injection Hm as <-. apply Z.pow_pos_nonneg; lia.
Qed.

Lemma parseUnits_zero (decimals : option Z) (m : Z) :
  Ethers.getMultiplier decimals = Ok m -> Ethers.parseUnits "0" decimals = Ok 0.
Proof.
  intros H. pose proof (getMultiplier_positive _ _ H) as Hm.
  unfold Ethers.parseUnits. rewrite H. cbn -[Z.pow Z.div Z.mul Z.add Z.gtb].
  change (Ethers.isDigit "0") with true.
  change (Z.of_nat (nat_of_ascii "0")) with 48.
  change (10 ^ Z.of_nat 0) with 1. cbn [negb orb andb].
  destruct (Z.gtb_spec 1 m); [lia|]. f_equal; lia.
Qed.

Lemma parseUnits_zero_or_throw (decimals : option Z) :
  match Ethers.parseUnits "0" decimals with
  | Ok a => a = 0
  | Err _ => True
  end.
Proof.
  destruct (Ethers.getMultiplier decimals) as [m|msg] eqn:E.
  - rewrite (parseUnits_zero _ _ E). reflexivity.
  - unfold Ethers.parseUnits. rewrite E. exact Logic.I.
Qed.

Lemma resolveFullAmount_sentinel (decimals : option Z) :
  resolveFullAmount "0" decimals = Ok Ethers.MaxUint256
  /\ resolveFullAmount "" decimals = Ok Ethers.MaxUint256.
Proof. split; reflexivity. Qed.

Lemma loadConfig_amount (env : gmap string string)
    (amountVariable amountDefault : string) :
  match loadConfig env amountVariable amountDefault with
  | Ok config => amount config = JS.orDefault (env !! amountVariable) amountDefault
  | Err _ => True
  end.
Proof.
  unfold loadConfig.
  destruct (checkRequired _ _); [reflexivity | exact Logic.I].
Qed.

Section Amounts.

Context (env : gmap string string) (w : World).

Lemma safe_bind_loadConfig {B} (I R : Trace -> Prop)
    (amountVariable amountDefault : string) (f : Config -> Script B) :
  (forall config,
     amount config = JS.orDefault (env !! amountVariable) amountDefault ->
     safe w I R (f config)) ->
  safe w I R
    (Script.bind (Script.lift (loadConfig env amountVariable amountDefault)) f).
Proof.
  intros H. pose proof (loadConfig_amount env amountVariable amountDefault) as Ha.
  destruct (loadConfig env amountVariable amountDefault) as [config|msg].
  - apply safe_bind_ret. apply H. exact Ha.
  - intros t Ht. exact Ht.
Qed.

Lemma safe_bind_parseZero {B} (I R : Trace -> Prop) (decimals : option Z)
    (f : Z -> Script B) :
  safe w I R (f 0) ->
  safe w I R (Script.bind (Script.lift (Ethers.parseUnits "0" decimals)) f).
Proof.
  intros H. pose proof (parseUnits_zero_or_throw decimals) as Hz.
  destruct (Ethers.parseUnits "0" decimals) as [a|msg].
  - subst a. apply safe_bind_ret. exact H.
  - intros t Ht. exact Ht.
Qed.

Lemma supplyMain_zero :
  JS.orDefault (env !! "TOKEN_SUPPLY_AMOUNT") "100" = "0" ->
  safe w (amountsAre 0) (amountsAre 0) (supplyMain env).
Proof.
  intros Hzero. unfold supplyMain.
  apply safe_bind_loadConfig. intros config Hamount. rewrite Hzero in Hamount.
  cbv zeta. rewrite Hamount.
  apply safe_bind;
    [safe_walk ltac:(first [exact (amountsAre_stable 0) | exact Logic.I])|].
  intros user1.
  apply safe_bind;
    [safe_walk ltac:(first [exact (amountsAre_stable 0) | exact Logic.I])|].
  intros _.
  apply safe_bind;
    [safe_walk ltac:(first [exact (amountsAre_stable 0) | exact Logic.I])|].
  intros userBalance.
  apply safe_bind; [apply safe_lift|]. intros _.
  apply safe_bind_parseZero.
  safe_walk ltac:(first [exact (amountsAre_stable 0) | exact Logic.I | reflexivity]).
Qed.

Lemma borrowMain_zero :
  JS.orDefault (env !! "TOKEN_BORROW_AMOUNT") "100" = "0" ->
  safe w (amountsAre 0) (amountsAre 0) (borrowMain env).
Proof.
  intros Hzero. unfold borrowMain.
  apply safe_bind_loadConfig. intros config Hamount. rewrite Hzero in Hamount.
  cbv zeta. rewrite Hamount.
  apply safe_bind;
    [safe_walk ltac:(first [exact (amountsAre_stable 0) | exact Logic.I])|].
  intros user1.
  apply safe_bind;
    [safe_walk ltac:(first [exact (amountsAre_stable 0) | exact Logic.I])|].
  intros _.
  apply safe_bind;
    [safe_walk ltac:(first [exact (amountsAre_stable 0) | exact Logic.I])|].
  intros initialBalance.
  apply safe_bind; [apply safe_lift|]. intros _.
  apply safe_bind;
    [safe_walk ltac:(first [exact (amountsAre_stable 0) | exact Logic.I])|].
  intros _.
  apply safe_bind_parseZero.
  safe_walk ltac:(first [exact (amountsAre_stable 0) | exact Logic.I | reflexivity]).
Qed.

Lemma repayMain_full :
  JS.orDefault (env !! "TOKEN_REPAY_AMOUNT") "0" = "0" ->
  safe w (amountsAre Ethers.MaxUint256) (amountsAre Ethers.MaxUint256)
    (repayMain env).
Proof.
  intros Hzero. unfold repayMain.
  apply safe_bind_loadConfig. intros config Hamount. rewrite Hzero in Hamount.
  cbv zeta. rewrite Hamount.
  rewrite (proj1 (resolveFullAmount_sentinel (token_decimals config))).
  safe_walk ltac:(first [exact (amountsAre_stable Ethers.MaxUint256)
                        | exact Logic.I | reflexivity]).
Qed.

Lemma withdrawMain_full :
  JS.orDefault (env !! "TOKEN_WITHDRAW_AMOUNT") "0" = "0" ->
  safe w (amountsAre Ethers.MaxUint256) (amountsAre Ethers.MaxUint256)
    (withdrawMain env).
Proof.
  intros Hzero. unfold withdrawMain.
  apply safe_bind_loadConfig. intros config Hamount. rewrite Hzero in Hamount.
  cbv zeta. rewrite Hamount.
  rewrite (proj1 (resolveFullAmount_sentinel (token_decimals config))).
  safe_walk ltac:(first [exact (amountsAre_stable Ethers.MaxUint256)
                        | exact Logic.I | reflexivity]).
Qed.

End Amounts.

Lemma runProcess_amountsAre (v : Z) (w : World) (main : Script unit) :
  safe w (amountsAre v) (amountsAre v) main ->
  amountsAre v (output (runProcess main w)).
Proof.
  intros H.
  destruct (runProcess_safe w (amountsAre v) (amountsAre v) (carries v) main H
              (amountsAre_stable v) (fun _ => Logic.I) (List.Forall_nil _))
    as [H'|[H' _]]; exact H'.
Qed.

Lemma beginsWith_stable (p : Trace) : stable (beginsWith p) (fun _ => True).
Proof.
  intros t e [rest ->] _. exists (rest ++ [e]). rewrite app_assoc. reflexivity.
Qed.

(** A supply of the amount '0' reaches the network: once the wallet
    balance has been read, the approval for the amount 0 is submitted. *)
Lemma supply_zero_submitted (env : gmap string string) (w : World)
    (config : Config) (user : address) (balance multiplier : Z) :
  loadConfig env "TOKEN_SUPPLY_AMOUNT" "100" = Ok config ->
  amount config = "0" ->
  Ethers.getMultiplier (token_decimals config) = Ok multiplier ->
  pickUser (isLocalNetwork env) (signers w) = Ok user ->
  chain w [] (BalanceOf (token_address config) user) = RInt balance ->
  0 <= balance ->
  beginsWith
    [ECall (BalanceOf (token_address config) user);
     ECall (Approve (token_address config) user (lendingPoolAddress config) 0)]
    (output (runProcess (supplyMain env) w)).
Proof.
  intros Hload Hamount Hmult Huser Hbalance Hpos.
  set (p := [ECall (BalanceOf (token_address config) user);
             ECall (Approve (token_address config) user
                      (lendingPoolAddress config) 0)]).
  assert (Hmain : beginsWith p (traceOf (supplyMain env w []))).
  { unfold supplyMain. rewrite Hload. cbn [Script.lift]. rewrite bind_ret.
    cbv zeta.
    rewrite (bind_value _ _ _ _ _ _ (selectUser_value env w user Huser [])).
    rewrite bind_connect.
    rewrite (bind_value _ _ _ _ _ _ (balanceOf_value _ _ _ _ _ Hbalance)).
    unfold Ethers.formatUnits. rewrite Hmult. cbn [Res_bind Script.lift].
    rewrite bind_ret. rewrite Hamount, (parseUnits_zero _ _ Hmult).
    cbn [Script.lift]. rewrite bind_ret.
    destruct (Z.geb_spec balance 0) as [_|Hneg]; [|lia].
    assert (Htriple :
      forall (f : unit -> Script unit) (g : unit -> Script unit),
        (forall a, safe w (beginsWith p) (beginsWith p) (f a)) ->
        (forall a, safe w (beginsWith p) (beginsWith p) (g a)) ->
        triple w (fun t => t = [ECall (BalanceOf (token_address config) user)])
          (Script.bind
             (Script.bind
                (sendTransaction (Approve (token_address config) user
                                    (lendingPoolAddress config) 0)) f) g)
          (beginsWith p) (beginsWith p)).
    { intros f g Hf Hg. apply triple_bind; [|exact Hg].
      apply triple_bind; [|exact Hf].
      intros t ->. unfold sendTransaction, Script.bind, Script.call.
      match goal with |- context [Script.expectDone ?r] => destruct r end;
        cbn [Script.expectDone Script.ret Script.throw];
        unfold beginsWith; exists []; reflexivity. }
    match goal with
    | |- beginsWith p (traceOf (Script.bind (Script.bind _ ?f) ?g _ _)) =>
        specialize (Htriple f g)
    end.
    assert (Hout : forall o : Outcome unit,
              match o with
              | Value _ t' | Thrown _ t' => beginsWith p t'
              | Returned t' => beginsWith p t' \/ beginsWith p t'
              end -> beginsWith p (traceOf o)).
    { intros [a t'|msg t'|t'] H; simpl; tauto. }
    apply Hout. apply Htriple; [| |reflexivity]; intros [];
      safe_walk ltac:(first [exact (beginsWith_stable p) | exact Logic.I]). }
  unfold runProcess.
  destruct (supplyMain env w []) as [a t|msg t|t]; cbn [traceOf output] in *;
    try exact Hmain.
  destruct Hmain as [rest ->]. exists (rest ++ [ELog (UncaughtError msg)]).
  rewrite app_assoc. reflexivity.
Qed.

(** C2, as stated, fails for supply and borrow: with the amount '0' the
    scripts reject nothing before the network; supply submits the approval
    and the deposit for the amount 0, borrow submits the borrow for the
    amount 0, and the rejection is the revert of the pool. *)
Lemma zero_amount_counterexample :
  runProcess (supplyMain zeroAmountEnv) zeroRejectingWorld
  = {| output :=
         [ ECall (BalanceOf "0xToken" "0xUser");
           ECall (Approve "0xToken" "0xUser" "0xPool" 0);
           ELog (Text "Approved");
           ECall (Deposit "0xPool" "0xUser" "0xToken" 0 "0xUser" 0);
           ELog (UncaughtError "VM Exception while processing transaction: revert 1") ];
       exitStatus := 1 |}
  /\ runProcess (borrowMain zeroAmountEnv) zeroRejectingWorld
     = {| output :=
            [ ECall (BalanceOf "0xToken" "0xUser");
              ECall (Borrow "0xPool" "0xUser" "0xToken" 0 (Some 2) 0 "0xUser");
              ELog (Failed "Borrow failed!");
              ELog (ErrorMessage "VM Exception while processing transaction: revert 1");
              ELog (Hint InvalidCollateralReserve) ];
          exitStatus := 0 |}.
Proof. split; vm_compute; reflexivity. Qed.

(** C2, amended.  For repay and withdraw the requested amount '0' (an
    unset or empty variable gives '0') resolves to the full-amount
    sentinel [MaxUint256], and every transaction of such a run carries
    it.  For supply and borrow the amount '0' is parsed to the integer 0
    and passed on unchanged: every transaction of such a run carries the
    amount 0, never the sentinel, and the scripts do not reject it; in
    supply the approval for 0 is submitted as soon as the wallet balance
    has been read. *)
Theorem amount_convention (env : gmap string string) (w : World)
    (decimals : option Z) :
  resolveFullAmount "0" decimals = Ok Ethers.MaxUint256
  /\ resolveFullAmount "" decimals = Ok Ethers.MaxUint256
  /\ (JS.orDefault (env !! "TOKEN_REPAY_AMOUNT") "0" = "0" ->
      amountsAre Ethers.MaxUint256 (output (runProcess (repayMain env) w)))
  /\ (JS.orDefault (env !! "TOKEN_WITHDRAW_AMOUNT") "0" = "0" ->
      amountsAre Ethers.MaxUint256 (output (runProcess (withdrawMain env) w)))
  /\ (forall multiplier,
        Ethers.getMultiplier decimals = Ok multiplier ->
        Ethers.parseUnits "0" decimals = Ok 0)
  /\ (JS.orDefault (env !! "TOKEN_SUPPLY_AMOUNT") "100" = "0" ->
      amountsAre 0 (output (runProcess (supplyMain env) w)))
  /\ (JS.orDefault (env !! "TOKEN_BORROW_AMOUNT") "100" = "0" ->
      amountsAre 0 (output (runProcess (borrowMain env) w)))
  /\ (forall config user balance multiplier,
        loadConfig env "TOKEN_SUPPLY_AMOUNT" "100" = Ok config ->
        amount config = "0" ->
        Ethers.getMultiplier (token_decimals config) = Ok multiplier ->
        pickUser (isLocalNetwork env) (signers w) = Ok user ->
        chain w [] (BalanceOf (token_address config) user) = RInt balance ->
        0 <= balance ->
        beginsWith
          [ECall (BalanceOf (token_address config) user);
           ECall (Approve (token_address config) user
                    (lendingPoolAddress config) 0)]
          (output (runProcess (supplyMain env) w))).
Proof.
  split; [reflexivity|]. split; [reflexivity|].
  split; [intros H; apply runProcess_amountsAre, repayMain_full, H|].
  split; [intros H; apply runProcess_amountsAre, withdrawMain_full, H|].
  split; [apply parseUnits_zero|].
  split; [intros H; apply runProcess_amountsAre, supplyMain_zero, H|].
  split; [intros H; apply runProcess_amountsAre, borrowMain_zero, H|].
  intros config user balance multiplier.
  apply supply_zero_submitted.
Qed.

(** A full repayment on the sample node: the approval and the repay both
    carry the sentinel. *)
Example repay_all_run :
  runProcess (repayMain plainEnv) zeroRejectingWorld
  = {| output :=
         [ ECall (BalanceOf "0xToken" "0xUser");
           ECall (GetUserAccountData "0xPool" "0xUser");
           ELog (Health (HealthValue (16 * 10 ^ 17)));
           ECall (Approve "0xToken" "0xUser" "0xPool" Ethers.MaxUint256);
           ELog (Text "Approved");
           ECall (Repay "0xPool" "0xUser" "0xToken" Ethers.MaxUint256
                    (Some 2) "0xUser");
           ELog (Text "Repayment successful!");
           ECall (BalanceOf "0xToken" "0xUser");
           ECall (EvmIncreaseTime (Some 86400));
           ECall EvmMine;
           ELog (Text "No Data Provider address configured - skipping detailed summary");
           ECall (BalanceOf "0xToken" "0xUser");
           ELog (Text "Repayment operation completed!") ];
       exitStatus := 0 |}.
Proof. vm_compute. reflexivity. Qed.

Lemma amount_convention_witness :
  amountsAre Ethers.MaxUint256
    (output (runProcess (repayMain plainEnv) zeroRejectingWorld))
  /\ amountsAre 0 (output (runProcess (supplyMain zeroAmountEnv) zeroRejectingWorld))
  /\ beginsWith
       [ECall (BalanceOf "0xToken" "0xUser");
        ECall (Approve "0xToken" "0xUser" "0xPool" 0)]
       (output (runProcess (supplyMain zeroAmountEnv) zeroRejectingWorld)).
Proof.
  destruct (amount_convention plainEnv zeroRejectingWorld (Some 18))
    as (_ & _ & Hrepay & _).
  destruct (amount_convention zeroAmountEnv zeroRejectingWorld (Some 18))
    as (_ & _ & _ & _ & _ & Hsupply & _ & Hsubmitted).
  split; [apply Hrepay; reflexivity|].
  split; [apply Hsupply; reflexivity|].
  apply (Hsubmitted
           (mkConfig "localhost" "0xPool" "" "TOKEN" "0xToken" (Some 18) "0"
              (Some 2) (Some 86400))
           "0xUser" (1000 * 10 ^ 18) (10 ^ 18));
    [vm_compute; reflexivity | reflexivity | reflexivity | reflexivity
     | reflexivity | lia].
Defined.

(** * Further properties of the scripts *)

(** ** More rules *)

Lemma triple_weaken {A} (w : World) (P P' Q Q' R R' : Trace -> Prop)
    (m : Script A) :
  triple w P m Q R ->
  (forall t, P' t -> P t) -> (forall t, Q t -> Q' t) -> (forall t, R t -> R' t) ->
  triple w P' m Q' R'.
Proof.
  intros Hm HP HQ HR t Ht. specialize (Hm t (HP t Ht)).
  destruct (m w t) as [a t'|msg t'|t']; auto. destruct Hm; auto.
Qed.

(** Sequencing with a change of invariant: [m] takes [P] to [Q1], what
    follows takes [Q1] to [Q2]. *)
Lemma triple_bind_gen {A B} (w : World) (P Q1 Q2 R : Trace -> Prop)
    (m : Script A) (f : A -> Script B) :
  triple w P m Q1 R -> (forall t, Q1 t -> Q2 t) ->
  (forall a, triple w Q1 (f a) Q2 R) ->
  triple w P (Script.bind m f) Q2 R.
Proof.
  intros Hm HQ Hf t Ht. unfold Script.bind. specialize (Hm t Ht).
  destruct (m w t) as [a t'|msg t'|t']; [apply Hf; exact Hm | auto |].
  destruct Hm; auto.
Qed.

Lemma triple_bind_ret {A B} (w : World) (P Q R : Trace -> Prop) (a : A)
    (f : A -> Script B) :
  triple w P (f a) Q R -> triple w P (Script.bind (Script.ret a) f) Q R.
Proof. intros H t Ht. exact (H t Ht). Qed.

Lemma triple_bind_throw {A B} (w : World) (P Q R : Trace -> Prop) (msg : string)
    (f : A -> Script B) :
  (forall t, P t -> Q t) ->
  triple w P (Script.bind (Script.throw msg) f) Q R.
Proof. intros H t Ht. exact (H t Ht). Qed.

Lemma triple_tryCatch {A} (w : World) (P Q R : Trace -> Prop) (body : Script A)
    (handler : string -> Script A) :
  triple w P body Q R -> (forall msg, safe w Q R (handler msg)) ->
  triple w P (Script.tryCatch body handler) Q R.
Proof.
  intros Hb Hh t Ht. unfold Script.tryCatch. specialize (Hb t Ht).
  destruct (body w t) as [a t'|msg t'|t']; [exact Hb | apply Hh; exact Hb | exact Hb].
Qed.

Lemma selectUser_cases (isLocal : bool) (w : World) (t : Trace) :
  selectUser isLocal w t
  = match pickUser isLocal (signers w) with
    | Ok user1 => Value user1 t
    | Err msg => Thrown msg t
    end.
Proof.
  unfold selectUser, Script.bind, Script.getSigners.
  destruct (pickUser isLocal (signers w)); reflexivity.
Qed.

Lemma triple_bind_selectUser {B} (w : World) (P Q R : Trace -> Prop)
    (isLocal : bool) (f : address -> Script B) :
  (forall t, P t -> Q t) ->
  (forall user1, pickUser isLocal (signers w) = Ok user1 -> triple w P (f user1) Q R) ->
  triple w P (Script.bind (selectUser isLocal) f) Q R.
Proof.
  intros HPQ Hf t Ht. unfold Script.bind. rewrite selectUser_cases.
  destruct (pickUser isLocal (signers w)) as [user1|msg]; [|exact (HPQ t Ht)].
  exact (Hf user1 eq_refl t Ht).
Qed.

(** ** The transactions of a run, in order *)

Lemma transactions_app (t1 t2 : Trace) :
  transactions (t1 ++ t2) = transactions t1 ++ transactions t2.
Proof. unfold transactions. apply flat_map_app. Qed.

Lemma transactions_event (t : Trace) (e : Event) :
  isTransactionEvent e = false -> transactions (t ++ [e]) = transactions t.
Proof.
  intros He. rewrite transactions_app. destruct e as [c|l]; simpl in *.
  - rewrite He. apply app_nil_r.
  - apply app_nil_r.
Qed.

Lemma transactions_call (t : Trace) (c : Call) :
  isTransaction c = true -> transactions (t ++ [ECall c]) = transactions t ++ [c].
Proof. intros Hc. rewrite transactions_app. simpl. rewrite Hc. reflexivity. Qed.

Lemma transactionsAre_stable (l : list Call) :
  stable (transactionsAre l) (fun e => isTransactionEvent e = false).
Proof.
  intros t e Ht He. unfold transactionsAre. rewrite transactions_event; assumption.
Qed.

Lemma follows_stable (plan : list Call) :
  stable (follows plan) (fun e => isTransactionEvent e = false).
Proof.
  intros t e [rest Ht] He. exists rest. rewrite transactions_event; assumption.
Qed.

Lemma transactions_output (w : World) (main : Script unit) :
  transactions (output (runProcess main w)) = transactions (traceOf (main w [])).
Proof.
  unfold runProcess. destruct (main w []) as [a t|msg t|t]; simpl; try reflexivity.
  apply transactions_event. reflexivity.
Qed.

Lemma follows_output (w : World) (main : Script unit) (plan : list Call) :
  triple w (transactionsAre []) main (follows plan) (follows plan) ->
  follows plan (output (runProcess main w)).
Proof.
  intros H. unfold follows. rewrite transactions_output.
  specialize (H [] eq_refl).
  destruct (main w []) as [a t|msg t|t]; simpl; [exact H | exact H | tauto].
Qed.

(** Submitting a transaction appends it to the transactions, whether it
    settles or not. *)
Lemma sendTransaction_triple (w : World) (l : list Call) (c : Call)
    (R : Trace -> Prop) :
  isTransaction c = true ->
  triple w (transactionsAre l) (sendTransaction c) (transactionsAre (l ++ [c])) R.
Proof.
  intros Hc t Ht. unfold sendTransaction, Script.bind, Script.call.
  assert (H : transactionsAre (l ++ [c]) (t ++ [ECall c])).
  { unfold transactionsAre in *. rewrite transactions_call, Ht; auto. }
  destruct (chain w t c); exact H.
Qed.

(** First an approval, then the operation it pays for. *)
Lemma approve_then_act (w : World) (approval action : Call) (l : Line)
    (after : Script unit) :
  isTransaction approval = true -> isTransaction action = true ->
  safe w (transactionsAre [approval; action]) (follows [approval; action]) after ->
  triple w (transactionsAre [])
    (Script.bind (sendTransaction approval)
       (fun _ => Script.bind (Script.log l)
                   (fun _ => Script.bind (sendTransaction action)
                               (fun _ => after))))
    (follows [approval; action]) (follows [approval; action]).
Proof.
  intros Ha Hd Hafter.
  apply (triple_bind_gen _ _ (transactionsAre [approval]));
    [apply (sendTransaction_triple w [] approval _ Ha)
    | intros t Ht; exists [action]; rewrite Ht; reflexivity |].
  intros _.
  apply (triple_bind_gen _ _ (transactionsAre [approval]));
    [eapply safe_log; [apply transactionsAre_stable | reflexivity]
    | intros t Ht; exists [action]; rewrite Ht; reflexivity |].
  intros _.
  apply (triple_bind_gen _ _ (transactionsAre [approval; action]));
    [apply (sendTransaction_triple w [approval] action _ Hd)
    | intros t Ht; exists []; rewrite Ht; reflexivity |].
  intros _.
  eapply triple_weaken; [exact Hafter | auto | | auto].
  intros t Ht. exists []. rewrite Ht. reflexivity.
Qed.

Ltac tx_side l :=
  first [ exact (transactionsAre_stable l) | reflexivity ].

Ltac follows_side plan :=
  first [ exact (follows_stable plan) | reflexivity ].

Ltac to_safe :=
  lazymatch goal with
  | |- triple ?w ?I ?m ?I ?R => change (safe w I R m)
  end.

Lemma nothing_follows (plan : list Call) (t : Trace) :
  transactionsAre [] t -> follows plan t.
Proof. intros Ht. exists plan. rewrite Ht. reflexivity. Qed.

Lemma supplyMain_follows (env : gmap string string) (w : World) :
  triple w (transactionsAre []) (supplyMain env)
    (follows (supplyPlan env w)) (follows (supplyPlan env w)).
Proof.
  unfold supplyMain, supplyPlan.
  destruct (loadConfig env "TOKEN_SUPPLY_AMOUNT" "100") as [config|msg];
    cbn [Script.lift];
    [apply triple_bind_ret | apply triple_bind_throw, nothing_follows].
  cbv zeta.
  apply triple_bind_selectUser; [apply nothing_follows|]. intros user1 ->.
  apply (triple_bind_gen _ _ (transactionsAre []));
    [to_safe; safe_walk ltac:(tx_side (@nil Call))
    | apply nothing_follows |].
  intros _.
  apply (triple_bind_gen _ _ (transactionsAre []));
    [to_safe; safe_walk ltac:(tx_side (@nil Call))
    | apply nothing_follows |].
  intros userBalance.
  apply (triple_bind_gen _ _ (transactionsAre []));
    [to_safe; apply safe_lift | apply nothing_follows |].
  intros _.
  destruct (Ethers.parseUnits (amount config) (token_decimals config))
    as [supplyAmountWei|msg]; cbn [Script.lift];
    [apply triple_bind_ret | apply triple_bind_throw, nothing_follows].
  match goal with |- triple _ _ _ (follows ?p) _ => set (plan := p) end.
  apply (triple_bind_gen _ _ (follows plan)); [|auto|].
  - destruct (userBalance >=? supplyAmountWei).
    + apply approve_then_act; [reflexivity | reflexivity |].
      safe_walk ltac:(tx_side plan).
    + eapply triple_weaken;
        [eapply safe_log;
           [apply (transactionsAre_stable []) | reflexivity]
        | auto | apply nothing_follows | apply nothing_follows].
  - intros _. to_safe.
    safe_walk ltac:(follows_side plan).
Qed.

Lemma approval_amount (a : Z) :
  (if a =? Ethers.MaxUint256 then Ethers.MaxUint256 else a) = a.
Proof. destruct (Z.eqb_spec a Ethers.MaxUint256); congruence. Qed.

Lemma repayMain_follows (env : gmap string string) (w : World) :
  triple w (transactionsAre []) (repayMain env)
    (follows (repayPlan env w)) (follows (repayPlan env w)).
Proof.
  unfold repayMain, repayPlan.
  destruct (loadConfig env "TOKEN_REPAY_AMOUNT" "0") as [config|msg];
    cbn [Script.lift];
    [apply triple_bind_ret | apply triple_bind_throw, nothing_follows].
  cbv zeta.
  apply triple_bind_selectUser; [apply nothing_follows|]. intros user1 ->.
  apply (triple_bind_gen _ _ (transactionsAre []));
    [to_safe; safe_walk ltac:(tx_side (@nil Call))
    | apply nothing_follows |].
  intros _.
  apply (triple_bind_gen _ _ (transactionsAre []));
    [to_safe; safe_walk ltac:(tx_side (@nil Call)) | apply nothing_follows |].
  intros initialBalance.
  apply (triple_bind_gen _ _ (transactionsAre []));
    [to_safe; apply safe_lift | apply nothing_follows |].
  intros _.
  apply (triple_bind_gen _ _ (transactionsAre []));
    [to_safe; safe_walk ltac:(tx_side (@nil Call)) | apply nothing_follows |].
  intros _.
  apply (triple_bind_gen _ _ (transactionsAre []));
    [to_safe; safe_walk ltac:(tx_side (@nil Call)) | apply nothing_follows |].
  intros accountDataBefore.
  apply (triple_bind_gen _ _ (transactionsAre []));
    [to_safe; safe_walk ltac:(tx_side (@nil Call)) | apply nothing_follows |].
  intros _.
  destruct (resolveFullAmount (amount config) (token_decimals config))
    as [repayAmountWei|msg]; cbn [Script.lift];
    [apply triple_bind_ret | apply triple_bind_throw, nothing_follows].
  rewrite approval_amount.
  match goal with |- triple _ _ _ (follows ?p) _ => set (plan := p) end.
  apply (triple_bind_gen _ _ (follows plan)); [|auto|].
  - apply triple_tryCatch.
    + apply approve_then_act; [reflexivity | reflexivity |].
      safe_walk ltac:(tx_side plan).
    + intros msg. safe_walk ltac:(follows_side plan).
  - intros _. to_safe. safe_walk ltac:(follows_side plan).
Qed.

(** A single operation. *)
Lemma act_once (w : World) (action : Call) (after : Script unit) :
  isTransaction action = true ->
  safe w (transactionsAre [action]) (follows [action]) after ->
  triple w (transactionsAre [])
    (Script.bind (sendTransaction action) (fun _ => after))
    (follows [action]) (follows [action]).
Proof.
  intros Ha Hafter.
  apply (triple_bind_gen _ _ (transactionsAre [action]));
    [apply (sendTransaction_triple w [] action _ Ha)
    | intros t Ht; exists []; rewrite Ht; reflexivity |].
  intros _.
  eapply triple_weaken; [exact Hafter | auto | | auto].
  intros t Ht. exists []. rewrite Ht. reflexivity.
Qed.

Lemma borrowMain_follows (env : gmap string string) (w : World) :
  triple w (transactionsAre []) (borrowMain env)
    (follows (borrowPlan env w)) (follows (borrowPlan env w)).
Proof.
  unfold borrowMain, borrowPlan.
  destruct (loadConfig env "TOKEN_BORROW_AMOUNT" "100") as [config|msg];
    cbn [Script.lift];
    [apply triple_bind_ret | apply triple_bind_throw, nothing_follows].
  cbv zeta.
  apply triple_bind_selectUser; [apply nothing_follows|]. intros user1 ->.
  apply (triple_bind_gen _ _ (transactionsAre []));
    [to_safe; safe_walk ltac:(tx_side (@nil Call))
    | apply nothing_follows |].
  intros _.
  apply (triple_bind_gen _ _ (transactionsAre []));
    [to_safe; safe_walk ltac:(tx_side (@nil Call)) | apply nothing_follows |].
  intros initialBalance.
  apply (triple_bind_gen _ _ (transactionsAre []));
    [to_safe; apply safe_lift | apply nothing_follows |].
  intros _.
  apply (triple_bind_gen _ _ (transactionsAre []));
    [to_safe; safe_walk ltac:(tx_side (@nil Call)) | apply nothing_follows |].
  intros _.
  destruct (Ethers.parseUnits (amount config) (token_decimals config))
    as [borrowAmountWei|msg]; cbn [Script.lift];
    [apply triple_bind_ret | apply triple_bind_throw, nothing_follows].
  match goal with |- triple _ _ _ (follows ?p) _ => set (plan := p) end.
  apply (triple_bind_gen _ _ (follows plan)); [|auto|].
  - apply triple_tryCatch.
    + apply act_once; [reflexivity|]. safe_walk ltac:(tx_side plan).
    + intros msg. safe_walk ltac:(follows_side plan).
  - intros _. to_safe. safe_walk ltac:(follows_side plan).
Qed.

Lemma withdrawMain_follows (env : gmap string string) (w : World) :
  triple w (transactionsAre []) (withdrawMain env)
    (follows (withdrawPlan env w)) (follows (withdrawPlan env w)).
Proof.
  unfold withdrawMain, withdrawPlan.
  destruct (loadConfig env "TOKEN_WITHDRAW_AMOUNT" "0") as [config|msg];
    cbn [Script.lift];
    [apply triple_bind_ret | apply triple_bind_throw, nothing_follows].
  cbv zeta.
  apply triple_bind_selectUser; [apply nothing_follows|]. intros user1 ->.
  apply (triple_bind_gen _ _ (transactionsAre []));
    [to_safe; safe_walk ltac:(tx_side (@nil Call))
    | apply nothing_follows |].
  intros _.
  apply (triple_bind_gen _ _ (transactionsAre []));
    [to_safe; safe_walk ltac:(tx_side (@nil Call)) | apply nothing_follows |].
  intros initialBalance.
  apply (triple_bind_gen _ _ (transactionsAre []));
    [to_safe; apply safe_lift | apply nothing_follows |].
  intros _.
  apply (triple_bind_gen _ _ (transactionsAre []));
    [to_safe; safe_walk ltac:(tx_side (@nil Call)) | apply nothing_follows |].
  intros _.
  apply (triple_bind_gen _ _ (transactionsAre []));
    [to_safe; safe_walk ltac:(tx_side (@nil Call)) | apply nothing_follows |].
  intros _.
  apply (triple_bind_gen _ _ (transactionsAre []));
    [to_safe; safe_walk ltac:(tx_side (@nil Call)) | apply nothing_follows |].
  intros accountDataBefore.
  apply (triple_bind_gen _ _ (transactionsAre []));
    [to_safe; safe_walk ltac:(tx_side (@nil Call)) | apply nothing_follows |].
  intros _.
  destruct (resolveFullAmount (amount config) (token_decimals config))
    as [withdrawAmountWei|msg]; cbn [Script.lift];
    [apply triple_bind_ret | apply triple_bind_throw, nothing_follows].
  match goal with |- triple _ _ _ (follows ?p) _ => set (plan := p) end.
  apply (triple_bind_gen _ _ (follows plan)); [|auto|].
  - apply triple_tryCatch.
    + apply act_once; [reflexivity|]. safe_walk ltac:(tx_side plan).
    + intros msg. safe_walk ltac:(follows_side plan).
  - intros _. to_safe. safe_walk ltac:(follows_side plan).
Qed.

(** X1.  The transactions of a run of the supply script are, in order, the
    first ones of its plan: nothing, or the approval of the pool for the
    parsed amount, or that approval followed by the deposit of the same
    amount on behalf of the sender.  The answers of the chain can only
    cut the plan short; no other transaction is ever submitted, and none
    twice. *)
Theorem supply_transactions (env : gmap string string) (w : World) :
  exists rest,
    supplyPlan env w
    = transactions (output (runProcess (supplyMain env) w)) ++ rest.
Proof. apply follows_output, supplyMain_follows. Qed.

(** X2.  The transactions of a run of the repay script are the first ones
    of: the approval of the pool, then the repayment, both for the same
    amount (the sentinel or the parsed amount), on behalf of the sender
    and in the configured rate mode. *)
Theorem repay_transactions (env : gmap string string) (w : World) :
  exists rest,
    repayPlan env w
    = transactions (output (runProcess (repayMain env) w)) ++ rest.
Proof. apply follows_output, repayMain_follows. Qed.

(** X3.  A run of the borrow script submits at most one transaction: the
    borrow of the parsed amount in the configured rate mode, with the
    referral code 0, on behalf of the sender. *)
Theorem borrow_transactions (env : gmap string string) (w : World) :
  exists rest,
    borrowPlan env w
    = transactions (output (runProcess (borrowMain env) w)) ++ rest.
Proof. apply follows_output, borrowMain_follows. Qed.

(** X4.  A run of the withdraw script submits at most one transaction:
    the withdrawal of the resolved amount to the sender. *)
Theorem withdraw_transactions (env : gmap string string) (w : World) :
  exists rest,
    withdrawPlan env w
    = transactions (output (runProcess (withdrawMain env) w)) ++ rest.
Proof. apply follows_output, withdrawMain_follows. Qed.

Example supply_plan_completed :
  transactions (output (runProcess (supplyMain plainEnv) zeroRejectingWorld))
  = supplyPlan plainEnv zeroRejectingWorld
  /\ supplyPlan plainEnv zeroRejectingWorld
     = [Approve "0xToken" "0xUser" "0xPool" (100 * 10 ^ 18);
        Deposit "0xPool" "0xUser" "0xToken" (100 * 10 ^ 18) "0xUser" 0].
Proof. split; vm_compute; reflexivity. Qed.

(** ** A wallet that cannot cover the supply *)

Lemma stable_and (I1 I2 : Trace -> Prop) (good1 good2 : Event -> Prop) :
  stable I1 good1 -> stable I2 good2 ->
  stable (fun t => I1 t /\ I2 t) (fun e => good1 e /\ good2 e).
Proof. intros H1 H2 t e [Ha Hb] [Hc Hd]. split; [apply H1 | apply H2]; assumption. Qed.

Lemma parseUnits_multiplier (value : string) (decimals : option Z) (wei : Z) :
  Ethers.parseUnits value decimals = Ok wei ->
  exists m, Ethers.getMultiplier decimals = Ok m.
Proof.
  unfold Ethers.parseUnits.
  destruct (Ethers.getMultiplier decimals) as [m|msg]; [eauto | discriminate].
Qed.

Lemma safe_traceOf {A} (w : World) (I : Trace -> Prop) (m : Script A) (t : Trace) :
  safe w I I m -> I t -> I (traceOf (m w t)).
Proof.
  intros H Ht. specialize (H t Ht).
  destruct (m w t) as [a t'|msg t'|t']; simpl; tauto.
Qed.

(** X5.  When the wallet balance read by the supply script is below the
    parsed amount, the run submits no transaction at all and prints that
    the balance is insufficient. *)
Theorem supply_insufficient_balance (env : gmap string string) (w : World)
    (config : Config) (user1 : address) (userBalance supplyAmountWei : Z) :
  loadConfig env "TOKEN_SUPPLY_AMOUNT" "100" = Ok config ->
  pickUser (isLocalNetwork env) (signers w) = Ok user1 ->
  chain w [] (BalanceOf (token_address config) user1) = RInt userBalance ->
  Ethers.parseUnits (amount config) (token_decimals config) = Ok supplyAmountWei ->
  userBalance < supplyAmountWei ->
  transactions (output (runProcess (supplyMain env) w)) = []
  /\ In (ELog (Text ("Insufficient " +:+ token_name config +:+ " balance")))
        (output (runProcess (supplyMain env) w)).
Proof.
  intros Hload Huser Hbalance Hparse Hlt.
  destruct (parseUnits_multiplier _ _ _ Hparse) as [m Hm].
  set (line := ELog (Text ("Insufficient " +:+ token_name config +:+ " balance"))).
  set (p := [ECall (BalanceOf (token_address config) user1); line]).
  assert (Hmain : transactionsAre [] (traceOf (supplyMain env w []))
                  /\ beginsWith p (traceOf (supplyMain env w []))).
  { unfold supplyMain. rewrite Hload. cbn [Script.lift]. rewrite bind_ret.
    cbv zeta.
    rewrite (bind_value _ _ _ _ _ _ (selectUser_value env w user1 Huser [])).
    rewrite bind_connect.
    rewrite (bind_value _ _ _ _ _ _ (balanceOf_value _ _ _ _ _ Hbalance)).
    unfold Ethers.formatUnits. rewrite Hm. cbn [Res_bind Script.lift].
    rewrite bind_ret, Hparse. cbn [Script.lift]. rewrite bind_ret.
    destruct (Z.geb_spec userBalance supplyAmountWei) as [Hge|_]; [lia|].
    rewrite bind_log.
    apply (safe_traceOf w (fun t => transactionsAre [] t /\ beginsWith p t)).
    - safe_walk ltac:(first
        [ exact (stable_and _ _ _ _ (transactionsAre_stable [])
                   (beginsWith_stable p))
        | split; [reflexivity | exact Logic.I] ]).
    - split; [reflexivity | exists []; reflexivity]. }
  destruct Hmain as [Htx Hp]. split.
  - rewrite transactions_output. exact Htx.
  - unfold runProcess.
    destruct (supplyMain env w []) as [a t|msg t|t]; cbn [traceOf output] in *;
      destruct Hp as [rest ->]; rewrite ?in_app_iff; simpl; auto.
Qed.

(** A local node on which the wallet of the user is empty. *)
Lemma supply_insufficient_balance_witness :
  transactions (output (runProcess (supplyMain plainEnv) revertingWorld)) = []
  /\ In (ELog (Text "Insufficient TOKEN balance"))
        (output (runProcess (supplyMain plainEnv) revertingWorld)).
Proof.
  apply (supply_insufficient_balance plainEnv revertingWorld
           (mkConfig "localhost" "0xPool" "" "TOKEN" "0xToken" (Some 18) "100"
              (Some 2) (Some 86400))
           "0xUser" 0 (100 * 10 ^ 18));
    [vm_compute; reflexivity | reflexivity | reflexivity
     | vm_compute; reflexivity | reflexivity].
Defined.

(** ** The pre-check of the borrow script *)

Lemma getUserAccountData_value (w : World) (t : Trace) (pool user : address)
    (a : AccountData) :
  chain w t (GetUserAccountData pool user) = RAccount a ->
  getUserAccountData pool user w t
  = Value a (t ++ [ECall (GetUserAccountData pool user)]).
Proof.
  intros H. unfold getUserAccountData, Script.bind, Script.call. rewrite H.
  reflexivity.
Qed.

(** X6.  With the data provider configured and the pool reporting, for
    the selected user, no collateral or no borrowing capacity, a run of
    the borrow script returns before the borrow: its output contains no
    state-changing call. *)
Theorem borrow_without_capacity (env : gmap string string) (w : World)
    (config : Config) (user1 : address) :
  loadConfig env "TOKEN_BORROW_AMOUNT" "100" = Ok config ->
  dataProviderAddress config <> "" ->
  pickUser (isLocalNetwork env) (signers w) = Ok user1 ->
  (forall h, exists accountData,
      chain w h (GetUserAccountData (lendingPoolAddress config) user1)
      = RAccount accountData
      /\ (totalCollateralETH accountData = 0
          \/ availableBorrowsETH accountData = 0)) ->
  readOnly (output (runProcess (borrowMain env) w)).
Proof.
  intros Hload Hdp Huser Hchain. apply runProcess_readOnly.
  unfold borrowMain. rewrite Hload. cbn [Script.lift].
  apply safe_bind_ret. cbv zeta. apply (safe_bind_selectUser env w user1 Huser).
  apply safe_bind;
    [safe_walk ltac:(first [exact readOnly_stable | reflexivity])|].
  intros _.
  apply safe_bind;
    [safe_walk ltac:(first [exact readOnly_stable | reflexivity])|].
  intros initialBalance.
  apply safe_bind; [apply safe_lift|]. intros _.
  apply safe_bind_stop.
  - safe_walk ltac:(first [exact readOnly_stable | reflexivity]).
  - intros t _. unfold hasDataProvider.
    destruct (String.eqb_spec (dataProviderAddress config) "") as [E|_];
      [contradiction|]. cbn [negb].
    destruct (Hchain t) as (a & Ha & Hzero). unfold Script.tryCatch.
    rewrite (bind_value _ _ _ _ _ _ (getUserAccountData_value _ _ _ _ _ Ha)).
    rewrite bind_log.
    destruct (Z.eqb_spec (totalCollateralETH a) 0) as [_|Hne].
    + rewrite bind_log. exact Logic.I.
    + destruct Hzero as [Hz|Hz]; [contradiction|].
      rewrite Hz. cbn [Z.eqb]. rewrite bind_log. exact Logic.I.
Qed.

Lemma borrow_without_capacity_witness :
  readOnly (output (runProcess (borrowMain providerEnv) emptyPositionWorld)).
Proof.
  apply (borrow_without_capacity providerEnv emptyPositionWorld
           (mkConfig "localhost" "0xPool" "0xProvider" "TOKEN" "0xToken"
              (Some 18) "100" (Some 2) (Some 86400)) "0xUser");
    [vm_compute; reflexivity | discriminate | reflexivity |].
  intros h. exists (mkAccountData 0 0 0 0 0 Ethers.MaxUint256).
  split; [reflexivity | left; reflexivity].
Defined.

(** ** The clock of the node *)

Lemma noClock_stable : stable noClock (fun e => isClockEvent e = false).
Proof.
  intros t e Ht He. unfold noClock in *.
  rewrite forallb_app, Ht. simpl. rewrite He. reflexivity.
Qed.

Lemma runProcess_noClock (w : World) (main : Script unit) :
  safe w noClock noClock main -> noClock (output (runProcess main w)).
Proof.
  intros H.
  destruct (runProcess_safe w noClock noClock
              (fun e => isClockEvent e = false) main H noClock_stable
              (fun _ => eq_refl) eq_refl) as [H'|[H' _]]; exact H'.
Qed.

(** X7.  On a network that is not local, no run of the supply, borrow,
    repay or withdraw script sends [evm_increaseTime] or [evm_mine]. *)
Theorem live_network_no_clock (env : gmap string string) (w : World) :
  isLocalNetwork env = false ->
  noClock (output (runProcess (supplyMain env) w))
  /\ noClock (output (runProcess (borrowMain env) w))
  /\ noClock (output (runProcess (repayMain env) w))
  /\ noClock (output (runProcess (withdrawMain env) w)).
Proof.
  intros Hlive. repeat split; apply runProcess_noClock.
  - unfold supplyMain. destruct (isLocalNetwork env); [discriminate|].
    safe_walk ltac:(first [exact noClock_stable | reflexivity]).
  - unfold borrowMain. destruct (isLocalNetwork env); [discriminate|].
    safe_walk ltac:(first [exact noClock_stable | reflexivity]).
  - unfold repayMain. destruct (isLocalNetwork env); [discriminate|].
    safe_walk ltac:(first [exact noClock_stable | reflexivity]).
  - unfold withdrawMain. destruct (isLocalNetwork env); [discriminate|].
    safe_walk ltac:(first [exact noClock_stable | reflexivity]).
Qed.

Lemma live_network_no_clock_witness :
  noClock (output (runProcess (supplyMain (<["NETWORK" := "sepolia"]> plainEnv))
                     zeroRejectingWorld)).
Proof.
  exact (proj1 (live_network_no_clock (<["NETWORK" := "sepolia"]> plainEnv)
                  zeroRejectingWorld eq_refl)).
Defined.

(** ** After a failed operation *)

Lemma snoc_decompose {A} (t : list A) (e : A) (h : list A) (x : A)
    (rest : list A) :
  t ++ [e] = h ++ x :: rest ->
  (h = t /\ x = e /\ rest = [])
  \/ (exists rest', t = h ++ x :: rest' /\ rest = rest' ++ [e]).
Proof.
  intros H. induction rest as [|y rest0 _] using rev_ind.
  - apply List.app_inj_tail in H as [-> ->]. left. auto.
  - rewrite app_comm_cons, app_assoc in H.
    apply List.app_inj_tail in H as [-> ->]. right. eauto.
Qed.

Lemma settled_snoc (w : World) (t : Trace) (e : Event) :
  settled w t ->
  (forall c, e = ECall c -> isTransaction c = true -> chain w t c = RDone) ->
  settled w (t ++ [e]).
Proof.
  intros Ht He h c rest Heq Htx.
  apply snoc_decompose in Heq as [(-> & Hx & _)|(rest' & -> & _)].
  - apply He; [symmetry; exact Hx | exact Htx].
  - eapply Ht; [reflexivity | exact Htx].
Qed.

Lemma clean_nil (w : World) : clean w [].
Proof.
  split; [reflexivity|]. intros h c rest H. destruct h; discriminate H.
Qed.

Lemma clean_stable (w : World) : stable (clean w) harmless.
Proof.
  intros t e [Hb Hs] [Heb Het]. split.
  - apply noFailureBanner_stable; assumption.
  - apply settled_snoc; [exact Hs|]. intros c -> Htx.
    cbn [isTransactionEvent] in Het. congruence.
Qed.

Section Tries.

Context (w : World).

Lemma tries_ret {A} (a : A) : tries w (Script.ret a).
Proof. intros t Ht. exact Ht. Qed.

Lemma tries_log (l : Line) :
  isFailureBanner (ELog l) = false -> tries w (Script.log l).
Proof.
  intros Hl t Ht. apply (clean_stable w); [exact Ht | split; [exact Hl | reflexivity]].
Qed.

Lemma tries_bind {A B} (m : Script A) (f : A -> Script B) :
  tries w m -> (forall a, tries w (f a)) -> tries w (Script.bind m f).
Proof.
  intros Hm Hf t Ht. unfold Script.bind. specialize (Hm t Ht).
  destruct (m w t) as [a t'|msg t'|t']; [apply Hf; exact Hm | exact Hm | exact Hm].
Qed.

Lemma tries_sendTransaction (c : Call) : tries w (sendTransaction c).
Proof.
  intros t [Hb Hs]. unfold sendTransaction, Script.bind, Script.call.
  destruct (chain w t c) eqn:E;
    cbn [Script.expectDone Script.ret Script.throw];
    try (exists t, c; rewrite E; repeat split; assumption).
  split.
  - apply noFailureBanner_stable; [exact Hb | reflexivity].
  - apply settled_snoc; [exact Hs|]. intros c' [= <-] _. exact E.
Qed.

Lemma tries_balanceOf (token user : address) : tries w (balanceOf token user).
Proof.
  intros t Ht. unfold balanceOf, Script.bind, Script.call.
  destruct (chain w t (BalanceOf token user)) eqn:E;
    cbn [Script.expectInt Script.ret Script.throw];
    try (exists t, (BalanceOf token user); rewrite E; repeat split;
         solve [reflexivity | apply Ht]).
  apply (clean_stable w); [exact Ht | split; reflexivity].
Qed.

(** A [try] whose [catch] reports the failure and returns. *)
Lemma safe_operation_try (banner : string) (hint : string -> option ErrorKind)
    (body : Script unit) :
  tries w body ->
  safe w (clean w) (reportedBy w banner hint)
    (Script.tryCatch body (reportFailure banner hint)).
Proof.
  intros Hb t Ht. unfold Script.tryCatch. specialize (Hb t Ht).
  destruct (body w t) as [a t'|msg t'|t']; [exact Hb | | destruct Hb].
  rewrite reportFailure_trace. right.
  destruct Hb as (h & c & -> & Hh & ->). exists h, c.
  split; [rewrite <- app_assoc; reflexivity | exact Hh].
Qed.

End Tries.

Ltac tries_walk :=
  repeat first
    [ apply tries_sendTransaction
    | apply tries_balanceOf
    | apply tries_ret
    | apply tries_log; reflexivity
    | apply tries_bind; [|intros ?] ].

(** Walk through an operation script: the [try] of the operation is
    handed to [safe_operation_try]. *)
Ltac report_step w :=
  lazymatch goal with
  | |- safe _ _ _ (Script.tryCatch _ (reportFailure _ _)) =>
      apply safe_operation_try; tries_walk
  | |- _ =>
      safe_step ltac:(first [exact (clean_stable w) | split; reflexivity])
  end.

Ltac report_walk w := repeat report_step w.

Lemma operations_report (env : gmap string string) (w : World) :
  safe w (clean w) (reportedBy w "Borrow failed!" borrowHint) (borrowMain env)
  /\ safe w (clean w) (reportedBy w "Repayment failed!" repayHint) (repayMain env)
  /\ safe w (clean w) (reportedBy w "Withdrawal failed!" withdrawHint)
       (withdrawMain env).
Proof.
  repeat split.
  - unfold borrowMain. report_walk w.
  - unfold repayMain. report_walk w.
  - unfold withdrawMain. report_walk w.
Qed.

Lemma runProcess_report (w : World) (banner : string)
    (hint : string -> option ErrorKind) (main : Script unit) :
  safe w (clean w) (reportedBy w banner hint) main ->
  clean w (output (runProcess main w))
  \/ (reportedBy w banner hint (output (runProcess main w))
      /\ exitStatus (runProcess main w) = 0).
Proof.
  intros Hsafe.
  apply (runProcess_safe w (clean w) (reportedBy w banner hint) harmless main
           Hsafe (clean_stable w)); [intros msg; split; reflexivity|].
  apply clean_nil.
Qed.

Lemma hints_are_logs (hint : option ErrorKind) (c : Call) :
  ~ In (ECall c) (hintLines hint).
Proof. destruct hint; simpl; intuition discriminate. Qed.

(** A transaction that the chain rejects is reported, with the message
    of the rejection. *)
Lemma failed_transaction_reported (w : World) (banner : string)
    (hint : string -> option ErrorKind) (main : Script unit)
    (h : Trace) (c : Call) (rest : Trace) (message : string) :
  safe w (clean w) (reportedBy w banner hint) main ->
  output (runProcess main w) = h ++ ECall c :: rest ->
  isTransaction c = true ->
  chain w h c = RFail message ->
  rest = ELog (Failed banner) :: ELog (ErrorMessage message)
         :: hintLines (hint message)
  /\ exitStatus (runProcess main w) = 0.
Proof.
  intros Hsafe Hout Htx Hfail.
  destruct (runProcess_report w banner hint main Hsafe)
    as [[_ Hs]|[(h' & c' & Hout' & _ & Hs) Hexit]].
  - specialize (Hs h c rest Hout Htx). congruence.
  - rewrite Hout in Hout'.
    apply app_eq_app in Hout' as [l [[Hh Hr]|[Hh Hr]]].
    + destruct l as [|y l]; cbn [app] in Hr.
      * injection Hr as Hc Hrest. rewrite app_nil_r in Hh. subst h' c' rest.
        rewrite Hfail. cbn [errorOf]. split; [reflexivity | exact Hexit].
      * injection Hr as _ Hr. exfalso.
        assert (Hin : In (ECall c)
                        (ELog (Failed banner)
                         :: ELog (ErrorMessage (errorOf (chain w h' c')))
                         :: hintLines (hint (errorOf (chain w h' c')))))
          by (rewrite Hr; apply in_elt).
        destruct Hin as [Hin|[Hin|Hin]]; [discriminate Hin..|].
        exact (hints_are_logs _ _ Hin).
    + destruct l as [|y l]; cbn [app] in Hr.
      * injection Hr as Hc Hrest. rewrite app_nil_r in Hh. subst h' c' rest.
        rewrite Hfail. cbn [errorOf]. split; [reflexivity | exact Hexit].
      * injection Hr as Hy _. subst y. exfalso.
        specialize (Hs h c l Hh Htx). congruence.
Qed.

(** A banner in the output is part of the report of a failed call. *)
Lemma banner_reported (w : World) (banner : string)
    (hint : string -> option ErrorKind) (main : Script unit) (banner' : string) :
  safe w (clean w) (reportedBy w banner hint) main ->
  In (ELog (Failed banner')) (output (runProcess main w)) ->
  exists h c,
    output (runProcess main w)
    = h ++ ECall c :: ELog (Failed banner)
        :: ELog (ErrorMessage (errorOf (chain w h c)))
        :: hintLines (hint (errorOf (chain w h c))).
Proof.
  intros Hsafe Hin.
  destruct (runProcess_report w banner hint main Hsafe)
    as [[Hb _]|[(h & c & Hout & _) _]].
  - unfold noFailureBanner in Hb. rewrite forallb_forall in Hb.
    specialize (Hb _ Hin). discriminate Hb.
  - exists h, c. exact Hout.
Qed.

(** C6.  Classification looks for the codes of a fixed table as substrings
    of the raw message, the first entry that occurs decides, and a message
    in which no code occurs is [Unrecognized] (no hint is printed); the
    three [catch] chains are these table lookups.  In every run of borrow,
    repay or withdraw in which the chain rejects a transaction with a
    message, the script prints, directly after that call, its banner, then
    that very message, then the hint that the table gives for it, if any;
    nothing else follows, and the exit status is 0.  More generally, a
    banner in the output of such a run always comes directly after a call,
    and is followed by the message of the error that the answer to this
    call raised and by the hint of the table for that message. *)
Theorem failure_classification (table : list (string * ErrorKind))
    (message : string) (env : gmap string string) (w : World) :
  classify table message
  = match find (fun entry => JS.includes (fst entry) message) table with
    | Some entry => snd entry
    | None => Unrecognized
    end
  /\ (forall code,
        JS.includes code message = true
        <-> exists before after, message = before +:+ code +:+ after)
  /\ borrowHint message = hintOf (classify borrowErrors message)
  /\ repayHint message = hintOf (classify repayErrors message)
  /\ withdrawHint message = hintOf (classify withdrawErrors message)
  /\ (forall operation banner errors,
        In (operation, banner, errors)
           [(borrowMain env, "Borrow failed!", borrowErrors);
            (repayMain env, "Repayment failed!", repayErrors);
            (withdrawMain env, "Withdrawal failed!", withdrawErrors)] ->
        (forall h c rest,
           output (runProcess operation w) = h ++ ECall c :: rest ->
           isTransaction c = true ->
           chain w h c = RFail message ->
           rest = ELog (Failed banner) :: ELog (ErrorMessage message)
                  :: hintLines (hintOf (classify errors message))
           /\ exitStatus (runProcess operation w) = 0)
        /\ (forall banner',
              In (ELog (Failed banner')) (output (runProcess operation w)) ->
              exists h c,
                output (runProcess operation w)
                = h ++ ECall c :: ELog (Failed banner)
                    :: ELog (ErrorMessage (errorOf (chain w h c)))
                    :: hintLines (hintOf (classify errors
                                            (errorOf (chain w h c)))))).
Proof.
  destruct (hints_are_lookups message) as (Hb & Hr & Hw).
  split; [apply classify_find|].
  split; [intros code; apply includes_spec|].
  split; [exact Hb|]. split; [exact Hr|]. split; [exact Hw|].
  destruct (operations_report env w) as (Sb & Sr & Sw).
  intros operation banner errors Hin.
  destruct Hin as [[= <- <- <-]|[[= <- <- <-]|[[= <- <- <-]|[]]]]; split.
  - intros h c rest Hout Htx Hfail. rewrite <- Hb.
    exact (failed_transaction_reported w _ _ _ h c rest message Sb Hout Htx Hfail).
  - intros banner' Hin.
    destruct (banner_reported w _ _ _ banner' Sb Hin) as (h & c & Hout).
    exists h, c. rewrite Hout.
    rewrite (proj1 (hints_are_lookups (errorOf (chain w h c)))). reflexivity.
  - intros h c rest Hout Htx Hfail. rewrite <- Hr.
    exact (failed_transaction_reported w _ _ _ h c rest message Sr Hout Htx Hfail).
  - intros banner' Hin.
    destruct (banner_reported w _ _ _ banner' Sr Hin) as (h & c & Hout).
    exists h, c. rewrite Hout.
    rewrite (proj1 (proj2 (hints_are_lookups (errorOf (chain w h c))))).
    reflexivity.
  - intros h c rest Hout Htx Hfail. rewrite <- Hw.
    exact (failed_transaction_reported w _ _ _ h c rest message Sw Hout Htx Hfail).
  - intros banner' Hin.
    destruct (banner_reported w _ _ _ banner' Sw Hin) as (h & c & Hout).
    exists h, c. rewrite Hout.
    rewrite (proj2 (proj2 (hints_are_lookups (errorOf (chain w h c))))).
    reflexivity.
Qed.

Lemma failure_classification_witness :
  [ELog (Failed "Repayment failed!");
   ELog (ErrorMessage "VM Exception while processing transaction: revert 15");
   ELog (Hint NoMatchingDebt)]
  = ELog (Failed "Repayment failed!")
    :: ELog (ErrorMessage "VM Exception while processing transaction: revert 15")
    :: hintLines (hintOf (classify repayErrors
                            "VM Exception while processing transaction: revert 15"))
  /\ exitStatus (runProcess (repayMain plainEnv) refusingWorld) = 0.
Proof.
  destruct (failure_classification repayErrors
              "VM Exception while processing transaction: revert 15"
              plainEnv refusingWorld) as (_ & _ & _ & _ & _ & H).
  destruct (H (repayMain plainEnv) "Repayment failed!" repayErrors
              ltac:(right; left; reflexivity)) as [Hrejected _].
  apply (Hrejected
           [ECall (BalanceOf "0xToken" "0xUser");
            ECall (GetUserAccountData "0xPool" "0xUser");
            ELog (Health (HealthValue (16 * 10 ^ 17)));
            ECall (Approve "0xToken" "0xUser" "0xPool" Ethers.MaxUint256);
            ELog (Text "Approved")]
           (Repay "0xPool" "0xUser" "0xToken" Ethers.MaxUint256 (Some 2) "0xUser"));
    vm_compute; reflexivity.
Defined.

(** The three failure runs, in full. *)
Example borrow_failure_run :
  runProcess (borrowMain plainEnv) revertingWorld
  = mkRun
      [ ECall (BalanceOf "0xToken" "0xUser");
        ECall (Borrow "0xPool" "0xUser" "0xToken" (100 * 10 ^ 18) (Some 2) 0
                 "0xUser");
        ELog (Failed "Borrow failed!");
        ELog (ErrorMessage "VM Exception while processing transaction: revert 11");
        ELog (Hint InvalidCollateralReserve) ]
      0.
Proof. vm_compute. reflexivity. Qed.

Example repay_failure_run :
  runProcess (repayMain plainEnv) refusingWorld
  = mkRun
      [ ECall (BalanceOf "0xToken" "0xUser");
        ECall (GetUserAccountData "0xPool" "0xUser");
        ELog (Health (HealthValue (16 * 10 ^ 17)));
        ECall (Approve "0xToken" "0xUser" "0xPool" Ethers.MaxUint256);
        ELog (Text "Approved");
        ECall (Repay "0xPool" "0xUser" "0xToken" Ethers.MaxUint256 (Some 2)
                 "0xUser");
        ELog (Failed "Repayment failed!");
        ELog (ErrorMessage "VM Exception while processing transaction: revert 15");
        ELog (Hint NoMatchingDebt) ]
      0.
Proof. vm_compute. reflexivity. Qed.

Example withdraw_failure_run :
  runProcess (withdrawMain plainEnv) refusingWorld
  = mkRun
      [ ECall (BalanceOf "0xToken" "0xUser");
        ECall (GetReserveData "0xPool" "0xToken");
        ECall (BalanceOf "0xAToken" "0xUser");
        ECall (GetUserAccountData "0xPool" "0xUser");
        ELog (Health (HealthValue (16 * 10 ^ 17)));
        ECall (Withdraw "0xPool" "0xUser" "0xToken" Ethers.MaxUint256 "0xUser");
        ELog (Failed "Withdrawal failed!");
        ELog (ErrorMessage "VM Exception while processing transaction: revert 35");
        ELog (Hint BelowLiquidationThreshold) ]
      0.
Proof. vm_compute. reflexivity. Qed.



(** ** The health factor in the runs of repay and withdraw *)

Lemma noAccountRead_stable :
  stable noAccountRead (fun e => isAccountRead e = false).
Proof.
  intros t e Ht He. unfold noAccountRead in *.
  rewrite existsb_app, Ht. cbn [existsb]. rewrite He. reflexivity.
Qed.

Lemma noAccountRead_split (h : Trace) (e : Event) (rest : Trace) :
  noAccountRead (h ++ e :: rest) -> isAccountRead e = true -> False.
Proof.
  unfold noAccountRead. rewrite existsb_app. cbn [existsb]. intros H He.
  rewrite He, orb_true_r in H. discriminate H.
Qed.

Lemma oneAccountRead_stable :
  stable oneAccountRead (fun e => isAccountRead e = false).
Proof.
  intros t e Ht He h x rest Heq Hx.
  apply snoc_decompose in Heq as [(-> & -> & _)|(rest' & -> & _)].
  - congruence.
  - exact (Ht h x rest' eq_refl Hx).
Qed.

Section HealthReport.

Context (w : World) (infinite : AccountData -> AccountData -> Prop)
  (line : Line).

Lemma healthReport_stable :
  stable (healthReport w infinite line) (fun e => isAccountRead e = false).
Proof.
  intros t e Ht He h pool user after rest Heq Hc.
  apply snoc_decompose in Heq as [(_ & Hx & _)|(rest' & -> & ->)].
  - rewrite <- Hx in He. discriminate He.
  - destruct (Ht h pool user after rest' eq_refl Hc) as (r1 & -> & Hinner).
    exists (r1 ++ [e]). split; [reflexivity|].
    intros h0 pool0 user0 before mid Hh Hb Hinf.
    destruct (Hinner h0 pool0 user0 before mid Hh Hb Hinf) as (r2 & ->).
    exists (r2 ++ [e]). reflexivity.
Qed.

Lemma firstAnswer_stable (before : AccountData) :
  stable (firstAnswer w before) (fun e => isAccountRead e = false).
Proof.
  intros t e Ht He h pool user answer rest Heq Hc.
  apply snoc_decompose in Heq as [(_ & Hx & _)|(rest' & -> & _)].
  - rewrite <- Hx in He. discriminate He.
  - exact (Ht h pool user answer rest' eq_refl Hc).
Qed.

Lemma afterFirstRead_stable (before : AccountData) :
  stable (afterFirstRead w infinite line before)
    (fun e => isAccountRead e = false).
Proof.
  intros t e (Hr & Ho & Hf) He. split; [|split].
  - apply healthReport_stable; assumption.
  - apply oneAccountRead_stable; assumption.
  - apply firstAnswer_stable; assumption.
Qed.

Lemma noAccountRead_report (t : Trace) :
  noAccountRead t -> healthReport w infinite line t.
Proof.
  intros Ht h pool user after rest -> _.
  destruct (noAccountRead_split _ _ _ Ht eq_refl).
Qed.

Lemma afterFirstRead_report (before : AccountData) (t : Trace) :
  afterFirstRead w infinite line before t -> healthReport w infinite line t.
Proof. intros (H & _). exact H. Qed.

(** A read that is not answered with account data. *)
Lemma healthReport_failed_read (t : Trace) (pool user : address) :
  healthReport w infinite line t ->
  (forall answer, chain w t (GetUserAccountData pool user) <> RAccount answer) ->
  healthReport w infinite line (t ++ [ECall (GetUserAccountData pool user)]).
Proof.
  intros Ht Hfail h pool' user' after rest Heq Hc.
  apply snoc_decompose in Heq as [(-> & Hx & _)|(rest' & -> & ->)].
  - injection Hx as -> ->. destruct (Hfail after Hc).
  - destruct (Ht h pool' user' after rest' eq_refl Hc) as (r1 & -> & Hinner).
    eexists. split; [reflexivity|].
    intros h0 pool0 user0 before mid Hh Hb Hinf.
    destruct (Hinner h0 pool0 user0 before mid Hh Hb Hinf) as (r2 & ->).
    eexists. reflexivity.
Qed.

(** A read that is answered, its rendering, and what follows it. *)
Lemma healthReport_extend (t : Trace) (pool user : address)
    (after : AccountData) (tail : Trace) :
  healthReport w infinite line t ->
  chain w t (GetUserAccountData pool user) = RAccount after ->
  Forall (fun e => isAccountRead e = false) tail ->
  (forall h0 pool0 user0 before mid,
     t = h0 ++ ECall (GetUserAccountData pool0 user0) :: mid ->
     chain w h0 (GetUserAccountData pool0 user0) = RAccount before ->
     infinite before after ->
     exists r, tail = ELog line :: r) ->
  healthReport w infinite line
    (t ++ ECall (GetUserAccountData pool user)
       :: ELog (Health (displayHealth (healthFactor after))) :: tail).
Proof.
  intros Ht Hanswer Htail Hline h pool' user' after' rest Heq Hc.
  apply app_eq_app in Heq as [l [[Hh Hr]|[Hh Hr]]].
  - destruct l as [|y l]; cbn [app] in Hr.
    + injection Hr as Hp Hu Hrest. rewrite app_nil_r in Hh.
      subst h pool' user' rest.
      rewrite Hanswer in Hc. injection Hc as <-.
      eexists. split; [reflexivity|]. exact Hline.
    + injection Hr as Hy Hrest. subst y rest.
      destruct (Ht h pool' user' after' l Hh Hc) as (r1 & Hl & Hinner). subst l.
      eexists. split; [reflexivity|].
      intros h0 pool0 user0 before mid Hh0 Hb Hinf.
      destruct (Hinner h0 pool0 user0 before mid Hh0 Hb Hinf) as (r2 & ->).
      eexists. reflexivity.
  - destruct l as [|y l]; cbn [app] in Hr.
    + injection Hr as Hp Hu Hrest. rewrite app_nil_r in Hh.
      subst h pool' user' rest.
      rewrite Hanswer in Hc. injection Hc as <-.
      eexists. split; [reflexivity|]. exact Hline.
    + injection Hr as _ Hr. exfalso.
      assert (Hin : In (ECall (GetUserAccountData pool' user'))
                      (ELog (Health (displayHealth (healthFactor after))) :: tail))
        by (rewrite Hr; apply in_elt).
      destruct Hin as [Hin|Hin]; [discriminate Hin|].
      rewrite List.Forall_forall in Htail. specialize (Htail _ Hin).
      discriminate Htail.
Qed.

(** The first read of the account data and its rendering. *)
Lemma first_account_read {B} (R : Trace -> Prop) (pool user : address)
    (after : AccountData -> Script B) :
  (forall before,
     triple w (afterFirstRead w infinite line before) (after before)
       (healthReport w infinite line) R) ->
  triple w noAccountRead
    (Script.bind (getUserAccountData pool user)
       (fun before =>
          Script.bind
            (Script.log (Health (displayHealth (healthFactor before))))
            (fun _ => after before)))
    (healthReport w infinite line) R.
Proof.
  intros Hafter t Ht. unfold Script.bind at 1.
  unfold getUserAccountData, Script.bind at 1, Script.call.
  destruct (chain w t (GetUserAccountData pool user)) as [| | | | | | |before| |] eqn:E;
    cbn [Script.expectAccount Script.ret Script.throw];
    try (apply healthReport_failed_read;
         [apply noAccountRead_report; exact Ht | intros answer; congruence]).
  rewrite bind_log. apply Hafter. rewrite <- app_assoc. cbn [app].
  split; [|split].
  - apply healthReport_extend;
      [apply noAccountRead_report; exact Ht | exact E | constructor |].
    intros h0 pool0 user0 b mid -> _ _.
    destruct (noAccountRead_split _ _ _ Ht eq_refl).
  - intros h e rest Heq He.
    apply app_eq_app in Heq as [l [[Hh Hr]|[Hh Hr]]].
    + destruct l as [|y l]; cbn [app] in Hr.
      * rewrite app_nil_r in Hh. subst h. exact Ht.
      * injection Hr as Hy _. subst y. rewrite Hh in Ht.
        destruct (noAccountRead_split _ _ _ Ht He).
    + destruct l as [|y l]; cbn [app] in Hr.
      * rewrite app_nil_r in Hh. subst h. exact Ht.
      * injection Hr as _ Hr. destruct l as [|z l]; cbn [app] in Hr.
        -- injection Hr as Hz _. rewrite <- Hz in He. discriminate He.
        -- injection Hr as _ Hr. destruct l; discriminate Hr.
  - intros h pool' user' answer rest Heq Hc.
    apply app_eq_app in Heq as [l [[Hh Hr]|[Hh Hr]]].
    + destruct l as [|y l]; cbn [app] in Hr.
      * injection Hr as Hp Hu _. rewrite app_nil_r in Hh. subst h pool' user'.
        rewrite E in Hc. injection Hc as <-. reflexivity.
      * injection Hr as Hy _. subst y. rewrite Hh in Ht.
        destruct (noAccountRead_split _ _ _ Ht eq_refl).
    + destruct l as [|y l]; cbn [app] in Hr.
      * injection Hr as Hp Hu _. rewrite app_nil_r in Hh. subst h pool' user'.
        rewrite E in Hc. injection Hc as <-. reflexivity.
      * injection Hr as _ Hr. destruct l as [|z l]; cbn [app] in Hr.
        -- discriminate Hr.
        -- injection Hr as _ Hr. destruct l; discriminate Hr.
Qed.

(** The read of the summary, its rendering, and the lines of the summary. *)
Lemma summary_account_read (R : Trace -> Prop) (pool user : address)
    (before : AccountData) (summary : AccountData -> AccountData -> Script unit) :
  (forall after,
     exists lines,
       (forall t, summary before after w t = Value tt (t ++ lines))
       /\ Forall (fun e => isAccountRead e = false) lines
       /\ (infinite before after -> exists r, lines = ELog line :: r)) ->
  triple w (afterFirstRead w infinite line before)
    (Script.bind (getUserAccountData pool user)
       (fun after =>
          Script.bind
            (Script.log (Health (displayHealth (healthFactor after))))
            (fun _ => summary before after)))
    (healthReport w infinite line) R.
Proof.
  intros Hsummary t (Hr & Ho & Hf). unfold Script.bind at 1.
  unfold getUserAccountData, Script.bind at 1, Script.call.
  destruct (chain w t (GetUserAccountData pool user)) as [| | | | | | |after| |] eqn:E;
    cbn [Script.expectAccount Script.ret Script.throw];
    try (apply healthReport_failed_read;
         [exact Hr | intros answer; congruence]).
  rewrite bind_log.
  destruct (Hsummary after) as (lines & Hrun & Hlines & Hinf).
  rewrite Hrun. rewrite <- !app_assoc. cbn [app].
  apply healthReport_extend; [exact Hr | exact E | exact Hlines |].
  intros h0 pool0 user0 b mid Hh Hb Hi.
  rewrite (Hf h0 pool0 user0 b mid Hh Hb) in Hi. exact (Hinf Hi).
Qed.

End HealthReport.

Lemma repayImprovement_lines (w : World) (before after : AccountData) :
  exists lines,
    (forall t, repayImprovement before after w t = Value tt (t ++ lines))
    /\ Forall (fun e => isAccountRead e = false) lines
    /\ (repayInfinite before after -> exists r, lines = ELog repayInfiniteLine :: r).
Proof.
  unfold repayImprovement, repayInfinite.
  destruct (Z.eqb_spec (totalDebtETH after) 0) as [Hz|Hz];
    [|destruct (healthFactor after <? lowHealth);
      [|destruct (healthFactor after >=? healthyHealth)]];
    eexists; (split; [intros t; reflexivity|]);
    (split; [repeat constructor|]); intros H; try contradiction.
  eexists. reflexivity.
Qed.

Lemma withdrawHealthChange_lines (w : World) (before after : AccountData) :
  exists lines,
    (forall t, withdrawHealthChange before after w t = Value tt (t ++ lines))
    /\ Forall (fun e => isAccountRead e = false) lines
    /\ (withdrawInfinite before after ->
        exists r, lines = ELog withdrawInfiniteLine :: r).
Proof.
  unfold withdrawHealthChange, withdrawInfinite.
  destruct (Z.gtb_spec (totalDebtETH before) 0) as [Hb|Hb];
    [destruct (Z.eqb_spec (totalDebtETH after) 0) as [Ha|Ha];
     (destruct ((healthFactor after <? lowHealth) && (healthFactor after >? 0));
      [|destruct ((totalDebtETH after >? 0) && (healthFactor after >=? healthyHealth))])
    |];
    eexists;
    (split;
     [intros t; unfold Script.bind, Script.log, Script.ret;
      rewrite <- ?app_assoc; cbn [app];
      first [ reflexivity
            | symmetry; apply (f_equal (Value tt)), app_nil_r ]|]);
    (split; [repeat constructor|]); intros [H1 H2]; try lia;
    eexists; reflexivity.
Qed.

Ltac read_side :=
  first [ exact noAccountRead_stable
        | exact (afterFirstRead_stable _ _ _ _)
        | exact (healthReport_stable _ _ _)
        | reflexivity ].

(** One step that does not read the account data, under an invariant
    that implies the report. *)
Ltac health_step I :=
  apply (triple_bind_gen _ _ I);
    [ to_safe; safe_walk read_side
    | first [ apply noAccountRead_report | apply afterFirstRead_report ]
    | intros ? ].

Lemma repayMain_health (env : gmap string string) (w : World) :
  triple w noAccountRead (repayMain env)
    (healthReport w repayInfinite repayInfiniteLine)
    (healthReport w repayInfinite repayInfiniteLine).
Proof.
  unfold repayMain.
  destruct (loadConfig env "TOKEN_REPAY_AMOUNT" "0") as [config|msg];
    cbn [Script.lift];
    [apply triple_bind_ret | apply triple_bind_throw, noAccountRead_report].
  cbv zeta.
  apply triple_bind_selectUser; [apply noAccountRead_report|]. intros user1 _.
  health_step noAccountRead. health_step noAccountRead.
  health_step noAccountRead. health_step noAccountRead.
  apply first_account_read. intros before.
  destruct (resolveFullAmount (amount config) (token_decimals config))
    as [repayAmountWei|msg]; cbn [Script.lift];
    [apply triple_bind_ret | apply triple_bind_throw, afterFirstRead_report].
  health_step (afterFirstRead w repayInfinite repayInfiniteLine before).
  health_step (afterFirstRead w repayInfinite repayInfiniteLine before).
  apply (triple_bind_gen _ _ (healthReport w repayInfinite repayInfiniteLine));
    [|auto|intros _; to_safe; safe_walk read_side].
  destruct (hasDataProvider config).
  - apply triple_tryCatch;
      [|intros msg; unfold summaryFailed; safe_walk read_side].
    health_step (afterFirstRead w repayInfinite repayInfiniteLine before).
    health_step (afterFirstRead w repayInfinite repayInfiniteLine before).
    health_step (afterFirstRead w repayInfinite repayInfiniteLine before).
    apply summary_account_read. intros after. apply repayImprovement_lines.
  - apply (triple_weaken w (afterFirstRead w repayInfinite repayInfiniteLine before)
             (afterFirstRead w repayInfinite repayInfiniteLine before)
             (afterFirstRead w repayInfinite repayInfiniteLine before)
             (healthReport w repayInfinite repayInfiniteLine)
             (healthReport w repayInfinite repayInfiniteLine)
             (healthReport w repayInfinite repayInfiniteLine));
      [to_safe; safe_walk read_side
      | intros t H; exact H | apply afterFirstRead_report | intros t H; exact H].
Qed.

Lemma withdrawMain_health (env : gmap string string) (w : World) :
  triple w noAccountRead (withdrawMain env)
    (healthReport w withdrawInfinite withdrawInfiniteLine)
    (healthReport w withdrawInfinite withdrawInfiniteLine).
Proof.
  unfold withdrawMain.
  destruct (loadConfig env "TOKEN_WITHDRAW_AMOUNT" "0") as [config|msg];
    cbn [Script.lift];
    [apply triple_bind_ret | apply triple_bind_throw, noAccountRead_report].
  cbv zeta.
  apply triple_bind_selectUser; [apply noAccountRead_report|]. intros user1 _.
  health_step noAccountRead. health_step noAccountRead.
  health_step noAccountRead. health_step noAccountRead.
  health_step noAccountRead.
  apply first_account_read. intros before.
  destruct (resolveFullAmount (amount config) (token_decimals config))
    as [withdrawAmountWei|msg]; cbn [Script.lift];
    [apply triple_bind_ret | apply triple_bind_throw, afterFirstRead_report].
  health_step (afterFirstRead w withdrawInfinite withdrawInfiniteLine before).
  health_step (afterFirstRead w withdrawInfinite withdrawInfiniteLine before).
  apply (triple_bind_gen _ _ (healthReport w withdrawInfinite withdrawInfiniteLine));
    [|auto|intros _; to_safe; safe_walk read_side].
  destruct (hasDataProvider config).
  - apply triple_tryCatch;
      [|intros msg; unfold summaryFailed; safe_walk read_side].
    health_step (afterFirstRead w withdrawInfinite withdrawInfiniteLine before).
    health_step (afterFirstRead w withdrawInfinite withdrawInfiniteLine before).
    health_step (afterFirstRead w withdrawInfinite withdrawInfiniteLine before).
    apply summary_account_read. intros after. apply withdrawHealthChange_lines.
  - apply (triple_weaken w (afterFirstRead w withdrawInfinite withdrawInfiniteLine before)
             (afterFirstRead w withdrawInfinite withdrawInfiniteLine before)
             (afterFirstRead w withdrawInfinite withdrawInfiniteLine before)
             (healthReport w withdrawInfinite withdrawInfiniteLine)
             (healthReport w withdrawInfinite withdrawInfiniteLine)
             (healthReport w withdrawInfinite withdrawInfiniteLine));
      [to_safe; safe_walk read_side
      | intros t H; exact H | apply afterFirstRead_report | intros t H; exact H].
Qed.

Lemma runProcess_health (w : World)
    (infinite : AccountData -> AccountData -> Prop) (line : Line)
    (main : Script unit) :
  triple w noAccountRead main (healthReport w infinite line)
    (healthReport w infinite line) ->
  healthReport w infinite line (output (runProcess main w)).
Proof.
  intros H. unfold runProcess. specialize (H [] eq_refl).
  destruct (main w []) as [a t|msg t|t]; cbn [output].
  - exact H.
  - apply healthReport_stable; [exact H | reflexivity].
  - destruct H; assumption.
Qed.

(** C4, amended.  In the repay and withdraw scripts a health factor
    strictly above the threshold [parseUnits('1000000', 18)] is rendered as
    infinite (no debt) and one strictly below it as a number, whatever the
    total debt: in every run, each answer of the pool to a read of the
    account data is followed by the line that renders its raw health
    factor in this way.  The repay summary reports the infinite state
    whenever the total debt after the operation is 0, whatever the raw
    health factor; the withdraw summary does so when there was debt before
    the operation and none after it. *)
Theorem health_display (hf : Z) (env : gmap string string) (w : World) :
  infiniteThreshold = 1000000 * 10 ^ 18
  /\ (hf > infiniteThreshold -> displayHealth hf = HealthInfinite)
  /\ (hf < infiniteThreshold -> displayHealth hf = HealthValue hf)
  /\ healthReport w
       (fun before after => totalDebtETH after = 0)
       (Text "All debt repaid! Health Factor: oo (Infinite)")
       (output (runProcess (repayMain env) w))
  /\ healthReport w
       (fun before after => totalDebtETH before > 0 /\ totalDebtETH after = 0)
       (Text "Debt fully repaid - Health Factor: oo")
       (output (runProcess (withdrawMain env) w)).
Proof.
  split; [reflexivity|]. unfold displayHealth.
  split; [intros H; destruct (Z.gtb_spec hf infiniteThreshold); [reflexivity | lia]|].
  split; [intros H; destruct (Z.gtb_spec hf infiniteThreshold); [lia | reflexivity]|].
  split.
  - exact (runProcess_health w repayInfinite repayInfiniteLine _
             (repayMain_health env w)).
  - exact (runProcess_health w withdrawInfinite withdrawInfiniteLine _
             (withdrawMain_health env w)).
Qed.

Lemma health_display_witness :
  displayHealth Ethers.MaxUint256 = HealthInfinite
  /\ displayHealth (2 * 10 ^ 18) = HealthValue (2 * 10 ^ 18)
  /\ exists rest,
       [ELog (Text "All debt repaid! Health Factor: oo (Infinite)");
        ELog (Text "Repayment operation completed!")]
       = ELog (Text "All debt repaid! Health Factor: oo (Infinite)") :: rest.
Proof.
  destruct (health_display Ethers.MaxUint256 providerEnv settlingWorld)
    as (_ & Habove & _ & Hrepay & _).
  destruct (health_display (2 * 10 ^ 18) providerEnv settlingWorld)
    as (_ & _ & Hbelow & _).
  split; [apply Habove; reflexivity|].
  split; [apply Hbelow; reflexivity|].
  destruct (Hrepay
              [ ECall (BalanceOf "0xToken" "0xUser");
                ECall (GetUserReserveData "0xProvider" "0xToken" "0xUser");
                ECall (GetUserAccountData "0xPool" "0xUser");
                ELog (Health (HealthValue (16 * 10 ^ 17)));
                ECall (Approve "0xToken" "0xUser" "0xPool" Ethers.MaxUint256);
                ELog (Text "Approved");
                ECall (Repay "0xPool" "0xUser" "0xToken" Ethers.MaxUint256
                         (Some 2) "0xUser");
                ELog (Text "Repayment successful!");
                ECall (BalanceOf "0xToken" "0xUser");
                ECall (EvmIncreaseTime (Some 86400));
                ECall EvmMine;
                ECall (GetUserReserveData "0xProvider" "0xToken" "0xUser");
                ECall (BalanceOf "0xToken" "0xUser") ]
              "0xPool" "0xUser"
              (mkAccountData (10 ^ 18) 0 (8 * 10 ^ 17) 8000 7500 (5 * 10 ^ 18))
              [ ELog (Health (HealthValue (5 * 10 ^ 18)));
                ELog (Text "All debt repaid! Health Factor: oo (Infinite)");
                ELog (Text "Repayment operation completed!") ])
    as (rest' & Hrest & Hinner); [vm_compute; reflexivity..|].
  apply (f_equal (@tl Event)) in Hrest. cbn [tl] in Hrest. subst rest'.
  apply (Hinner
           [ ECall (BalanceOf "0xToken" "0xUser");
             ECall (GetUserReserveData "0xProvider" "0xToken" "0xUser") ]
           "0xPool" "0xUser"
           (mkAccountData (10 ^ 18) (5 * 10 ^ 17) 0 8000 7500 (16 * 10 ^ 17))
           [ ELog (Health (HealthValue (16 * 10 ^ 17)));
             ECall (Approve "0xToken" "0xUser" "0xPool" Ethers.MaxUint256);
             ELog (Text "Approved");
             ECall (Repay "0xPool" "0xUser" "0xToken" Ethers.MaxUint256
                      (Some 2) "0xUser");
             ELog (Text "Repayment successful!");
             ECall (BalanceOf "0xToken" "0xUser");
             ECall (EvmIncreaseTime (Some 86400));
             ECall EvmMine;
             ECall (GetUserReserveData "0xProvider" "0xToken" "0xUser");
             ECall (BalanceOf "0xToken" "0xUser") ]);
    reflexivity.
Defined.

(** The two summaries, in full: the rendering of the raw health factor
    5.0 of a snapshot without debt is a number, and the summary reports
    the infinite state. *)
Example repay_summary_run :
  runProcess (repayMain providerEnv) settlingWorld
  = mkRun
      [ ECall (BalanceOf "0xToken" "0xUser");
        ECall (GetUserReserveData "0xProvider" "0xToken" "0xUser");
        ECall (GetUserAccountData "0xPool" "0xUser");
        ELog (Health (HealthValue (16 * 10 ^ 17)));
        ECall (Approve "0xToken" "0xUser" "0xPool" Ethers.MaxUint256);
        ELog (Text "Approved");
        ECall (Repay "0xPool" "0xUser" "0xToken" Ethers.MaxUint256 (Some 2)
                 "0xUser");
        ELog (Text "Repayment successful!");
        ECall (BalanceOf "0xToken" "0xUser");
        ECall (EvmIncreaseTime (Some 86400));
        ECall EvmMine;
        ECall (GetUserReserveData "0xProvider" "0xToken" "0xUser");
        ECall (BalanceOf "0xToken" "0xUser");
        ECall (GetUserAccountData "0xPool" "0xUser");
        ELog (Health (HealthValue (5 * 10 ^ 18)));
        ELog (Text "All debt repaid! Health Factor: oo (Infinite)");
        ELog (Text "Repayment operation completed!") ]
      0.
Proof. vm_compute. reflexivity. Qed.

Example withdraw_summary_run :
  runProcess (withdrawMain providerEnv) settlingWorld
  = mkRun
      [ ECall (BalanceOf "0xToken" "0xUser");
        ECall (GetReserveData "0xPool" "0xToken");
        ECall (BalanceOf "0xAToken" "0xUser");
        ECall (GetUserReserveData "0xProvider" "0xToken" "0xUser");
        ELog (Text "WARNING: You have outstanding debt!");
        ECall (GetUserAccountData "0xPool" "0xUser");
        ELog (Health (HealthValue (16 * 10 ^ 17)));
        ECall (Withdraw "0xPool" "0xUser" "0xToken" Ethers.MaxUint256 "0xUser");
        ELog (Text "Withdrawal successful!");
        ECall (BalanceOf "0xToken" "0xUser");
        ECall (EvmIncreaseTime (Some 86400));
        ECall EvmMine;
        ECall (GetUserReserveData "0xProvider" "0xToken" "0xUser");
        ECall (BalanceOf "0xToken" "0xUser");
        ECall (GetUserAccountData "0xPool" "0xUser");
        ELog (Health (HealthValue (5 * 10 ^ 18)));
        ELog (Text "Debt fully repaid - Health Factor: oo");
        ELog (Text "Withdrawal operation completed!") ]
      0.
Proof. vm_compute. reflexivity. Qed.

(** ** The diagnostics only read *)

Lemma checkReserves_readOnly (w : World) (pool user : address)
    (reserves : list ReserveToken) :
  forall i hasAny,
    safe w readOnly readOnly (checkReserves pool user i reserves hasAny).
Proof.
  induction reserves as [|reserve rest IH]; intros i hasAny; cbn [checkReserves].
  - apply safe_ret.
  - apply safe_bind; [|intros hasAny'; apply IH].
    unfold checkReserve.
    safe_walk ltac:(first [exact readOnly_stable | reflexivity]).
Qed.

(** X9.  The diagnostics [check-pool-config] and [check-balance] never
    submit a transaction and never move the clock of the node, in any
    run. *)
Theorem diagnostics_read_only (env : gmap string string) (w : World) :
  readOnly (output (runProcess (checkPoolConfigMain env) w))
  /\ readOnly (output (runProcess (checkBalanceMain env) w)).
Proof.
  split; apply runProcess_readOnly.
  - unfold checkPoolConfigMain.
    safe_walk ltac:(first [exact readOnly_stable | reflexivity]).
  - unfold checkBalanceMain. cbv zeta.
    destruct (negb (JS.truthy _));
      [safe_walk ltac:(first [exact readOnly_stable | reflexivity])|].
    apply safe_bind; [apply safe_getSigners|]. intros accounts.
    apply safe_bind;
      [safe_walk ltac:(first [exact readOnly_stable | reflexivity])|].
    intros user.
    apply safe_bind; [apply safe_getContractAt|]. intros _.
    apply safe_bind;
      [safe_walk ltac:(first [exact readOnly_stable | reflexivity])|].
    intros [|reserve rest];
      [safe_walk ltac:(first [exact readOnly_stable | reflexivity])|].
    apply safe_bind; [apply checkReserves_readOnly|]. intros hasAny.
    safe_walk ltac:(first [exact readOnly_stable | reflexivity]).
Qed.

(** ** The exit status of the diagnostics *)

Section Ends.

Context (w : Node) (canThrow canReturn : bool).

Lemma ends_ret {A} (a : A) : ends canThrow canReturn w (Script.ret a).
Proof. intros t. exact Logic.I. Qed.

Lemma ends_log (l : Line) : ends canThrow canReturn w (Script.log l).
Proof. intros t. exact Logic.I. Qed.

Lemma ends_call (c : Call) : ends canThrow canReturn w (Script.call c).
Proof. intros t. unfold Script.call. destruct w; exact Logic.I. Qed.

Lemma ends_getSigners : ends true canReturn w Script.getSigners.
Proof.
  intros t. unfold Script.getSigners.
  destruct w as [w0|w0 rejects]; [exact Logic.I|].
  destruct (rejects t Signers); [reflexivity | exact Logic.I].
Qed.

Lemma ends_getContractAt (artifact : string) (target : address) :
  ends true canReturn w (Script.getContractAt artifact target).
Proof.
  intros t. unfold Script.getContractAt.
  destruct w as [w0|w0 rejects]; [exact Logic.I|].
  destruct (rejects t (ContractAt artifact target)); [reflexivity | exact Logic.I].
Qed.

Lemma ends_throw {A} (msg : string) : ends true canReturn w (@Script.throw A msg).
Proof. intros t. reflexivity. Qed.

Lemma ends_returnNow {A} : ends canThrow true w (@Script.returnNow A).
Proof. intros t. reflexivity. Qed.

Lemma ends_lift {A} (r : Res A) : ends true canReturn w (Script.lift r).
Proof. destruct r; intros t; simpl; auto. Qed.

Lemma ends_bind {A B} (m : Script A) (f : A -> Script B) :
  ends canThrow canReturn w m -> (forall a, ends canThrow canReturn w (f a)) ->
  ends canThrow canReturn w (Script.bind m f).
Proof.
  intros Hm Hf t. unfold Script.bind. specialize (Hm t).
  destruct (m w t) as [a t'|msg t'|t']; [apply Hf | exact Hm | exact Hm].
Qed.

(** Whatever the body throws is caught. *)
Lemma ends_tryCatch {A} (body : Script A) (handler : string -> Script A) :
  ends true canReturn w body ->
  (forall msg, ends canThrow canReturn w (handler msg)) ->
  ends canThrow canReturn w (Script.tryCatch body handler).
Proof.
  intros Hb Hh t. unfold Script.tryCatch. specialize (Hb t).
  destruct (body w t) as [a t'|msg t'|t']; [exact Logic.I | apply Hh | exact Hb].
Qed.

Lemma ends_expectDone r : ends true canReturn w (Script.expectDone r).
Proof. destruct r; intros t; simpl; auto. Qed.
Lemma ends_expectInt r : ends true canReturn w (Script.expectInt r).
Proof. destruct r; intros t; simpl; auto. Qed.
Lemma ends_expectBool r : ends true canReturn w (Script.expectBool r).
Proof. destruct r; intros t; simpl; auto. Qed.
Lemma ends_expectString r : ends true canReturn w (Script.expectString r).
Proof. destruct r; intros t; simpl; auto. Qed.
Lemma ends_expectAddresses r : ends true canReturn w (Script.expectAddresses r).
Proof. destruct r; intros t; simpl; auto. Qed.
Lemma ends_expectTokens r : ends true canReturn w (Script.expectTokens r).
Proof. destruct r; intros t; simpl; auto. Qed.
Lemma ends_expectReserve r : ends true canReturn w (Script.expectReserve r).
Proof. destruct r; intros t; simpl; auto. Qed.
Lemma ends_expectAccount r : ends true canReturn w (Script.expectAccount r).
Proof. destruct r; intros t; simpl; auto. Qed.
Lemma ends_expectUserReserve r : ends true canReturn w (Script.expectUserReserve r).
Proof. destruct r; intros t; simpl; auto. Qed.

End Ends.

Create HintDb ends_rules.
#[local] Hint Resolve ends_ret ends_log ends_call ends_getSigners
  ends_getContractAt ends_throw
  ends_returnNow ends_lift ends_expectDone ends_expectInt ends_expectBool
  ends_expectString ends_expectAddresses ends_expectTokens ends_expectReserve
  ends_expectAccount ends_expectUserReserve : ends_rules.

Ltac ends_step :=
  lazymatch goal with
  | |- ends _ _ _ (Script.bind _ _) => apply ends_bind; [|intros ?]
  | |- ends _ _ _ (Script.tryCatch _ _) => apply ends_tryCatch; [|intros ?]
  | |- ends _ _ _ (if ?b then _ else _) => destruct b
  | |- ends _ _ _ (match ?x with _ => _ end) => destruct x
  | |- ends _ _ _ ?m =>
      first [ solve [auto with ends_rules]
            | let h := get_head m in unfold h; cbv beta zeta ]
  end.

Ltac ends_walk := repeat ends_step.

Lemma ends_weaken {A} (n : Node) (canThrow canReturn : bool) (m : Script A) :
  ends false false n m -> ends canThrow canReturn n m.
Proof.
  intros H t. specialize (H t). destruct (m n t); [exact Logic.I | discriminate H..].
Qed.

Lemma checkReserves_ends (n : Node) (pool user : address)
    (reserves : list ReserveToken) :
  forall i hasAny,
    ends false false n (checkReserves pool user i reserves hasAny).
Proof.
  induction reserves as [|reserve rest IH]; intros i hasAny; cbn [checkReserves].
  - apply ends_ret.
  - apply ends_bind; [|intros hasAny'; apply IH].
    unfold checkReserve. ends_walk.
Qed.

(** The exit status of a script that begins with an await of the
    environment and cannot throw after it. *)
Lemma exit_after_getContractAt (n : Node) (artifact : string)
    (target : address) (rest : Script unit) :
  ends false true n rest ->
  exitStatus (runProcess (Script.bind (Script.getContractAt artifact target)
                            (fun _ => rest)) n)
  = match rejection n [] (ContractAt artifact target) with
    | Some _ => 1
    | None => 0
    end.
Proof.
  intros Hrest. specialize (Hrest []).
  unfold runProcess, Script.bind, Script.getContractAt, rejection.
  destruct n as [w|w rejects].
  - destruct (rest (Working w) []); [reflexivity | discriminate Hrest | reflexivity].
  - destruct (rejects [] (ContractAt artifact target)); [reflexivity|].
    destruct (rest (Faulty w rejects) []);
      [reflexivity | discriminate Hrest | reflexivity].
Qed.

(** X10.  [check-pool-config] exits with status 1 in exactly one
    situation: both variables are resolved and building the pool contract
    ([ethers.getContractAt], awaited outside every [try]) rejects.  A
    missing variable, a failed read of the pause flag or of the reserve,
    and a configuration word that cannot be decoded are all reported and
    absorbed: the status is 0. *)
Theorem checkPoolConfig_exit (env : gmap string string) (n : Node) :
  exitStatus (runProcess (checkPoolConfigMain env) n)
  = if JS.truthy (resolveAddress env (isLocalNetwork env) "LENDING_POOL_ADDRESS")
       && JS.truthy (resolveAddress env (isLocalNetwork env) "TOKEN_ADDRESS")
    then
      match rejection n []
              (ContractAt "ILendingPool"
                 (assertPresent
                    (resolveAddress env (isLocalNetwork env) "LENDING_POOL_ADDRESS")))
      with
      | Some _ => 1
      | None => 0
      end
    else 0.
Proof.
  unfold checkPoolConfigMain. cbv zeta.
  destruct (JS.truthy (resolveAddress env (isLocalNetwork env)
                         "LENDING_POOL_ADDRESS"));
    [destruct (JS.truthy (resolveAddress env (isLocalNetwork env)
                            "TOKEN_ADDRESS"))|];
    cbn [negb orb andb]; try reflexivity.
  apply exit_after_getContractAt. ends_walk.
Qed.

(** The node that cannot be reached: every await of the environment
    rejects. *)
Example checkPoolConfig_node_down :
  runProcess (checkPoolConfigMain plainEnv)
    (Faulty oneReserveWorld (fun _ _ => Some "connect ECONNREFUSED 127.0.0.1:8545"))
  = mkRun [ELog (UncaughtError "connect ECONNREFUSED 127.0.0.1:8545")] 1.
Proof. vm_compute. reflexivity. Qed.

(** X11.  The exit status of [check-balance].  Without a lending pool
    address it is 0.  Otherwise it is 1 exactly when [ethers.getSigners]
    rejects, or the network is local and there is no account at all, or
    an account was selected and building the pool contract rejects (these
    awaits are outside every [try]).  Every failure after that (the lists
    of reserves, the data-provider contract, the metadata and the balances
    of a reserve) is absorbed, and the status is 0. *)
Theorem checkBalance_exit (env : gmap string string) (n : Node) :
  exitStatus (runProcess (checkBalanceMain env) n)
  = if JS.truthy (resolveAddress env (isLocalNetwork env) "LENDING_POOL_ADDRESS")
    then
      match rejection n [] Signers with
      | Some _ => 1
      | None =>
          match signers (worldOf n) with
          | [] => if isLocalNetwork env then 1 else 0
          | _ :: _ =>
              match rejection n []
                      (ContractAt "ILendingPool"
                         (assertPresent
                            (resolveAddress env (isLocalNetwork env)
                               "LENDING_POOL_ADDRESS")))
              with
              | Some _ => 1
              | None => 0
              end
          end
      end
    else 0.
Proof.
  assert (Hrest : forall pool provider user,
            ends false true n
              (Script.bind (listReserves pool provider)
                 (fun reserves =>
                    match reserves with
                    | [] => Script.bind
                              (Script.log (Text "No reserves found in this pool!"))
                              (fun _ => Script.returnNow)
                    | _ :: _ =>
                        Script.bind (checkReserves pool user 0 reserves false)
                          (fun hasAnyBalance =>
                             if negb hasAnyBalance
                             then Script.log (Text "No token balances found for this address")
                             else Script.log (Text "Balance check complete!"))
                    end))).
  { intros pool provider user. apply ends_bind.
    - unfold listReserves. ends_walk.
    - intros [|reserve rest]; [ends_walk|].
      apply ends_bind; [apply ends_weaken, checkReserves_ends|].
      intros hasAny. ends_walk. }
  assert (Hpicked : forall user,
            exitStatus
              (runProcess
                 (Script.bind (Script.ret user)
                    (fun user =>
                       Script.bind
                         (Script.getContractAt "ILendingPool"
                            (assertPresent
                               (resolveAddress env (isLocalNetwork env)
                                  "LENDING_POOL_ADDRESS")))
                         (fun _ =>
                            Script.bind
                              (listReserves
                                 (assertPresent
                                    (resolveAddress env (isLocalNetwork env)
                                       "LENDING_POOL_ADDRESS"))
                                 (resolveAddress env (isLocalNetwork env)
                                    "DATA_PROVIDER_ADDRESS"))
                              (fun reserves =>
                                 match reserves with
                                 | [] => Script.bind
                                           (Script.log (Text "No reserves found in this pool!"))
                                           (fun _ => Script.returnNow)
                                 | _ :: _ =>
                                     Script.bind (checkReserves
                                                    (assertPresent
                                                       (resolveAddress env (isLocalNetwork env)
                                                          "LENDING_POOL_ADDRESS"))
                                                    user 0 reserves false)
                                       (fun hasAnyBalance =>
                                          if negb hasAnyBalance
                                          then Script.log (Text "No token balances found for this address")
                                          else Script.log (Text "Balance check complete!"))
                                 end)))) n)
            = match rejection n []
                      (ContractAt "ILendingPool"
                         (assertPresent
                            (resolveAddress env (isLocalNetwork env)
                               "LENDING_POOL_ADDRESS")))
              with
              | Some _ => 1
              | None => 0
              end).
  { intros user. apply (exit_after_getContractAt n). apply Hrest. }
  unfold checkBalanceMain. cbv zeta.
  destruct (JS.truthy (resolveAddress env (isLocalNetwork env)
                         "LENDING_POOL_ADDRESS")); cbn [negb];
    [|reflexivity].
  assert (Hsigners : forall (f : list address -> Script unit),
            runProcess (Script.bind Script.getSigners f) n
            = match rejection n [] Signers with
              | Some msg => mkRun [ELog (UncaughtError msg)] 1
              | None => runProcess (Script.bind (Script.ret (signers (worldOf n))) f) n
              end).
  { intros f. unfold runProcess, Script.bind, Script.getSigners, Script.ret,
      rejection, worldOf.
    destruct n as [w|w rejects]; [reflexivity|].
    destruct (rejects [] Signers); reflexivity. }
  rewrite Hsigners.
  destruct (rejection n [] Signers) as [msg|]; [reflexivity|].
  destruct (isLocalNetwork env); cbn [pickCheckedUser].
  - destruct (signers (worldOf n)) as [|first [|second others]].
    + reflexivity.
    + apply (Hpicked first).
    + apply (Hpicked second).
  - destruct (signers (worldOf n)) as [|first others].
    + reflexivity.
    + apply (Hpicked first).
Qed.

(** Accounts but no pool artifact: the run stops before it reads
    anything. *)
Example checkBalance_artifact_missing :
  runProcess (checkBalanceMain plainEnv)
    (Faulty oneReserveWorld
       (fun _ a =>
          match a with
          | ContractAt _ _ => Some "HH700: Artifact for contract ILendingPool not found."
          | Signers => None
          end))
  = mkRun [ELog (UncaughtError "HH700: Artifact for contract ILendingPool not found.")] 1.
Proof. vm_compute. reflexivity. Qed.

(** ** The verdict of [check-pool-config] *)

Lemma onlyIf_stable (line : Event) (reason : Prop) :
  stable (onlyIf line reason) (fun e => e <> line).
Proof.
  intros t e Ht He Hin. apply in_app_or in Hin.
  destruct Hin as [Hin|[Hin|[]]]; [exact (Ht Hin) | contradiction].
Qed.

Lemma onlyIf_holds {A} (w : World) (line : Event) (reason : Prop)
    (R : Trace -> Prop) (m : Script A) :
  reason -> safe w (onlyIf line reason) R m.
Proof.
  intros H t _. destruct (m w t); [|  |left]; intros _; exact H.
Qed.

Lemma onlyIf_output (w : World) (line : Event) (reason : Prop)
    (main : Script unit) :
  (forall msg, ELog (UncaughtError msg) <> line) ->
  safe w (onlyIf line reason) (onlyIf line reason) main ->
  In line (output (runProcess main w)) -> reason.
Proof.
  intros Hline Hsafe.
  destruct (runProcess_safe w (onlyIf line reason) (onlyIf line reason)
              (fun e => e <> line) main Hsafe (onlyIf_stable line reason)
              Hline (fun H => match H with end)) as [H|[H _]]; exact H.
Qed.

Lemma flagAt_negative (word bit : Z) :
  word < 0 -> exists msg, flagAt word bit = Err msg.
Proof.
  intros Hneg. unfold flagAt, Ethers.shr.
  destruct (Z.ltb_spec word 0) as [_|Hge]; [|lia].
  cbn [orb Res_bind]. eexists. reflexivity.
Qed.

Lemma Ok_injective {A} (a b : A) : Ok a = Ok b -> a = b.
Proof. intros H. injection H. auto. Qed.

Lemma decodeStatus_inversion (word : Z) (status : ReserveStatus) :
  decodeStatus word = Ok status ->
  0 <= word
  /\ isActive status = Z.testbit word 56
  /\ isFrozen status = Z.testbit word 57.
Proof.
  intros H. destruct (Z.ltb_spec word 0) as [Hneg|Hpos].
  - destruct (flagAt_negative word 56 Hneg) as [msg Hmsg].
    unfold decodeStatus in H. rewrite Hmsg in H. cbn [Res_bind] in H.
    discriminate H.
  - destruct (decodeStatus_testbit word Hpos) as (Hd & Ha & Hf).
    rewrite Hd in H. apply Ok_injective in H. subst status. cbn [isActive isFrozen]. auto.
Qed.

Lemma getReserveData_answer (w : World) (pool asset : address) (t : Trace) :
  match getReserveData pool asset w t with
  | Value reserveData _ =>
      exists h, chain w h (GetReserveData pool asset) = RReserve reserveData
  | _ => True
  end.
Proof.
  unfold getReserveData, Script.bind, Script.call.
  destruct (chain w t (GetReserveData pool asset)) eqn:E; simpl; eauto.
Qed.

Lemma readPaused_answer (w : World) (pool : address) (onFailure : Line)
    (t : Trace) :
  match readPaused pool onFailure w t with
  | Value isPoolPaused _ =>
      isPoolPaused = true -> exists h, chain w h (Paused pool) = RBool true
  | _ => True
  end.
Proof.
  unfold readPaused, Script.tryCatch, Script.bind, Script.call.
  destruct (chain w t (Paused pool)) as [| |[|]| | | | | | |] eqn:E; simpl;
    try discriminate; eauto.
Qed.

(** X12.  [check-pool-config] prints that the reserve is configured
    correctly only if the pool answered, for the resolved token, with a
    reserve whose yield-token address is not the zero address and whose
    configuration word has bit 56 set and bit 57 clear. *)
Theorem configured_verdict_sound (env : gmap string string) (w : World) :
  In (ELog (Text "Reserve is configured correctly"))
     (output (runProcess (checkPoolConfigMain env) w)) ->
  exists h reserveData,
    chain w h
      (GetReserveData
         (assertPresent (resolveAddress env (isLocalNetwork env) "LENDING_POOL_ADDRESS"))
         (assertPresent (resolveAddress env (isLocalNetwork env) "TOKEN_ADDRESS")))
    = RReserve reserveData
    /\ aTokenAddress reserveData <> Ethers.AddressZero
    /\ 0 <= configuration_data reserveData
    /\ Z.testbit (configuration_data reserveData) 56 = true
    /\ Z.testbit (configuration_data reserveData) 57 = false.
Proof.
  apply onlyIf_output; [intros msg; discriminate|].
  match goal with |- safe _ (onlyIf ?l ?r) _ _ => set (line := l); set (reason := r) end.
  unfold checkPoolConfigMain. cbv zeta.
  destruct (negb (JS.truthy _) || negb (JS.truthy _));
    [safe_walk ltac:(first [exact (onlyIf_stable line reason) | discriminate])|].
  apply safe_bind; [apply safe_getContractAt|]. intros _.
  apply safe_bind;
    [safe_walk ltac:(first [exact (onlyIf_stable line reason) | discriminate])|].
  intros isPoolPaused.
  apply safe_tryCatch;
    [|intros msg;
      safe_walk ltac:(first [exact (onlyIf_stable line reason) | discriminate])].
  apply (safe_bind_value _ _ _
           (fun reserveData =>
              exists h,
                chain w h
                  (GetReserveData
                     (assertPresent
                        (resolveAddress env (isLocalNetwork env) "LENDING_POOL_ADDRESS"))
                     (assertPresent
                        (resolveAddress env (isLocalNetwork env) "TOKEN_ADDRESS")))
                = RReserve reserveData));
    [apply getReserveData_answer
    | safe_walk ltac:(first [exact (onlyIf_stable line reason) | discriminate])|].
  intros reserveData [h Hh].
  destruct (decodeStatus (configuration_data reserveData)) as [status|msg] eqn:Hd;
    cbn [Script.lift];
    [apply safe_bind_ret
    | apply safe_bind_stop; [apply safe_throw | intros; exact Logic.I]].
  destruct (decodeStatus_inversion _ _ Hd) as (Hpos & Ha & Hf).
  apply safe_bind;
    [safe_walk ltac:(first [exact (onlyIf_stable line reason) | discriminate])|].
  intros _. unfold reserveVerdict.
  destruct (String.eqb_spec (aTokenAddress reserveData) Ethers.AddressZero)
    as [_|HaToken];
    [safe_walk ltac:(first [exact (onlyIf_stable line reason) | discriminate])|].
  destruct (isActive status) eqn:Hactive; cbn [negb];
    [|safe_walk ltac:(first [exact (onlyIf_stable line reason) | discriminate])].
  destruct (isFrozen status) eqn:Hfrozen;
    [safe_walk ltac:(first [exact (onlyIf_stable line reason) | discriminate])|].
  apply onlyIf_holds. exists h, reserveData. auto.
Qed.

Lemma configured_verdict_sound_witness :
  exists h reserveData,
    chain pausedPoolWorld h (GetReserveData "0xPool" "0xToken") = RReserve reserveData
    /\ aTokenAddress reserveData <> Ethers.AddressZero
    /\ 0 <= configuration_data reserveData
    /\ Z.testbit (configuration_data reserveData) 56 = true
    /\ Z.testbit (configuration_data reserveData) 57 = false.
Proof.
  apply (configured_verdict_sound plainEnv pausedPoolWorld).
  vm_compute. auto 10.
Defined.

(** X13.  [check-pool-config] prints that the pool is paused only if
    [paused()] answered [true].  When the pause flag cannot be read it is
    taken as not paused. *)
Theorem paused_remark_sound (env : gmap string string) (w : World) :
  (In (ELog (Text "BUT the pool is PAUSED - all deposits will fail with error 64!"))
      (output (runProcess (checkPoolConfigMain env) w))
   \/ In (ELog (Text "WARNING: The entire pool is PAUSED!"))
         (output (runProcess (checkPoolConfigMain env) w))) ->
  exists h,
    chain w h
      (Paused (assertPresent
                 (resolveAddress env (isLocalNetwork env) "LENDING_POOL_ADDRESS")))
    = RBool true.
Proof.
  set (reason := exists h, chain w h (Paused _) = RBool true).
  assert (Hwarn : safe w
            (onlyIf (ELog (Text "WARNING: The entire pool is PAUSED!")) reason)
            (onlyIf (ELog (Text "WARNING: The entire pool is PAUSED!")) reason)
            (checkPoolConfigMain env)).
  { match goal with |- safe _ (onlyIf ?l _) _ _ => set (line := l) end.
    unfold checkPoolConfigMain. cbv zeta.
    destruct (negb (JS.truthy _) || negb (JS.truthy _));
      [safe_walk ltac:(first [exact (onlyIf_stable line reason) | discriminate])|].
    apply safe_bind; [apply safe_getContractAt|]. intros _.
    apply safe_bind;
      [|intros isPoolPaused;
        safe_walk ltac:(first [exact (onlyIf_stable line reason) | discriminate])].
    unfold readPaused. apply safe_tryCatch;
      [|intros msg;
        safe_walk ltac:(first [exact (onlyIf_stable line reason) | discriminate])].
    intros t Ht. unfold Script.bind, Script.call.
    assert (Hcall : onlyIf line reason (t ++ [ECall (Paused (assertPresent
                       (resolveAddress env (isLocalNetwork env) "LENDING_POOL_ADDRESS")))])).
    { apply (onlyIf_stable line reason); [exact Ht | discriminate]. }
    destruct (chain w t (Paused _)) as [| |[|]| | | | | | |] eqn:E; simpl;
      try exact Hcall.
    intros _. exists t. exact E. }
  assert (Hbut : safe w
            (onlyIf (ELog (Text "BUT the pool is PAUSED - all deposits will fail with error 64!")) reason)
            (onlyIf (ELog (Text "BUT the pool is PAUSED - all deposits will fail with error 64!")) reason)
            (checkPoolConfigMain env)).
  { match goal with |- safe _ (onlyIf ?l _) _ _ => set (line := l) end.
    unfold checkPoolConfigMain. cbv zeta.
    destruct (negb (JS.truthy _) || negb (JS.truthy _));
      [safe_walk ltac:(first [exact (onlyIf_stable line reason) | discriminate])|].
    apply safe_bind; [apply safe_getContractAt|]. intros _.
    apply (safe_bind_value _ _ _
             (fun isPoolPaused => isPoolPaused = true -> reason));
      [intros t; apply readPaused_answer
      | safe_walk ltac:(first [exact (onlyIf_stable line reason) | discriminate])|].
    intros [|] Hpaused;
      [apply onlyIf_holds, Hpaused; reflexivity|].
    safe_walk ltac:(first [exact (onlyIf_stable line reason) | discriminate]). }
  intros [H|H]; revert H; apply onlyIf_output;
    solve [intros msg; discriminate | assumption].
Qed.

Lemma paused_remark_sound_witness :
  exists h, chain pausedPoolWorld h (Paused "0xPool") = RBool true.
Proof.
  apply (paused_remark_sound plainEnv pausedPoolWorld).
  left. vm_compute. auto 10.
Defined.

(** The other half: a pause flag that cannot be read does not stop the
    verdict. *)
Example unreadable_pause_flag :
  output (runProcess (checkPoolConfigMain plainEnv)
            {| signers := [];
               chain := fun _ c =>
                 match c with
                 | GetReserveData _ _ => RReserve (mkReserveData (2 ^ 56) "0xAToken")
                 | _ => RFail "call revert exception"
                 end |})
  = [ ECall (Paused "0xPool");
      ELog (Text "Could not check pool pause status");
      ECall (GetReserveData "0xPool" "0xToken");
      ELog (StatusLine (mkReserveStatus true false));
      ELog (Text "Reserve is configured correctly");
      ELog (Text "Pool is active - you should be able to deposit TOKEN!") ].
Proof. vm_compute. reflexivity. Qed.

(** ** The loop of [check-balance] *)

Section Emits.

Context (w : Node).

Lemma emits_ret {A} (a : A) (V : A -> Trace -> Prop)
    (T : string -> Trace -> Prop) (R : Trace -> Prop) :
  V a [] -> emits w (Script.ret a) V T R.
Proof. intros H t. exists []. rewrite app_nil_r. auto. Qed.

Lemma emits_log (l : Line) (V : unit -> Trace -> Prop)
    (T : string -> Trace -> Prop) (R : Trace -> Prop) :
  V tt [ELog l] -> emits w (Script.log l) V T R.
Proof. intros H t. exists [ELog l]. auto. Qed.

Lemma emits_bind {A B} (m : Script A) (f : A -> Script B)
    (V1 : A -> Trace -> Prop) (T1 : string -> Trace -> Prop) (R1 : Trace -> Prop)
    (V : B -> Trace -> Prop) (T : string -> Trace -> Prop) (R : Trace -> Prop) :
  emits w m V1 T1 R1 ->
  (forall a e1, V1 a e1 ->
     emits w (f a) (fun b e2 => V b (e1 ++ e2)) (fun msg e2 => T msg (e1 ++ e2))
       (fun e2 => R (e1 ++ e2))) ->
  (forall msg e, T1 msg e -> T msg e) -> (forall e, R1 e -> R e) ->
  emits w (Script.bind m f) V T R.
Proof.
  intros Hm Hf HT HR t. unfold Script.bind. specialize (Hm t).
  destruct (m w t) as [a t1|msg t1|t1]; destruct Hm as (e1 & -> & H1).
  - specialize (Hf a e1 H1 (t ++ e1)).
    destruct (f a w (t ++ e1)) as [b t2|msg t2|t2]; destruct Hf as (e2 & -> & H2);
      exists (e1 ++ e2); rewrite app_assoc; auto.
  - exists e1. auto.
  - exists e1. auto.
Qed.

Lemma emits_tryCatch {A} (body : Script A) (handler : string -> Script A)
    (T1 : string -> Trace -> Prop)
    (V : A -> Trace -> Prop) (T : string -> Trace -> Prop) (R : Trace -> Prop) :
  emits w body V T1 R ->
  (forall msg e1, T1 msg e1 ->
     emits w (handler msg) (fun a e2 => V a (e1 ++ e2))
       (fun msg' e2 => T msg' (e1 ++ e2)) (fun e2 => R (e1 ++ e2))) ->
  emits w (Script.tryCatch body handler) V T R.
Proof.
  intros Hb Hh t. unfold Script.tryCatch. specialize (Hb t).
  destruct (body w t) as [a t1|msg t1|t1]; destruct Hb as (e1 & -> & H1).
  - exists e1. auto.
  - specialize (Hh msg e1 H1 (t ++ e1)).
    destruct (handler msg w (t ++ e1)) as [b t2|msg' t2|t2];
      destruct Hh as (e2 & -> & H2);
      exists (e1 ++ e2); rewrite app_assoc; auto.
  - exists e1. auto.
Qed.

Lemma emits_weaken {A} (m : Script A)
    (V V' : A -> Trace -> Prop) (T T' : string -> Trace -> Prop)
    (R R' : Trace -> Prop) :
  emits w m V T R ->
  (forall a e, V a e -> V' a e) -> (forall msg e, T msg e -> T' msg e) ->
  (forall e, R e -> R' e) ->
  emits w m V' T' R'.
Proof.
  intros Hm HV HT HR t. specialize (Hm t).
  destruct (m w t); destruct Hm as (e & -> & H); exists e; auto.
Qed.

(** From an invariant of the appended events and the kinds of outcome. *)
Lemma safe_emits {A} (P : Trace -> Prop) (canThrow canReturn : bool)
    (m : Script A) :
  P [] ->
  (forall t0, safe w (since t0 P) (since t0 P) m) ->
  ends canThrow canReturn w m ->
  emits w m (fun _ e => P e) (fun _ e => canThrow = true /\ P e)
    (fun e => canReturn = true /\ P e).
Proof.
  intros H0 Hs He t.
  assert (Ht : since t P t) by (exists []; rewrite app_nil_r; auto).
  specialize (Hs t t Ht). specialize (He t).
  destruct (m w t) as [a t'|msg t'|t'].
  - exact Hs.
  - destruct Hs as (e & -> & H). exists e. auto.
  - destruct Hs as [(e & -> & H)|(e & -> & H)]; exists e; auto.
Qed.

End Emits.

Lemma since_stable (t0 : Trace) (P : Trace -> Prop) (good : Event -> Prop) :
  stable P good -> stable (since t0 P) good.
Proof.
  intros Hs t x (e & -> & H) Hx. exists (e ++ [x]).
  rewrite app_assoc. split; [reflexivity | apply Hs; assumption].
Qed.

Lemma hasRow_app (t1 t2 : Trace) : hasRow (t1 ++ t2) = hasRow t1 || hasRow t2.
Proof. apply existsb_app. Qed.

Lemma printed_app (s : string) (t1 t2 : Trace) :
  printed s (t1 ++ t2) = printed s t1 || printed s t2.
Proof. apply existsb_app. Qed.

Lemma quiet_app (t1 t2 : Trace) : quiet t1 -> quiet t2 -> quiet (t1 ++ t2).
Proof.
  intros (Hr1 & Hc1 & Hn1) (Hr2 & Hc2 & Hn2). unfold quiet, noClosing.
  rewrite hasRow_app, !printed_app, Hr1, Hc1, Hn1, Hr2, Hc2, Hn2. auto.
Qed.

Lemma quiet_one (e : Event) : quietEvent e -> quiet [e].
Proof.
  intros (Hr & Hc & Hn). unfold quiet, noClosing, hasRow, printed.
  cbn [existsb]. rewrite Hr, Hc, Hn. auto.
Qed.

Lemma quiet_stable : stable quiet quietEvent.
Proof. intros t e Ht He. apply quiet_app; [exact Ht | apply quiet_one, He]. Qed.

Ltac quiet_side t0 :=
  first [ exact (since_stable t0 quiet _ quiet_stable)
        | repeat split ].

Lemma erc20BalanceOf_emits (w : World) (token user : address) :
  emits w (erc20BalanceOf token user)
    (fun _ e => e = [ECall (BalanceOf token user)])
    (fun _ e => e = [ECall (BalanceOf token user)])
    (fun _ => False).
Proof.
  intros t. unfold erc20BalanceOf, expectUint, Script.bind, Script.call,
    Script.expectInt, Script.ret, Script.throw.
  destruct (chain w t (BalanceOf token user)) as [|z| | | | | | | |]; eauto.
  destruct ((0 <=? z) && (z <? 2 ^ 256)); eauto.
Qed.

Lemma readMetadata_emits (w : World) (reserve : ReserveToken) :
  emits w (readMetadata reserve) (fun _ e => quiet e)
    (fun _ e => false = true /\ quiet e) (fun e => false = true /\ quiet e).
Proof.
  apply safe_emits; [repeat split | |unfold readMetadata; ends_walk].
  intros t0. unfold readMetadata. safe_walk ltac:(quiet_side t0).
Qed.

Lemma readDeposited_emits (w : World) (pool user : address)
    (reserve : ReserveToken) :
  emits w (readDeposited pool user reserve) (fun _ e => quiet e)
    (fun _ e => false = true /\ quiet e) (fun e => false = true /\ quiet e).
Proof.
  apply safe_emits; [repeat split | |unfold readDeposited; ends_walk].
  intros t0. unfold readDeposited. safe_walk ltac:(quiet_side t0).
Qed.

Lemma readBalances_emits (w : World) (pool user : address)
    (reserve : ReserveToken) :
  emits w (readBalances pool user reserve)
    (fun _ e => In (walletRead user reserve) e /\ quiet e)
    (fun _ e => In (walletRead user reserve) e /\ quiet e)
    (fun _ => False).
Proof.
  unfold readBalances. cbv zeta.
  eapply emits_bind; [apply erc20BalanceOf_emits| |intros msg e ->|intros e []].
  - intros walletBalance e1 ->.
    eapply emits_bind; [apply readDeposited_emits| |intros msg e [[=] _]|intros e [[=] _]].
    intros aTokenBalance e2 He2. apply emits_ret. rewrite app_nil_r.
    split; [left; reflexivity|].
    apply (quiet_app [_] e2); [apply quiet_one; repeat split | exact He2].
  - split; [left; reflexivity | apply quiet_one; repeat split].
Qed.

Lemma checkReserve_emits (w : World) (pool user : address) (i : nat)
    (reserve : ReserveToken) (hasAny : bool) :
  emits w (checkReserve pool user i reserve hasAny)
    (fun result e =>
       In (walletRead user reserve) e
       /\ result = hasAny || hasRow e
       /\ noClosing e)
    (fun _ _ => False) (fun _ => False).
Proof.
  unfold checkReserve.
  apply (emits_tryCatch w _ _
           (fun _ e => In (walletRead user reserve) e /\ quiet e)).
  - eapply emits_bind;
      [apply readMetadata_emits| |intros msg e [[=] _]|intros e [[=] _]].
    intros [sym decimals] e1 He1.
    eapply emits_bind; [apply readBalances_emits| |  |intros e []].
    + intros balances e2 [Hin He2].
      pose proof (quiet_app e1 e2 He1 He2) as (Hr & Hc & Hn).
      destruct (total balances >? 0).
      * eapply emits_bind;
          [apply (emits_log w _ (fun _ e => e = [ELog (BalanceRow (i + 1) sym balances)])
                    (fun _ _ => False) (fun _ => False)); reflexivity
          | |intros msg e []|intros e []].
        intros _ e3 ->. apply emits_ret. rewrite app_nil_r, !app_assoc.
        split; [apply in_or_app; left; apply in_or_app; right; exact Hin|].
        unfold noClosing.
        rewrite (hasRow_app (e1 ++ e2)), (printed_app completeLine (e1 ++ e2)),
          (printed_app noBalanceLine (e1 ++ e2)), Hc, Hn.
        cbn. rewrite !orb_true_r. auto.
      * apply emits_ret. rewrite app_nil_r.
        split; [apply in_or_app; right; exact Hin|].
        unfold noClosing. rewrite Hr, Hc, Hn, orb_false_r. auto.
    + intros msg e2 [Hin Hq]. cbn beta.
      split; [apply in_or_app; right; exact Hin | apply quiet_app; assumption].
  - intros msg e1 [Hin Hq].
    eapply emits_bind;
      [apply (emits_log w _ (fun _ e => quiet e)
                (fun _ _ => False) (fun _ => False)); apply quiet_one; repeat split
      | |intros ? e []|intros e []].
    intros u e2 He2. apply emits_ret. rewrite app_nil_r.
    pose proof (quiet_app e1 e2 Hq He2) as (Hr & Hc & Hn).
    split; [apply in_or_app; left; exact Hin|].
    unfold noClosing. rewrite Hr, Hc, Hn, orb_false_r. auto.
Qed.

Lemma checkReserves_emits (w : World) (pool user : address)
    (reserves : list ReserveToken) :
  forall i hasAny,
    emits w (checkReserves pool user i reserves hasAny)
      (fun result e =>
         Forall (fun reserve => In (walletRead user reserve) e) reserves
         /\ result = hasAny || hasRow e
         /\ noClosing e)
      (fun _ _ => False) (fun _ => False).
Proof.
  induction reserves as [|reserve rest IH]; intros i hasAny; cbn [checkReserves].
  - apply emits_ret. rewrite orb_false_r. repeat split. constructor.
  - eapply emits_bind; [apply checkReserve_emits| |intros msg e []|intros e []].
    intros hasAny' e1 (Hin & -> & Hc1 & Hn1).
    eapply emits_weaken; [apply IH| |intros msg e []|intros e []].
    intros result e2 (Hall & -> & Hc2 & Hn2). cbn beta. split; [|split].
    + constructor; [apply in_or_app; left; exact Hin|].
      eapply List.Forall_impl; [|exact Hall].
      intros r Hr. apply in_or_app. right. exact Hr.
    + rewrite hasRow_app, orb_assoc. reflexivity.
    + unfold noClosing. rewrite !printed_app, Hc1, Hn1, Hc2, Hn2. auto.
Qed.

(** X14.  The loop of [check-balance] examines every reserve: it always
    runs to its end, it reads the wallet balance of each reserve of the
    list whatever failed for the reserves before it, and the flag it
    returns tells whether a row was printed (or the flag was set
    before). *)
Theorem every_reserve_examined (w : World) (pool user : address) (i : nat)
    (reserves : list ReserveToken) (hasAny : bool) (t : Trace) :
  exists result extra,
    checkReserves pool user i reserves hasAny w t = Value result (t ++ extra)
    /\ Forall (fun reserve => In (walletRead user reserve) extra) reserves
    /\ result = hasAny || hasRow extra.
Proof.
  pose proof (checkReserves_emits w pool user reserves i hasAny t) as H.
  destruct (checkReserves pool user i reserves hasAny w t) as [result t'|msg t'|t'];
    destruct H as (extra & -> & H); [|destruct H..].
  exists result, extra. destruct H as (Hall & Hres & _). auto.
Qed.

Lemma quiet_emits {A} (w : World) (m : Script A) :
  (forall t0, safe w (since t0 quiet) (since t0 quiet) m) ->
  emits w m (fun _ e => quiet e) (fun _ e => quiet e) quiet.
Proof.
  intros Hs.
  eapply emits_weaken;
    [apply (safe_emits w quiet true true);
       [repeat split | exact Hs | intros t; destruct (m w t); auto]
    |intros a e H; exact H | intros msg e [_ H]; exact H | intros e [_ H]; exact H].
Qed.

Lemma agrees_quiet (e : Trace) : quiet e -> agrees e.
Proof. intros (Hr & Hc & Hn). unfold agrees. rewrite Hr. exact Hc. Qed.

Lemma agrees_after_quiet (e1 e2 : Trace) :
  quiet e1 -> agrees e2 -> agrees (e1 ++ e2).
Proof.
  intros (Hr & Hc & Hn). unfold agrees.
  rewrite hasRow_app, !printed_app, Hr, Hc, Hn. auto.
Qed.

Lemma agrees_before_quiet (e1 e2 : Trace) :
  agrees e1 -> quiet e2 -> agrees (e1 ++ e2).
Proof.
  intros H (Hr & Hc & Hn). unfold agrees in *.
  rewrite hasRow_app, !printed_app, Hr, Hc, Hn, !orb_false_r. exact H.
Qed.

Lemma emits_after_quiet {A B} (w : World) (m : Script A) (f : A -> Script B) :
  (forall t0, safe w (since t0 quiet) (since t0 quiet) m) ->
  (forall a, emits w (f a) (fun _ e => agrees e) (fun _ e => agrees e) agrees) ->
  emits w (Script.bind m f) (fun _ e => agrees e) (fun _ e => agrees e) agrees.
Proof.
  intros Hm Hf.
  eapply emits_bind; [apply quiet_emits, Hm| | |]; cbn beta.
  - intros a e1 He1.
    eapply emits_weaken; [apply Hf|..]; cbn beta; intros;
      apply agrees_after_quiet; assumption.
  - intros msg e. apply agrees_quiet.
  - intros e. apply agrees_quiet.
Qed.

Lemma checkBalanceMain_agrees (env : gmap string string) (w : World) :
  emits w (checkBalanceMain env) (fun _ e => agrees e) (fun _ e => agrees e)
    agrees.
Proof.
  assert (Hquiet : forall {A} (m : Script A),
            (forall t0, safe w (since t0 quiet) (since t0 quiet) m) ->
            emits w m (fun _ e => agrees e) (fun _ e => agrees e) agrees).
  { intros A m Hm.
    eapply emits_weaken; [apply quiet_emits, Hm|..]; intros; apply agrees_quiet;
      assumption. }
  unfold checkBalanceMain. cbv zeta.
  destruct (negb (JS.truthy _));
    [apply Hquiet; intros t0; safe_walk ltac:(quiet_side t0)|].
  apply emits_after_quiet; [intros t0; apply safe_getSigners|]. intros accounts.
  apply emits_after_quiet; [intros t0; safe_walk ltac:(quiet_side t0)|].
  intros user.
  apply emits_after_quiet; [intros t0; apply safe_getContractAt|]. intros _.
  apply emits_after_quiet;
    [intros t0; unfold listReserves; safe_walk ltac:(quiet_side t0)|].
  intros [|reserve rest];
    [apply Hquiet; intros t0; safe_walk ltac:(quiet_side t0)|].
  eapply emits_bind;
    [apply checkReserves_emits| |intros msg e []|intros e []].
  intros hasAny e1 (_ & Hres & Hc & Hn). cbn [orb] in Hres.
  destruct hasAny; cbn [negb]; apply emits_log; unfold agrees;
    rewrite hasRow_app, !printed_app, <- Hres, Hc, Hn; reflexivity.
Qed.

Lemma printed_In (s : string) (t : Trace) :
  In (ELog (Text s)) t -> printed s t = true.
Proof.
  intros H. apply existsb_exists. exists (ELog (Text s)).
  split; [exact H | apply String.eqb_refl].
Qed.

(** X15.  In every run of [check-balance] the closing line agrees with
    the table: "Balance check complete!" is printed only after at least
    one row, and "No token balances found for this address" only when no
    row was printed. *)
Theorem closing_line_agrees (env : gmap string string) (w : World) :
  (In (ELog (Text "Balance check complete!"))
      (output (runProcess (checkBalanceMain env) w)) ->
   hasRow (output (runProcess (checkBalanceMain env) w)) = true)
  /\ (In (ELog (Text "No token balances found for this address"))
         (output (runProcess (checkBalanceMain env) w)) ->
      hasRow (output (runProcess (checkBalanceMain env) w)) = false).
Proof.
  assert (H : agrees (output (runProcess (checkBalanceMain env) w))).
  { pose proof (checkBalanceMain_agrees env w []) as H. unfold runProcess.
    destruct (checkBalanceMain env w []) as [a t|msg t|t];
      destruct H as (e & -> & H); cbn [output app]; [exact H| |exact H].
    apply agrees_before_quiet; [exact H | apply quiet_one; repeat split]. }
  unfold agrees in H.
  destruct (hasRow (output (runProcess (checkBalanceMain env) w)));
    split; intros Hin; try reflexivity;
    apply printed_In in Hin;
    [change (printed noBalanceLine (output (runProcess (checkBalanceMain env) w)) = true) in Hin
    |change (printed completeLine (output (runProcess (checkBalanceMain env) w)) = true) in Hin];
    rewrite H in Hin; discriminate Hin.
Qed.

Lemma closing_line_agrees_witness :
  hasRow (output (runProcess (checkBalanceMain plainEnv) oneReserveWorld)) = true.
Proof.
  apply (closing_line_agrees plainEnv oneReserveWorld).
  vm_compute. auto 20.
Defined.

(** ** Token decimals that are not a size *)

Lemma loadConfig_decimals (env : gmap string string)
    (amountVariable amountDefault : string) (config : Config) :
  loadConfig env amountVariable amountDefault = Ok config ->
  token_decimals config
  = JS.parseInt (JS.orDefault (env !! "TOKEN_DECIMALS") "18").
Proof.
  unfold loadConfig. destruct (checkRequired _ _); [|discriminate].
  intros H. apply Ok_injective in H. subst config. reflexivity.
Qed.

(** The four operation scripts begin alike: configuration, account,
    contracts, wallet balance, and the balance rendered with the token
    decimals. *)
Lemma decimals_prefix (isLocal : bool) (w : World) (r : Res Config)
    (after : Config -> address -> Z -> unit -> Script unit)
    (main : Script unit) :
  main
  = Script.bind (Script.lift r)
      (fun config =>
         Script.bind (selectUser isLocal)
           (fun user1 =>
              Script.bind (connect config)
                (fun _ =>
                   Script.bind (balanceOf (token_address config) user1)
                     (fun balance =>
                        Script.bind
                          (Script.lift
                             (Ethers.formatUnits balance (token_decimals config)))
                          (after config user1 balance))))) ->
  (forall config,
     r = Ok config -> exists msg, Ethers.getMultiplier (token_decimals config) = Err msg) ->
  exitStatus (runProcess main w) = 1
  /\ readOnly (output (runProcess main w)).
Proof.
  intros -> Hdec.
  match goal with
  | |- context [runProcess ?m _] =>
      assert (H : exists msg t,
                m w [] = Thrown msg t
                /\ readOnly (t ++ [ELog (UncaughtError msg)]))
  end.
  { unfold Script.bind at 1.
    destruct r as [config|msg]; cbn [Script.lift Script.ret Script.throw];
      [|eexists _, _; split; reflexivity].
    destruct (Hdec config eq_refl) as [msg Hmsg].
    unfold Script.bind at 1. rewrite selectUser_cases.
    destruct (pickUser isLocal (signers w)) as [user1|msg'];
      [|eexists _, _; split; reflexivity].
    rewrite bind_connect. unfold Script.bind at 1.
    unfold balanceOf at 1, Script.bind at 1, Script.call at 1.
    unfold Ethers.formatUnits. rewrite Hmsg. cbn [Res_bind Script.lift].
    destruct (chain w [] (BalanceOf (token_address config) user1));
      cbn [Script.expectInt Script.ret Script.throw Script.bind];
      eexists _, _; split; reflexivity. }
  destruct H as (msg & t & Hrun & Hro). unfold runProcess. rewrite Hrun.
  split; [reflexivity | exact Hro].
Qed.

(** X16.  When [TOKEN_DECIMALS] does not give a size that ethers accepts
    (an integer from 0 to 256), each of the four operation scripts stops
    with exit status 1 before it submits anything: at the latest when it
    renders the wallet balance. *)
Theorem invalid_decimals_abort (env : gmap string string) (w : World)
    (main : Script unit) :
  (exists msg,
     Ethers.getMultiplier
       (JS.parseInt (JS.orDefault (env !! "TOKEN_DECIMALS") "18")) = Err msg) ->
  In main [supplyMain env; borrowMain env; repayMain env; withdrawMain env] ->
  exitStatus (runProcess main w) = 1
  /\ readOnly (output (runProcess main w)).
Proof.
  intros Hdec [<-|[<-|[<-|[<-|[]]]]];
    (eapply decimals_prefix;
     [reflexivity
     |intros config Hc; rewrite (loadConfig_decimals _ _ _ _ Hc); exact Hdec]).
Qed.

Lemma invalid_decimals_abort_witness :
  exitStatus
    (runProcess (repayMain (<["TOKEN_DECIMALS" := "eighteen"]> plainEnv))
       oneReserveWorld) = 1
  /\ readOnly
       (output
          (runProcess (repayMain (<["TOKEN_DECIMALS" := "eighteen"]> plainEnv))
             oneReserveWorld)).
Proof.
  apply (invalid_decimals_abort (<["TOKEN_DECIMALS" := "eighteen"]> plainEnv)
           oneReserveWorld).
  - exists "invalid decimal size". vm_compute. reflexivity.
  - right. right. left. reflexivity.
Defined.

(** ** Where [check-balance] takes the reserves from *)

Lemma checkReserves_onlyIf (w : World) (line : Event) (reason : Prop)
    (pool user : address) (reserves : list ReserveToken) :
  (exists p, line = ECall (GetReservesList p)) ->
  forall i hasAny,
    safe w (onlyIf line reason) (onlyIf line reason)
      (checkReserves pool user i reserves hasAny).
Proof.
  intros [p ->].
  induction reserves as [|reserve rest IH]; intros i hasAny; cbn [checkReserves].
  - apply safe_ret.
  - apply safe_bind; [|intros hasAny'; apply IH].
    unfold checkReserve.
    safe_walk ltac:(first [exact (onlyIf_stable _ reason) | discriminate]).
Qed.

(** X17.  [check-balance] asks the pool for its list of reserves only as
    a fallback: when no data provider is configured, or when the data
    provider did not answer with a non-empty list of tokens. *)
Theorem pool_list_is_fallback (env : gmap string string) (w : World) :
  In (ECall (GetReservesList
               (assertPresent
                  (resolveAddress env (isLocalNetwork env) "LENDING_POOL_ADDRESS"))))
     (output (runProcess (checkBalanceMain env) w)) ->
  JS.truthy (resolveAddress env (isLocalNetwork env) "DATA_PROVIDER_ADDRESS") = false
  \/ exists h,
       match chain w h
               (GetAllReservesTokens
                  (assertPresent
                     (resolveAddress env (isLocalNetwork env) "DATA_PROVIDER_ADDRESS")))
       with
       | RTokens (_ :: _) => False
       | _ => True
       end.
Proof.
  apply onlyIf_output; [intros msg; discriminate|].
  match goal with
  | |- safe _ (onlyIf ?l ?r) _ _ => set (line := l); set (reason := r)
  end.
  unfold checkBalanceMain. cbv zeta.
  destruct (negb (JS.truthy _));
    [safe_walk ltac:(first [exact (onlyIf_stable line reason) | discriminate])|].
  apply safe_bind; [apply safe_getSigners|]. intros accounts.
  apply safe_bind;
    [safe_walk ltac:(first [exact (onlyIf_stable line reason) | discriminate])|].
  intros user.
  apply safe_bind; [apply safe_getContractAt|]. intros _.
  apply safe_bind.
  - unfold listReserves.
    destruct (JS.truthy (resolveAddress env (isLocalNetwork env)
                           "DATA_PROVIDER_ADDRESS")) eqn:Hprovider;
      [|apply onlyIf_holds; left; reflexivity].
    apply (safe_bind_value _ _ _ (fun reserves => reserves = [] -> reason)).
    + intros t.
      unfold Script.tryCatch, Script.bind, Script.getContractAt, Script.call.
      destruct (chain w t (GetAllReservesTokens _)) as [| | | | |l| | | |] eqn:E;
        cbn [Script.expectTokens Script.ret Script.throw Script.log];
        intros Hempty; right; exists t; rewrite E; try exact Logic.I.
      rewrite Hempty. exact Logic.I.
    + safe_walk ltac:(first [exact (onlyIf_stable line reason) | discriminate]).
    + intros [|reserve rest] Hreason;
        [apply onlyIf_holds, Hreason; reflexivity | apply safe_ret].
  - intros [|reserve rest];
      [safe_walk ltac:(first [exact (onlyIf_stable line reason) | discriminate])|].
    apply safe_bind;
      [apply checkReserves_onlyIf; eexists; reflexivity|].
    intros hasAny.
    safe_walk ltac:(first [exact (onlyIf_stable line reason) | discriminate]).
Qed.

Lemma pool_list_is_fallback_witness :
  JS.truthy (resolveAddress plainEnv (isLocalNetwork plainEnv) "DATA_PROVIDER_ADDRESS")
  = false
  \/ exists h,
       match chain oneReserveWorld h
               (GetAllReservesTokens
                  (assertPresent
                     (resolveAddress plainEnv (isLocalNetwork plainEnv)
                        "DATA_PROVIDER_ADDRESS")))
       with
       | RTokens (_ :: _) => False
       | _ => True
       end.
Proof.
  apply (pool_list_is_fallback plainEnv oneReserveWorld).
  vm_compute. auto 20.
Defined.

(** The other way round: a data provider that lists a reserve is
    believed, and the pool is not asked. *)
Example provider_list_used :
  output (runProcess (checkBalanceMain providerEnv) providerWorld)
  = [ ECall (GetAllReservesTokens "0xProvider");
      ECall (TokenDecimals "0xDai");
      ECall (BalanceOf "0xDai" "0xUser");
      ECall (GetReserveData "0xPool" "0xDai");
      ELog (BalanceRow 1 "DAI" (mkTokenBalance 5 0 5));
      ELog (Text "Balance check complete!") ].
Proof. vm_compute. reflexivity. Qed.

(** ** Hints that cannot be printed *)

Lemma reportFailure_unhinted (w : World) (k : ErrorKind) (R : Trace -> Prop)
    (banner : string) (hint : string -> option ErrorKind) (message : string) :
  hint message <> Some k ->
  safe w (onlyIf (ELog (Hint k)) False) R (reportFailure banner hint message).
Proof.
  intros Hk. unfold reportFailure.
  destruct (hint message) as [k'|] eqn:E;
    safe_walk ltac:(first [exact (onlyIf_stable _ False)
                          | discriminate
                          | intros [= ->]; apply Hk; reflexivity]).
Qed.

Lemma borrowFailure_unhinted (w : World) (R : Trace -> Prop) (message : string) :
  safe w (onlyIf (ELog (Hint InsufficientCollateral)) False) R
    (reportFailure "Borrow failed!" borrowHint message).
Proof. apply reportFailure_unhinted, shadowed_hints. Qed.

Lemma repayFailure_unhinted (w : World) (R : Trace -> Prop) (message : string) :
  safe w (onlyIf (ELog (Hint NoVariableDebt)) False) R
    (reportFailure "Repayment failed!" repayHint message).
Proof. apply reportFailure_unhinted, shadowed_hints. Qed.

#[local] Hint Resolve borrowFailure_unhinted repayFailure_unhinted
  : script_rules.

(** X18.  Two hints are dead code.  No run of the borrow script prints the
    hint for code 11 (the collateral cannot cover the borrow): a message
    containing '11' contains '1', which is tested first.  For the same
    reason no run of the repay script prints the hint for code 15, which
    comes after the test for '5'. *)
Theorem shadowed_hints_never_printed (env : gmap string string) (w : World) :
  ~ In (ELog (Hint InsufficientCollateral))
       (output (runProcess (borrowMain env) w))
  /\ ~ In (ELog (Hint NoVariableDebt))
          (output (runProcess (repayMain env) w)).
Proof.
  unfold not.
  split; apply onlyIf_output; try (intros msg; discriminate).
  - unfold borrowMain.
    safe_walk ltac:(first [exact (onlyIf_stable _ False) | discriminate]).
  - unfold repayMain.
    safe_walk ltac:(first [exact (onlyIf_stable _ False) | discriminate]).
Qed.
